(** * Piper GPL training recorder: a shallow embedding of [recording.py]

  The development follows the layout of the source file:
  - [Signal]   : the audio processing functions ([normalize_audio],
                 [trim_silence]) over sample sequences;
  - [Ledger]   : the metadata list, its stable sort by filename and the
                 lines written to [metadata.csv];
  - [Recorder] : the [RecorderApp] class (cursor, recording state machine,
                 save path);
  - [Review]   : the [ReviewWindow] class (navigation, play, delete);
  - [PyStr]    : [str.strip] and [str.split] as the loaders use them;
  - [Loader]   : [load_sentences], [load_metadata] and the start of a
                 session.

  Samples are real numbers: the rounding of the float32/float64 arithmetic of
  NumPy is not modelled, but its not-a-number results are (the mean of an
  empty array), since the code branches on comparisons with them. *)

From Stdlib Require Import List String Ascii ZArith QArith Qround Reals Lra Lia Bool.
From Stdlib Require Import Sorted Permutation DecimalString.
Import ListNotations.

(* ------------------------------------------------------------------ *)
(** * Python and NumPy primitives used by the source *)
(* ------------------------------------------------------------------ *)

Module Py.

(** [len(l)] as a Python integer. *)
Definition len {A} (l : list A) : Z := Z.of_nat (List.length l).

(** A Python index into a sequence of length [n]: negative indices count
    from the end; [None] is [IndexError]. *)
Definition norm_index (n i : Z) : option nat :=
  if (i <? 0)%Z
  then (if (0 <=? i + n)%Z then Some (Z.to_nat (i + n)) else None)
  else (if (i <? n)%Z then Some (Z.to_nat i) else None).

(** [l[i]] *)
Definition getitem {A} (l : list A) (i : Z) : option A :=
  match norm_index (len l) i with
  | Some k => nth_error l k
  | None => None
  end.

Fixpoint remove_nth {A} (k : nat) (l : list A) : list A :=
  match l, k with
  | [], _ => []
  | _ :: t, O => t
  | x :: t, S k' => x :: remove_nth k' t
  end.

(** [l.pop(i)]: the list without its element of index [i]; [None] is
    [IndexError]. *)
Definition pop {A} (l : list A) (i : Z) : option (list A) :=
  match norm_index (len l) i with
  | Some k => Some (remove_nth k l)
  | None => None
  end.

(** A slice bound: negative bounds count from the end, and every bound is
    clamped to the sequence. *)
Definition slice_bound (n i : Z) : nat :=
  if (i <? 0)%Z then Z.to_nat (Z.max 0 (i + n)) else Z.to_nat (Z.min i n).

(** [l[lo:hi]] *)
Definition slice {A} (l : list A) (lo hi : Z) : list A :=
  let a := slice_bound (len l) lo in
  let b := slice_bound (len l) hi in
  firstn (b - a) (skipn a l).

(** [int(x)] on an exact rational: truncation toward zero. *)
Definition int (x : Q) : Z := Z.quot (Qnum x) (Zpos (Qden x)).

Fixpoint zeros (n : nat) : string :=
  match n with
  | O => EmptyString
  | S n' => String "0"%char (zeros n')
  end.

(** [f"{n:0{width}d}"]: decimal digits, sign first, padded with zeros up
    to [width] characters. *)
Definition format_0d (width : nat) (n : Z) : string :=
  let digits := NilZero.string_of_uint (N.to_uint (Z.abs_N n)) in
  if (n <? 0)%Z
  then String "-"%char (zeros (width - 1 - String.length digits) ++ digits)
  else (zeros (width - String.length digits) ++ digits)%string.

End Py.

(* ------------------------------------------------------------------ *)
(** * Audio processing functions *)
(* ------------------------------------------------------------------ *)

Module Signal.

Local Open Scope R_scope.

(** A NumPy floating result: a real number or not-a-number. *)
Inductive npfloat : Type :=
| NaN : npfloat
| Fin : R -> npfloat.

Definition sum (l : list R) : R := fold_right Rplus 0 l.

(** [np.mean(a)]: not-a-number on an empty array. *)
Definition np_mean (l : list R) : npfloat :=
  match l with
  | [] => NaN
  | _ :: _ => Fin (sum l / INR (List.length l))
  end.

(** [np.sqrt(x)]: not-a-number below zero. *)
Definition np_sqrt (x : npfloat) : npfloat :=
  match x with
  | NaN => NaN
  | Fin r => if Rlt_dec r 0 then NaN else Fin (sqrt r)
  end.

(** [x < t] and [x > t] with a possibly not-a-number left operand: every
    comparison with not-a-number is false. *)
Definition np_lt (x : npfloat) (t : R) : bool :=
  match x with
  | NaN => false
  | Fin r => if Rlt_dec r t then true else false
  end.

Definition np_gt (x : npfloat) (t : R) : bool :=
  match x with
  | NaN => false
  | Fin r => if Rgt_dec r t then true else false
  end.

(** [audio ** 2] *)
Definition square (audio : list R) : list R := map (fun x => x * x) audio.

(** [np.sqrt(np.mean(audio ** 2))] *)
Definition rms (audio : list R) : npfloat := np_sqrt (np_mean (square audio)).

(** [audio * c] *)
Definition scale (c : R) (audio : list R) : list R := map (fun x => x * c) audio.

(** [np.max(np.abs(audio))] on a non-empty array (NumPy raises on an empty
    one; [normalize_audio] reaches it only when the RMS is positive, that
    is on a non-empty array). *)
Definition peak (audio : list R) : R := fold_right Rmax 0 (map Rabs audio).

Definition TARGET_RMS : R := 0.15.
Definition SILENCE_THRESHOLD : R := 0.01.
Definition SILENCE_DURATION : Q := (1 # 10)%Q.
Definition SAMPLE_RATE : Z := 22050%Z.

Definition normalize_audio (audio : list R) (target_rms : R) : list R :=
  match rms audio with
  | Fin current_rms =>
      if Rgt_dec current_rms 0 then
        let scaling_factor := target_rms / current_rms in
        let audio := scale scaling_factor audio in
        let max_val := peak audio in
        if Rgt_dec max_val 0.95
        then scale (0.95 / max_val) audio
        else audio
      else audio
  | NaN => audio
  end.

(** Sample [j] of [a], zero outside the array (the zero padding of a
    convolution). *)
Definition sample_at (a : list R) (j : Z) : R :=
  if (j <? 0)%Z then 0 else nth (Z.to_nat j) a 0.

(** [np.convolve(a, np.ones(w)/w, mode='same')] for [w <= len(a)]: entry [i]
    sums the [w] samples from [i - w//2] on, each times [1/w]. *)
Definition moving_average (a : list R) (w : nat) : list R :=
  map (fun i : nat =>
         sum (map (fun k : nat =>
                     sample_at a (Z.of_nat i + Z.of_nat k - Z.of_nat (w / 2))
                     * (1 / INR w))
                  (seq 0 w)))
      (seq 0 (List.length a)).

(** The smoothed absolute amplitude of [trim_silence]. *)
Definition smoothed (audio : list R) : list R :=
  let abs_audio := map Rabs audio in
  let window := Nat.min 512 (List.length abs_audio / 10) in
  if (1 <? window)%nat then moving_average abs_audio window else abs_audio.

Definition exceeds (threshold x : R) : bool :=
  if Rgt_dec x threshold then true else false.

(** First index [i >= base] (counting from [base] at the head) whose
    value exceeds the threshold: the forward [for] loop with [break]. *)
Fixpoint first_above (threshold : R) (l : list R) (base : Z) : option Z :=
  match l with
  | [] => None
  | x :: t => if exceeds threshold x then Some base
              else first_above threshold t (base + 1)%Z
  end.

(** Last such index: the backward [for] loop with [break]. *)
Fixpoint last_above (threshold : R) (l : list R) (base : Z) : option Z :=
  match l with
  | [] => None
  | x :: t => match last_above threshold t (base + 1)%Z with
              | Some i => Some i
              | None => if exceeds threshold x then Some base else None
              end
  end.

(** [int(0.05 * sample_rate)] *)
Definition pad_frames (sample_rate : Z) : Z :=
  Py.int ((5 # 100) * inject_Z sample_rate)%Q.

(** [int(duration * sample_rate)] *)
Definition min_frames (sample_rate : Z) (duration : Q) : Z :=
  Py.int (duration * inject_Z sample_rate)%Q.

Definition start_idx (audio : list R) (sample_rate : Z) (threshold : R) : Z :=
  match first_above threshold (smoothed audio) 0%Z with
  | Some i => Z.max 0 (i - pad_frames sample_rate)
  | None => 0%Z
  end.

Definition end_idx (audio : list R) (sample_rate : Z) (threshold : R) : Z :=
  match last_above threshold (smoothed audio) 0%Z with
  | Some i => Z.min (Py.len (smoothed audio)) (i + pad_frames sample_rate)
  | None => Py.len (smoothed audio)
  end.

Definition trim_silence (audio : list R) (sample_rate : Z)
           (threshold : R) (duration : Q) : list R :=
  let s := start_idx audio sample_rate threshold in
  let e := end_idx audio sample_rate threshold in
  if (e - s <? min_frames sample_rate duration)%Z
  then audio
  else Py.slice audio s e.

End Signal.

(* ------------------------------------------------------------------ *)
(** * The metadata ledger *)
(* ------------------------------------------------------------------ *)

Module Ledger.

(** One row [[filename, sentence]] of [self.metadata]. *)
Definition entry : Type := (string * string)%type.

Definition filename_of (e : entry) : string := fst e.
Definition sentence_of (e : entry) : string := snd e.

(** [filename in [entry[0] for entry in metadata]] *)
Definition has_filename (metadata : list entry) (filename : string) : bool :=
  existsb (String.eqb filename) (map filename_of metadata).

(** Insertion of a row in front of the first row whose filename is not
    smaller: the step of a stable sort. *)
Fixpoint insert (e : entry) (l : list entry) : list entry :=
  match l with
  | [] => [e]
  | y :: t => if String.leb (filename_of e) (filename_of y)
              then e :: y :: t
              else y :: insert e t
  end.

(** [sorted(metadata, key=lambda x: x[0])]: Python's sort is stable, so
    its result is the one of a stable insertion sort on the code-point
    order of the filenames. *)
Definition sorted_by_filename (metadata : list entry) : list entry :=
  fold_right insert [] metadata.

(** [f"{entry[0]}|{entry[1]}\n"], without the line terminator. *)
Definition entry_line (e : entry) : string :=
  (filename_of e ++ "|" ++ sentence_of e)%string.

(** The lines the rewrite loop puts in [metadata.csv]. *)
Definition metadata_lines (metadata : list entry) : list string :=
  map entry_line (sorted_by_filename metadata).

(** Number of rows of a filename. *)
Definition rows_of (metadata : list entry) (filename : string) : list entry :=
  filter (fun e => String.eqb filename (filename_of e)) metadata.

End Ledger.

(* ------------------------------------------------------------------ *)
(** * The world the two windows act on *)
(* ------------------------------------------------------------------ *)

Module World.

Import Ledger.

Inductive exn : Type :=
| OSError : exn          (* a file could not be written, opened or removed *)
| IndexError : exn       (* a list index out of range *)
| PortAudioError : exn.  (* the input stream could not be opened *)

(** The texts put in the main window's [status_var]. *)
Inductive status : Type :=
| ReadyToRecord      (* "Ready to record" *)
| AlreadyRecorded    (* "(check mark) Already recorded" *)
| PressSpace         (* "Press Space to record" *)
| AllDone            (* "All done!" *)
| NowRecording       (* "RECORDING... (Press Space to stop)" *)
| ProcessingAudio    (* "Processing audio..." *)
| NoAudioRecorded    (* "No audio recorded!" *)
| FailedTooQuiet     (* "Recording failed - too quiet" *)
| FailedTooLoud      (* "Recording failed - too loud" *)
| SavedAs (filename : string) (rms : Signal.npfloat)
                     (* "(check mark) Saved {filename} (RMS: ...)" *)
| ErrorSaving        (* "Error saving audio" *)
| ErrorStarting.     (* "Error starting recording" *)

(** The message boxes. *)
Inductive dialog : Type :=
| InfoComplete                               (* showinfo "Complete" *)
| WarnLevelTooLow (rms : Signal.npfloat)     (* showwarning, level too low *)
| WarnLevelTooHigh (rms : Signal.npfloat)    (* showwarning, level too high *)
| ErrStartFailed (e : exn)                   (* showerror "Failed to start recording" *)
| ErrSaveFailed (e : exn)                    (* showerror "Failed to save audio" *)
| ErrPlayFailed (e : exn)                    (* showerror "Failed to play audio" *)
| ErrDeleteFailed (e : exn)                  (* showerror "Failed to delete file" *)
| AskConfirmDelete (sentence : string).      (* askyesno "Confirm Delete" *)

(** What the user interface and the audio output are told, in order. *)
Inductive event : Type :=
| StatusSet (s : status)
| Dialog (d : dialog)
| Played (data : list R).

Inductive stream_state : Type := NoStream | StreamActive | StreamClosed.

(** The texts of the level indicator. *)
Inductive level_status : Type :=
| LevelReady | LevelTooQuiet | LevelGood | LevelLoud | LevelClipping.

(** The fields of a [RecorderApp] object. *)
Record RecorderApp : Type := mkApp {
  sentences : list string;
  index : Z;
  recording : bool;
  audio_data : list (list R);
  stream : stream_state;
  metadata : list entry;
  status_var : status;
  level_status_var : level_status
}.

(** The application object, the files under [WAV_DIR] (by file name; a
    file holds the samples written to it), the lines of [metadata.csv]
    ([None]: no such file) and the log of what was shown or played. *)
Record World : Type := mkWorld {
  app : RecorderApp;
  wav_files : string -> option (list R);
  metadata_file : option (list string);
  ui_log : list event
}.

(** What the environment answers during one handler: which operations
    raise, and the answer to the confirmation box. *)
Record Env : Type := mkEnv {
  stream_open_raises : bool;
  sf_write_raises : bool;
  sf_read_raises : bool;
  meta_open_raises : bool;
  os_remove_raises : bool;
  confirm : bool
}.

(** How a handler ends: it returns, or an exception leaves it. *)
Inductive outcome : Type :=
| Returned : outcome
| Uncaught : exn -> outcome.

Definition with_app (f : RecorderApp -> RecorderApp) (w : World) : World :=
  mkWorld (f (app w)) (wav_files w) (metadata_file w) (ui_log w).

Definition log (e : event) (w : World) : World :=
  mkWorld (app w) (wav_files w) (metadata_file w) (ui_log w ++ [e]).

Definition set_index (i : Z) (a : RecorderApp) : RecorderApp :=
  mkApp (sentences a) i (recording a) (audio_data a) (stream a)
        (metadata a) (status_var a) (level_status_var a).

Definition set_recording (b : bool) (a : RecorderApp) : RecorderApp :=
  mkApp (sentences a) (index a) b (audio_data a) (stream a)
        (metadata a) (status_var a) (level_status_var a).

Definition set_audio_data (d : list (list R)) (a : RecorderApp) : RecorderApp :=
  mkApp (sentences a) (index a) (recording a) d (stream a)
        (metadata a) (status_var a) (level_status_var a).

Definition set_stream (s : stream_state) (a : RecorderApp) : RecorderApp :=
  mkApp (sentences a) (index a) (recording a) (audio_data a) s
        (metadata a) (status_var a) (level_status_var a).

Definition set_metadata (m : list entry) (a : RecorderApp) : RecorderApp :=
  mkApp (sentences a) (index a) (recording a) (audio_data a) (stream a)
        m (status_var a) (level_status_var a).

Definition set_status_var (s : status) (a : RecorderApp) : RecorderApp :=
  mkApp (sentences a) (index a) (recording a) (audio_data a) (stream a)
        (metadata a) s (level_status_var a).

Definition set_level_status (s : level_status) (a : RecorderApp) : RecorderApp :=
  mkApp (sentences a) (index a) (recording a) (audio_data a) (stream a)
        (metadata a) (status_var a) s.

(** [self.status_var.set(s)] *)
Definition set_status (s : status) (w : World) : World :=
  log (StatusSet s) (with_app (set_status_var s) w).

(** A message box is shown. *)
Definition show (d : dialog) (w : World) : World := log (Dialog d) w.

(** The file of that name under [WAV_DIR] is created or replaced. *)
Definition put_wav (filename : string) (data : list R) (w : World) : World :=
  mkWorld (app w)
          (fun f => if String.eqb f filename then Some data else wav_files w f)
          (metadata_file w) (ui_log w).

(** The file of that name is removed. *)
Definition remove_wav (filename : string) (w : World) : World :=
  mkWorld (app w)
          (fun f => if String.eqb f filename then None else wav_files w f)
          (metadata_file w) (ui_log w).

(** [metadata.csv] is replaced by these lines. *)
Definition put_metadata_file (lines : list string) (w : World) : World :=
  mkWorld (app w) (wav_files w) (Some lines) (ui_log w).

End World.

(* ------------------------------------------------------------------ *)
(** * The recorder: class [RecorderApp] *)
(* ------------------------------------------------------------------ *)

Module Recorder.

Import Ledger World.
Local Open Scope Z_scope.

Definition LEVEL_THRESHOLD_LOW : R := 0.02%R.
Definition LEVEL_THRESHOLD_HIGH : R := 0.9%R.

(** [f"{idx + 1:03d}.wav"] *)
Definition wav_name (idx : Z) : string :=
  (Py.format_0d 3 (idx + 1) ++ ".wav")%string.

Definition is_recorded (a : RecorderApp) (idx : Z) : bool :=
  has_filename (metadata a) (wav_name idx).

(** The status text chosen by [update_sentence_display]. *)
Definition display_status (a : RecorderApp) : status :=
  if index a <? Py.len (sentences a)
  then (if is_recorded a (index a) then AlreadyRecorded else PressSpace)
  else AllDone.

(** [update_sentence_display]: of what it renders, the status text is
    kept (the sentence label, the progress text and the progress bar are
    presentation only); the status is set only when not recording. *)
Definition update_sentence_display (w : World) : World :=
  if recording (app w) then w else set_status (display_status (app w)) w.

(** The [while] loop of [skip_to_next_unrecorded], run at most [fuel]
    times. *)
Fixpoint skip_loop (fuel : nat) (a : RecorderApp) (i : Z) : Z :=
  match fuel with
  | O => i
  | S fuel' =>
      if (i <? Py.len (sentences a)) && is_recorded a i
      then skip_loop fuel' a (i + 1)
      else i
  end.

(** Every iteration moves the index one step closer to the end of the
    sentence list, so the distance to it is enough fuel. *)
Definition skip_to_next_unrecorded (a : RecorderApp) : RecorderApp :=
  set_index
    (skip_loop (Z.to_nat (Py.len (sentences a) - index a)) a (index a)) a.

Definition next_sentence (w : World) : World :=
  let w := with_app (fun a => set_index (index a + 1) a) w in
  let w := with_app skip_to_next_unrecorded w in
  update_sentence_display w.

Definition previous_sentence (w : World) : World :=
  if 0 <? index (app w)
  then update_sentence_display
         (with_app (fun a => set_index (index a - 1) a) w)
  else w.

Definition skip_sentence (w : World) : World := next_sentence w.

Definition start_recording (env : Env) (w : World) : World :=
  if Py.len (sentences (app w)) <=? index (app w)
  then show InfoComplete w
  else
    let w := with_app (set_recording true) w in
    let w := with_app (set_audio_data []) w in
    let w := set_status NowRecording w in
    if stream_open_raises env
    then
      let w := show (ErrStartFailed PortAudioError) w in
      let w := with_app (set_recording false) w in
      set_status ErrorStarting w
    else with_app (set_stream StreamActive) w.

(** The device delivers one block. *)
Definition audio_callback (indata : list R) (w : World) : World :=
  if recording (app w)
  then with_app (fun a => set_audio_data (audio_data a ++ [indata]) a) w
  else w.

(** [if self.stream: self.stream.stop(); self.stream.close()] *)
Definition close_stream (a : RecorderApp) : RecorderApp :=
  match stream a with
  | NoStream => a
  | _ => set_stream StreamClosed a
  end.

(** [sf.write(filepath, audio, SAMPLE_RATE)]: the file holds the samples,
    or the call raises and no file is changed. *)
Definition sf_write (env : Env) (filename : string) (audio : list R)
           (w : World) : World * outcome :=
  if sf_write_raises env
  then (w, Uncaught OSError)
  else (put_wav filename audio w, Returned).

(** [save_metadata]: the row is appended to the list, then the file is
    rewritten from the sorted list; when the file cannot be opened the
    exception leaves with the row already appended. *)
Definition save_metadata (env : Env) (filename sentence : string)
           (w : World) : World * outcome :=
  let w := with_app
             (fun a => set_metadata (metadata a ++ [(filename, sentence)]) a)
             w in
  if meta_open_raises env
  then (w, Uncaught OSError)
  else (put_metadata_file (metadata_lines (metadata (app w))) w, Returned).

(** The [except] branch of [stop_recording]. *)
Definition save_failed (e : exn) (w : World) : World :=
  let w := show (ErrSaveFailed e) w in
  let w := set_status ErrorSaving w in
  update_sentence_display w.

(** The [try] block of [stop_recording]. *)
Definition save_recording (env : Env) (audio : list R)
           (rms : Signal.npfloat) (w : World) : World :=
  let audio := Signal.trim_silence audio Signal.SAMPLE_RATE
                 Signal.SILENCE_THRESHOLD Signal.SILENCE_DURATION in
  let audio := Signal.normalize_audio audio Signal.TARGET_RMS in
  let filename := wav_name (index (app w)) in
  match sf_write env filename audio w with
  | (w, Uncaught e) => save_failed e w
  | (w, Returned) =>
      match Py.getitem (sentences (app w)) (index (app w)) with
      | None => save_failed IndexError w
      | Some sentence =>
          match save_metadata env filename sentence w with
          | (w, Uncaught e) => save_failed e w
          | (w, Returned) =>
              next_sentence (set_status (SavedAs filename rms) w)
          end
      end
  end.

(** The end of [stop_recording]: the level indicator is reset. *)
Definition reset_led (w : World) : World :=
  with_app (set_level_status LevelReady) w.

Definition stop_recording (env : Env) (w : World) : World :=
  let w := with_app (set_recording false) w in
  let w := set_status ProcessingAudio w in
  let w := with_app close_stream w in
  match audio_data (app w) with
  | [] => update_sentence_display (set_status NoAudioRecorded w)
  | _ :: _ =>
      let audio := List.concat (audio_data (app w)) in
      let rms := Signal.rms audio in
      let w :=
        if Signal.np_lt rms LEVEL_THRESHOLD_LOW then
          update_sentence_display
            (set_status FailedTooQuiet (show (WarnLevelTooLow rms) w))
        else if Signal.np_gt rms LEVEL_THRESHOLD_HIGH then
          update_sentence_display
            (set_status FailedTooLoud (show (WarnLevelTooHigh rms) w))
        else save_recording env audio rms w in
      reset_led w
  end.

Definition toggle_recording (env : Env) (w : World) : World :=
  if recording (app w) then stop_recording env w else start_recording env w.

(** The band of [update_meter] for a peak level. *)
Definition level_band (level : R) : level_status :=
  if Rlt_dec level 0.05 then LevelTooQuiet
  else if Rlt_dec level 0.7 then LevelGood
  else if Rlt_dec level 0.9 then LevelLoud
  else LevelClipping.

(** The commands of the main window. *)
Inductive command : Type :=
| StartStop (env : Env)
| Skip
| Previous
| Block (indata : list R).

Definition step (c : command) (w : World) : World :=
  match c with
  | StartStop env => toggle_recording env w
  | Skip => skip_sentence w
  | Previous => previous_sentence w
  | Block indata => audio_callback indata w
  end.

Definition run (cs : list command) (w : World) : World :=
  fold_left (fun w c => step c w) cs w.

End Recorder.

(* ------------------------------------------------------------------ *)
(** * The review window: class [ReviewWindow] *)
(* ------------------------------------------------------------------ *)

Module Review.

Import Ledger World.
Local Open Scope Z_scope.

(** The text of the sentence label of the review window. *)
Inductive sentence_text : Type :=
| NoRecordings                 (* "No recordings to review" *)
| ShowSentence (s : string)
| EndOfRecordings.             (* "End of recordings" *)

(** The text of the level label of the review window. *)
Inductive level_text : Type :=
| LevelBlank                   (* "" *)
| LevelInfo (data : list R)    (* duration, minimum, maximum and RMS *)
| LevelReadError (e : exn)     (* "Error reading file: ..." *)
| FileMissing.                 (* "File missing!" *)

(** The fields of a [ReviewWindow] object; [self.app] is the application
    object of the world it is used with. *)
Record ReviewWindow : Type := mkReview {
  rmetadata : list entry;
  rindex : Z;
  sentence_label : sentence_text;
  level_label : level_text
}.

Definition set_rindex (i : Z) (rw : ReviewWindow) : ReviewWindow :=
  mkReview (rmetadata rw) i (sentence_label rw) (level_label rw).

Definition set_rmetadata (m : list entry) (rw : ReviewWindow) : ReviewWindow :=
  mkReview m (rindex rw) (sentence_label rw) (level_label rw).

Definition set_labels (s : sentence_text) (l : level_text)
           (rw : ReviewWindow) : ReviewWindow :=
  mkReview (rmetadata rw) (rindex rw) s l.

Definition set_sentence_label (s : sentence_text)
           (rw : ReviewWindow) : ReviewWindow :=
  mkReview (rmetadata rw) (rindex rw) s (level_label rw).

Definition set_level_label (l : level_text)
           (rw : ReviewWindow) : ReviewWindow :=
  mkReview (rmetadata rw) (rindex rw) (sentence_label rw) l.

(** [update_display]; an index below [-len] makes the subscript raise. *)
Definition update_display (env : Env) (rw : ReviewWindow) (w : World)
  : ReviewWindow * outcome :=
  match rmetadata rw with
  | [] => (set_labels NoRecordings LevelBlank rw, Returned)
  | _ :: _ =>
      if rindex rw <? Py.len (rmetadata rw) then
        match Py.getitem (rmetadata rw) (rindex rw) with
        | None => (rw, Uncaught IndexError)
        | Some (filename, sentence) =>
            let rw := set_sentence_label (ShowSentence sentence) rw in
            match wav_files w filename with
            | Some data =>
                if sf_read_raises env
                then (set_level_label (LevelReadError OSError) rw, Returned)
                else (set_level_label (LevelInfo data) rw, Returned)
            | None => (set_level_label FileMissing rw, Returned)
            end
        end
      else (set_labels EndOfRecordings LevelBlank rw, Returned)
  end.

(** [ReviewWindow.__init__]: a copy of the application's list, shown from
    its first row. *)
Definition open_review (env : Env) (w : World) : ReviewWindow * outcome :=
  update_display env
    (mkReview (metadata (app w)) 0 NoRecordings LevelBlank) w.

Definition play_audio (env : Env) (rw : ReviewWindow) (w : World)
  : World * outcome :=
  if rindex rw <? Py.len (rmetadata rw) then
    match Py.getitem (rmetadata rw) (rindex rw) with
    | None => (w, Uncaught IndexError)
    | Some (filename, _) =>
        match wav_files w filename with
        | Some data =>
            if sf_read_raises env
            then (show (ErrPlayFailed OSError) w, Returned)
            else (log (Played data) w, Returned)
        | None => (w, Returned)
        end
    end
  else (w, Returned).

Definition next_sentence (env : Env) (rw : ReviewWindow) (w : World)
  : ReviewWindow * outcome :=
  if rindex rw <? Py.len (rmetadata rw) - 1
  then update_display env (set_rindex (rindex rw + 1) rw) w
  else (rw, Returned).

Definition previous_sentence (env : Env) (rw : ReviewWindow) (w : World)
  : ReviewWindow * outcome :=
  if 0 <? rindex rw
  then update_display env (set_rindex (rindex rw - 1) rw) w
  else (rw, Returned).

(** The part of [delete_audio] after the file is gone: the row is popped,
    the application's list replaced by a copy, the file rewritten sorted,
    the index stepped back when it fell off the end, both displays
    refreshed. *)
Definition delete_row (env : Env) (rw : ReviewWindow) (w : World)
  : ReviewWindow * World * outcome :=
  match Py.pop (rmetadata rw) (rindex rw) with
  | None => (rw, w, Uncaught IndexError)
  | Some m =>
      let rw := set_rmetadata m rw in
      let w := with_app (set_metadata m) w in
      if meta_open_raises env
      then (rw, w, Uncaught OSError)
      else
        let w := put_metadata_file (metadata_lines m) w in
        let rw :=
          if (Py.len (rmetadata rw) <=? rindex rw) && (0 <? rindex rw)
          then set_rindex (rindex rw - 1) rw
          else rw in
        match update_display env rw w with
        | (rw, Uncaught e) => (rw, w, Uncaught e)
        | (rw, Returned) =>
            (rw, Recorder.update_sentence_display w, Returned)
        end
  end.

Definition delete_audio (env : Env) (rw : ReviewWindow) (w : World)
  : ReviewWindow * World * outcome :=
  if rindex rw <? Py.len (rmetadata rw) then
    match Py.getitem (rmetadata rw) (rindex rw) with
    | None => (rw, w, Uncaught IndexError)
    | Some (filename, sentence) =>
        let w := show (AskConfirmDelete sentence) w in
        if confirm env then
          match wav_files w filename with
          | Some _ =>
              if os_remove_raises env
              then (rw, show (ErrDeleteFailed OSError) w, Returned)
              else delete_row env rw (remove_wav filename w)
          | None => delete_row env rw w
          end
        else (rw, w, Returned)
    end
  else (rw, w, Returned).

(** [close_window]: the main display is refreshed and the window
    destroyed. *)
Definition close_window (rw : ReviewWindow) (w : World) : World :=
  Recorder.update_sentence_display w.

End Review.

(* ------------------------------------------------------------------ *)
(** * Strings: [str.strip] and [str.split] *)
(* ------------------------------------------------------------------ *)

Module PyStr.

(** A string from the values of its bytes. *)
Definition bytes (l : list nat) : string :=
fold_right (fun n s => String (ascii_of_nat n) s) EmptyString l.

(** The characters for which [str.isspace] holds, in UTF-8: U+0009 to
U+000D, U+001C to U+0020, U+0085, U+00A0, U+1680, U+2000 to U+200A,
U+2028, U+2029, U+202F, U+205F and U+3000. *)
Definition whitespace : list string :=
map bytes
([[9]; [10]; [11]; [12]; [13]; [28]; [29]; [30]; [31]; [32];
 [194; 133]; [194; 160]; [225; 154; 128];
 [226; 128; 128]; [226; 128; 129]; [226; 128; 130]; [226; 128; 131];
 [226; 128; 132]; [226; 128; 133]; [226; 128; 134]; [226; 128; 135];
 [226; 128; 136]; [226; 128; 137]; [226; 128; 138];
 [226; 128; 168]; [226; 128; 169]; [226; 128; 175];
 [226; 129; 159]; [227; 128; 128]])%nat.

(** The rest of [s] after the prefix [p], when [s] starts with it. *)
Fixpoint after_prefix (p s : string) : option string :=
match p, s with
| EmptyString, _ => Some s
| String _ _, EmptyString => None
| String a p', String b s' =>
    if Ascii.eqb a b then after_prefix p' s' else None
end.

(** The rest of [s] after one leading white-space character. *)
Definition drop_space (spaces : list string) (s : string) : option string :=
fold_right (fun p r => match after_prefix p s with
                       | Some rest => Some rest
                       | None => r
                       end) None spaces.

Fixpoint lstrip_loop (fuel : nat) (spaces : list string) (s : string)
: string :=
match fuel with
| O => s
| S fuel' => match drop_space spaces s with
             | Some rest => lstrip_loop fuel' spaces rest
             | None => s
             end
end.

Fixpoint rev (s : string) : string :=
match s with
| EmptyString => EmptyString
| String c t => (rev t ++ String c EmptyString)%string
end.

(** [s.lstrip()]: every removal shortens the string, so its length is
enough fuel. *)
Definition lstrip (s : string) : string :=
lstrip_loop (String.length s) whitespace s.

(** [s.rstrip()], read from the end of the string. *)
Definition rstrip (s : string) : string :=
rev (lstrip_loop (String.length s) (map rev whitespace) (rev s)).

(** [s.strip()] *)
Definition strip (s : string) : string := rstrip (lstrip s).

(** [s.split(sep, 1)] when it has two parts: the text before the first
[sep] and the text after it; [None] when [sep] does not occur (the
split then has one part). *)
Fixpoint split_once (sep : ascii) (s : string) : option (string * string) :=
match s with
| EmptyString => None
| String c t =>
    if Ascii.eqb c sep then Some (EmptyString, t)
    else match split_once sep t with
         | Some (a, b) => Some (String c a, b)
         | None => None
         end
end.

(** [c in s] for a character. *)
Fixpoint contains (c : ascii) (s : string) : bool :=
match s with
| EmptyString => false
| String d t => Ascii.eqb d c || contains c t
end.

End PyStr.

(* ------------------------------------------------------------------ *)
(** * Loading the sentences and the ledger *)
(* ------------------------------------------------------------------ *)

Module Loader.

Import Ledger.

Definition DEFAULT_SENTENCES : list string :=
  ["CQ Contest, CQ Contest, this is Whiskey Seven India Yankee.";
   "Alpha Bravo Three Charlie Delta calling CQ on twenty meters.";
   "Sierra Oscar Tango Alpha calling and listening.";
   "Whiskey Seven India Yankee, you're five nine in zone five.";
   "You're five nine nine, name here is Mike, Mike.";
   "Your signal is five seven here in Virginia.";
   "November One Mike Mike, you're five nine, QSL?";
   "That's five nine nine, contest number two three four.";
   "My QTH is Grid Square Echo Mike Seven Three.";
   "Zone one four, state is California, over.";
   "Running one hundred watts to a dipole antenna.";
   "Roger, thanks for the contact, seven three.";
   "Kilo Four Zulu Echo Charlie, go ahead please.";
   "Frequency is clear, go ahead with your call.";
   "Good luck in the contest, Whiskey Seven India Yankee clear.";
   "Confirm your callsign is November Seven Bravo Romeo Charlie?";
   "Last two of serial number are eight seven.";
   "What's your power output and antenna configuration?";
   "Can you hear me through the static and interference?";
   "Which band are you planning to operate on tonight?";
   "Have you worked any DX stations this morning?";
   "Are you using a vertical or horizontal polarization?";
   "The weather here is cloudy with occasional showers.";
   "Propagation conditions are excellent on fifteen meters today.";
   "Heavy thunderstorms are affecting reception in the northeast.";
   "My transceiver is a modern digital radio with DSP.";
   "The antenna tuner matches impedance perfectly.";
   "I'm adjusting the microphone gain for better audio quality.";
   "Please switch to the upper sideband for this contact.";
   "I've been a licensed amateur radio operator for twelve years.";
   "The local club meets every Thursday evening at seven.";
   "Your audio sounds crisp and clear on my receiver.";
   "I enjoy chasing rare DX entities and collecting QSL cards.";
   "My favorite mode is CW, though I also enjoy phone contacts.";
   "During the contest, I managed to work stations in over forty countries across six continents."]%string.

(** What opening and reading a text file gives: its lines (each without
its line end), or one of the two exceptions [load_sentences] tells
apart. *)
Inductive read_result : Type :=
| FileNotFound : read_result
| ReadFailed : read_result
| Lines : list string -> read_result.

Definition nonempty (s : string) : bool :=
match s with
| EmptyString => false
| String _ _ => true
end.

(** [[line.strip() for line in f if line.strip()]] *)
Definition stripped_lines (lines : list string) : list string :=
map PyStr.strip (filter (fun line => nonempty (PyStr.strip line)) lines).

Definition load_sentences (file : read_result) : list string :=
match file with
| Lines lines =>
    match stripped_lines lines with
    | [] => DEFAULT_SENTENCES
    | sentences => sentences
    end
| FileNotFound => DEFAULT_SENTENCES
| ReadFailed => DEFAULT_SENTENCES
end.

(** The body of the loop of [load_metadata] for one line: the rows it
appends. *)
Definition parse_line (line : string) : list entry :=
let line := PyStr.strip line in
if nonempty line then
  match PyStr.split_once "|"%char line with
  | Some (filename, sentence) => [(filename, sentence)]
  | None => []
  end
else [].

(** [load_metadata] on the ledger file ([None]: it does not exist). *)
Definition load_metadata (file : option (list string)) : list entry :=
match file with
| Some lines => flat_map parse_line lines
| None => []
end.

(** [create_default_sentences_file] on the sentences file ([None]: it
does not exist): an existing file is left alone; otherwise the default
sentences are written, one per line, unless the write raises (the
exception is caught and no file results). *)
Definition create_default_sentences_file (file : option (list string))
           (write_raises : bool) : option (list string) :=
match file with
| Some lines => Some lines
| None => if write_raises then None else Some DEFAULT_SENTENCES
end.

(** What [load_sentences] reads from the sentences file as
[create_default_sentences_file] left it. *)
Definition read_sentences_file (file : option (list string)) : read_result :=
match file with
| Some lines => Lines lines
| None => FileNotFound
end.

(** [RecorderApp.__init__] after the window is built: the ledger is
loaded, the cursor put on the first unrecorded sentence and the display
refreshed. *)
Definition init (sentences : list string)
           (wav_files : string -> option (list R))
           (metadata_file : option (list string)) : World.World :=
let a := World.mkApp sentences 0 false [] World.NoStream
           (load_metadata metadata_file) World.ReadyToRecord
           World.LevelReady in
Recorder.update_sentence_display
  (World.with_app Recorder.skip_to_next_unrecorded
     (World.mkWorld a wav_files metadata_file [])).

End Loader.

(* ------------------------------------------------------------------ *)
(** * Predicates used in the statements *)
(* ------------------------------------------------------------------ *)

Module Props.

Import Ledger World.

(** Ascending order of two rows by filename. *)
Definition filename_le (a b : entry) : Prop :=
  String.leb (filename_of a) (filename_of b) = true.

(** The ledger is the same in two worlds, in memory and as persisted. *)
Definition same_ledger (w w' : World) : Prop :=
  metadata (app w') = metadata (app w) /\
  metadata_file w' = metadata_file w.

(** The cursor and the sentence list are the same in two worlds. *)
Definition same_cursor (w w' : World) : Prop :=
  sentences (app w') = sentences (app w) /\
  index (app w') = index (app w).

(** The audio files are the same in two worlds. *)
Definition same_files (w w' : World) : Prop :=
  forall f, wav_files w' f = wav_files w f.

(** An event was added to the log between two worlds. *)
Definition reported (e : event) (w w' : World) : Prop :=
  exists before after, ui_log w' = ui_log w ++ before ++ e :: after.

(** No message box was shown and nothing was played between two
    worlds: the log grew by status texts only. *)
Definition only_status (w w' : World) : Prop :=
  exists ss, ui_log w' = ui_log w ++ map StatusSet ss.

(** The world of [stop_recording] once the stream is closed. *)
Definition stopping (w : World) : World :=
  with_app Recorder.close_stream
    (set_status ProcessingAudio (with_app (set_recording false) w)).

(** The samples [stop_recording] writes for a capture. *)
Definition processed (audio : list R) : list R :=
  Signal.normalize_audio
    (Signal.trim_silence audio Signal.SAMPLE_RATE
       Signal.SILENCE_THRESHOLD Signal.SILENCE_DURATION)
    Signal.TARGET_RMS.

(** A two-prompt session: cursor, captured blocks and ledger as given,
    no file on disk. *)
Definition two_prompts (i : Z) (d : list (list R)) (m : list entry)
  : World :=
  mkWorld
    (mkApp ["Hello world"; "Test two"]%string i false d NoStream m
           ReadyToRecord LevelReady)
    (fun _ => None) None [].

(** An environment in which nothing raises and the user confirms. *)
Definition calm : Env := mkEnv false false false false false true.

(** An environment in which only the opening of [metadata.csv] raises. *)
Definition ledger_locked : Env := mkEnv false false false true false true.

(** An environment in which only the removal of a file raises. *)
Definition file_locked : Env := mkEnv false false false false true true.

(** The two-prompt session after prompt 1 was recorded: the cursor is
    on prompt 2, the ledger has the row of [001.wav] and the file is
    there. *)
Definition one_recorded : World :=
  put_wav "001.wav" [0.2%R]
    (two_prompts 1 [] [("001.wav", "Hello world")]%string).

(** The window, the world and the outcome that the handlers of the
    review window return together. *)
Definition window_of {A B C} (r : A * B * C) : A := fst (fst r).
Definition world_of {A B C} (r : A * B * C) : B := snd (fst r).
Definition outcome_of {A B C} (r : A * B * C) : C := snd r.

(** A row that [metadata.csv] can hold on one line and give back: no
separator in the filename, no line break in the line, and a line that
[str.strip] leaves as it is. *)
Definition well_formed_row (e : entry) : Prop :=
PyStr.contains "|"%char (filename_of e) = false /\
PyStr.contains (ascii_of_nat 10) (entry_line e) = false /\
PyStr.contains (ascii_of_nat 13) (entry_line e) = false /\
PyStr.strip (entry_line e) = entry_line e.

(** The file names of the first 999 prompts, with their indices. *)
Definition first_names : list (Z * string) :=
map (fun k => (Z.of_nat k, Recorder.wav_name (Z.of_nat k))) (seq 0 999).

(** The index of the review window is on a row of its list (or is 0
when the list is empty). *)
Definition in_view (rw : Review.ReviewWindow) : Prop :=
(0 <= Review.rindex rw)%Z /\
(Review.rindex rw <= Z.max 0 (Py.len (Review.rmetadata rw) - 1))%Z.

(** A sequence of [save_metadata] calls, one per row. *)
Definition save_all (env : Env) (saves : list entry) (w : World) : World :=
  fold_left
    (fun w e =>
       fst (Recorder.save_metadata env (filename_of e) (sentence_of e) w))
    saves w.

(** A string that is one line of a text file: it holds no line feed and
no carriage return. *)
Definition one_line (s : string) : Prop :=
PyStr.contains (ascii_of_nat 10) s = false /\
PyStr.contains (ascii_of_nat 13) s = false.

(** What reading a text file line by line can give: lines that hold no
line break. *)
Definition text_file (file : Loader.read_result) : Prop :=
match file with
| Loader.Lines lines => Forall one_line lines
| _ => True
end.

(** Every row of a ledger pairs the file of a prompt with the text of
that prompt. *)
Definition prompt_rows (sentences : list string) (m : list entry) : Prop :=
Forall (fun e => exists i : Z,
                   filename_of e = Recorder.wav_name i /\
                   Py.getitem sentences i = Some (sentence_of e)) m.

End Props.

(* ------------------------------------------------------------------ *)
(** * Facts on the Python primitives *)
(* ------------------------------------------------------------------ *)

Module PyFacts.

Lemma slice_all {A} (l : list A) : Py.slice l 0 (Py.len l) = l.
Proof.
  unfold Py.slice, Py.slice_bound, Py.len.
  destruct (Z.ltb_spec (Z.of_nat (List.length l)) 0); [lia|].
  simpl. rewrite Z.min_id, Nat2Z.id, (Z.min_l 0) by lia.
  simpl. rewrite Nat.sub_0_r. apply firstn_all.
Qed.

Lemma norm_index_in_range (n i : Z) :
  (0 <= i < n)%Z -> Py.norm_index n i = Some (Z.to_nat i).
Proof.
  intros H. unfold Py.norm_index.
  destruct (Z.ltb_spec i 0); [lia|].
  destruct (Z.ltb_spec i n); [reflexivity|lia].
Qed.

Lemma remove_nth_length {A} (k : nat) (l : list A) :
  (k < List.length l)%nat ->
  List.length (Py.remove_nth k l) = (List.length l - 1)%nat.
Proof.
  revert k. induction l as [|x t IH]; intros k H; simpl in H; [lia|].
  destruct k as [|k]; simpl; [lia|].
  rewrite IH by lia. lia.
Qed.

Lemma remove_nth_split {A} (k : nat) (l : list A) :
  Py.remove_nth k l = firstn k l ++ skipn (S k) l.
Proof.
  revert k. induction l as [|x t IH]; intros k.
  - destruct k; reflexivity.
  - destruct k as [|k]; [reflexivity|].
    simpl. f_equal. apply IH.
Qed.

End PyFacts.

(* ------------------------------------------------------------------ *)
(** * Facts on the audio processing functions *)
(* ------------------------------------------------------------------ *)

Module SignalFacts.

Import Signal.
Local Open Scope R_scope.

Lemma peak_nonneg (l : list R) : 0 <= peak l.
Proof.
  unfold peak. induction l as [|x t IH]; simpl; [lra|].
  eapply Rle_trans; [exact IH|apply Rmax_r].
Qed.

Lemma peak_scale (c : R) (l : list R) : peak (scale c l) = Rabs c * peak l.
Proof.
  unfold peak, scale. induction l as [|x t IH]; simpl.
  - ring.
  - rewrite IH, Rabs_mult, (Rmult_comm (Rabs x)).
    apply RmaxRmult, Rabs_pos.
Qed.

Lemma peak_bounds (l : list R) : Forall (fun x => Rabs x <= peak l) l.
Proof.
  unfold peak. induction l as [|x t IH]; constructor; simpl.
  - apply Rmax_l.
  - eapply Forall_impl; [|exact IH].
    intros y Hy. simpl in Hy. eapply Rle_trans; [exact Hy|apply Rmax_r].
Qed.

Lemma scale_length (c : R) (l : list R) :
  List.length (scale c l) = List.length l.
Proof. apply length_map. Qed.

Lemma sum_square_nonneg (l : list R) : 0 <= sum (square l).
Proof.
  induction l as [|x t IH]; simpl; [lra|].
  pose proof (Rle_0_sqr x) as H. unfold Rsqr in H. lra.
Qed.

Lemma sum_square_zero (l : list R) :
  Forall (fun x => x = 0) l -> sum (square l) = 0.
Proof.
  induction 1 as [|x t Hx _ IH]; simpl; [reflexivity|].
  rewrite IH, Hx. ring.
Qed.

(** The RMS of a non-empty array is a number, the square root of the
    mean square; the RMS of the empty array is not a number. *)
Lemma rms_cons (x : R) (t : list R) :
  rms (x :: t) =
  Fin (sqrt (sum (square (x :: t)) / INR (List.length (square (x :: t))))).
Proof.
  unfold rms.
  change (square (x :: t)) with (x * x :: square t).
  cbn [np_mean np_sqrt].
  match goal with
  | |- context [Rlt_dec ?a 0] => destruct (Rlt_dec a 0) as [H|H]
  end; [exfalso|reflexivity].
  pose proof (sum_square_nonneg (x :: t)) as Hs.
  change (square (x :: t)) with (x * x :: square t) in Hs.
  assert (Hn : 0 < INR (List.length (x * x :: square t)))
    by (apply lt_0_INR; simpl; lia).
  apply (Rlt_irrefl 0). eapply Rle_lt_trans; [|exact H].
  apply Rmult_le_pos; [exact Hs|].
  left. apply Rinv_0_lt_compat. exact Hn.
Qed.

Lemma rms_nil : rms [] = NaN.
Proof. reflexivity. Qed.

Lemma rms_nonneg (audio : list R) (r : R) : rms audio = Fin r -> 0 <= r.
Proof.
  destruct audio as [|x t]; [discriminate|].
  rewrite rms_cons. intros [= <-]. apply sqrt_pos.
Qed.

Lemma rms_NaN_nil (audio : list R) : rms audio = NaN -> audio = [].
Proof.
  destruct audio as [|x t]; [reflexivity|].
  rewrite rms_cons. discriminate.
Qed.

Lemma rms_all_zero (x : R) (t : list R) :
  Forall (fun y => y = 0) (x :: t) -> rms (x :: t) = Fin 0.
Proof.
  intros H. rewrite rms_cons, (sum_square_zero _ H).
  unfold Rdiv. rewrite Rmult_0_l, sqrt_0. reflexivity.
Qed.

Lemma rms_single (x : R) : 0 <= x -> rms [x] = Fin x.
Proof.
  intros H. rewrite rms_cons. f_equal. simpl.
  replace ((x * x + 0) / 1) with (Rsqr x) by (unfold Rsqr; field).
  apply sqrt_Rsqr, H.
Qed.

Lemma normalize_NaN (audio : list R) (t : R) :
  rms audio = NaN -> normalize_audio audio t = audio.
Proof. intros H. unfold normalize_audio. rewrite H. reflexivity. Qed.

Lemma normalize_zero_rms (audio : list R) (t : R) :
  rms audio = Fin 0 -> normalize_audio audio t = audio.
Proof.
  intros H. unfold normalize_audio. rewrite H.
  destruct (Rgt_dec 0 0) as [H0|_]; [lra|reflexivity].
Qed.

Lemma normalize_scaled (audio : list R) (t r : R) :
  rms audio = Fin r -> r <> 0 ->
  normalize_audio audio t =
  if Rgt_dec (peak (scale (t / r) audio)) 0.95
  then scale (0.95 / peak (scale (t / r) audio)) (scale (t / r) audio)
  else scale (t / r) audio.
Proof.
  intros H Hr. pose proof (rms_nonneg _ _ H) as Hp.
  unfold normalize_audio. rewrite H.
  destruct (Rgt_dec r 0) as [_|Hn]; [reflexivity|lra].
Qed.

Lemma peak_rescaled (l : list R) :
  peak l > 0.95 -> peak (scale (0.95 / peak l) l) = 0.95.
Proof.
  intros H. rewrite peak_scale.
  rewrite Rabs_right.
  - field. lra.
  - apply Rle_ge. apply Rmult_le_pos; [lra|].
    left. apply Rinv_0_lt_compat. lra.
Qed.

(** ** Silence trimming *)

Lemma moving_average_length (a : list R) (w : nat) :
  List.length (moving_average a w) = List.length a.
Proof. unfold moving_average. rewrite length_map, length_seq. reflexivity. Qed.

Lemma smoothed_length (audio : list R) :
  List.length (smoothed audio) = List.length audio.
Proof.
  unfold smoothed. destruct (1 <? _)%nat.
  - rewrite moving_average_length. apply length_map.
  - apply length_map.
Qed.

Lemma first_above_none (th : R) (l : list R) (b : Z) :
  Forall (fun x => ~ x > th) l -> first_above th l b = None.
Proof.
  intros H. revert b. induction H as [|x t Hx _ IH]; intros b; simpl.
  - reflexivity.
  - unfold exceeds. destruct (Rgt_dec x th); [contradiction|apply IH].
Qed.

Lemma last_above_none (th : R) (l : list R) (b : Z) :
  Forall (fun x => ~ x > th) l -> last_above th l b = None.
Proof.
  intros H. revert b. induction H as [|x t Hx _ IH]; intros b; simpl.
  - reflexivity.
  - rewrite IH. unfold exceeds. destruct (Rgt_dec x th); [contradiction|reflexivity].
Qed.

Lemma trim_silence_quiet (audio : list R) (sr : Z) (th : R) (d : Q) :
  Forall (fun x => ~ x > th) (smoothed audio) ->
  trim_silence audio sr th d = audio.
Proof.
  intros H. unfold trim_silence, start_idx, end_idx.
  rewrite (first_above_none th _ 0 H), (last_above_none th _ 0 H).
  destruct (_ <? _)%Z; [reflexivity|].
  unfold Py.len. rewrite smoothed_length. apply PyFacts.slice_all.
Qed.

Lemma trim_silence_short (audio : list R) (sr : Z) (th : R) (d : Q) :
  (end_idx audio sr th - start_idx audio sr th < min_frames sr d)%Z ->
  trim_silence audio sr th d = audio.
Proof.
  intros H. unfold trim_silence.
  destruct (Z.ltb_spec (end_idx audio sr th - start_idx audio sr th)
                       (min_frames sr d)); [reflexivity|lia].
Qed.

(** ** The two claims on the signal functions *)

(** C7. [normalize_audio] is the reference definition: an input whose RMS
    is 0 (in particular an all-zero one) is returned unchanged, with its
    length; otherwise the result is the input scaled by
    [target_rms / rms], scaled again by [0.95 / peak] when the peak of the
    scaled samples exceeds 0.95, and then the peak of the result is at
    most 0.95.  The empty input, whose RMS is not a number, is returned
    unchanged too. *)
Theorem normalize_audio_reference (audio : list R) (t : R) :
  (rms audio = Fin 0 -> normalize_audio audio t = audio) /\
  (Forall (fun x => x = 0) audio ->
     normalize_audio audio t = audio /\
     List.length (normalize_audio audio t) = List.length audio) /\
  (forall r, rms audio = Fin r -> r <> 0 ->
     (~ peak (scale (t / r) audio) > 0.95 ->
        normalize_audio audio t = scale (t / r) audio) /\
     (peak (scale (t / r) audio) > 0.95 ->
        normalize_audio audio t =
          scale (0.95 / peak (scale (t / r) audio)) (scale (t / r) audio) /\
        peak (normalize_audio audio t) <= 0.95)) /\
  (rms audio = NaN -> audio = [] /\ normalize_audio audio t = audio).
Proof.
  split; [apply normalize_zero_rms|].
  split.
  { intros Hz.
    assert (E : normalize_audio audio t = audio).
    { destruct audio as [|x l]; [apply normalize_NaN, rms_nil|].
      apply normalize_zero_rms, rms_all_zero, Hz. }
    rewrite E. split; reflexivity. }
  split.
  { intros r Hr Hr0. rewrite (normalize_scaled audio t r Hr Hr0).
    destruct (Rgt_dec (peak (scale (t / r) audio)) 0.95) as [Hp|Hp].
    - split; [intros Hn; contradiction|].
      intros _. split; [reflexivity|].
      rewrite (peak_rescaled _ Hp). lra.
    - split; [reflexivity|]. intros Hq. contradiction. }
  intros Hn. split; [apply rms_NaN_nil, Hn|apply normalize_NaN, Hn].
Qed.

Lemma rms_ones : rms [1; 1] = Fin 1.
Proof.
  rewrite rms_cons. f_equal.
  replace (sum (square [1; 1]) / INR (List.length (square [1; 1]))) with 1.
  - apply sqrt_1.
  - simpl. field.
Qed.

Lemma peak_twos : peak (scale (2 / 1) [1; 1]) > 0.95.
Proof.
  unfold peak. simpl.
  eapply Rlt_le_trans; [|apply Rmax_l].
  rewrite Rabs_right; lra.
Qed.

Lemma normalize_audio_reference_witness :
  normalize_audio [0; 0] 0.15 = [0; 0] /\
  peak (normalize_audio [1; 1] 2) <= 0.95.
Proof.
  split.
  - apply (proj1 (normalize_audio_reference [0; 0] 0.15)).
    apply rms_all_zero. repeat constructor.
  - destruct (normalize_audio_reference [1; 1] 2) as (_ & _ & H & _).
    destruct (H 1 rms_ones) as [_ H2]; [lra|].
    apply (H2 peak_twos).
Defined.

(** C8. [trim_silence] returns its input unchanged when the smoothed
    absolute amplitude never exceeds the threshold, and when the detected
    span (from the first exceedance less the pre-roll, clamped at the
    start, to the last exceedance plus the pad, clamped at the end) is
    shorter than the [int(duration * sample_rate)] frames of the guard. *)
Theorem trim_silence_guard (audio : list R) (sr : Z) (th : R) (d : Q) :
  (Forall (fun x => ~ x > th) (smoothed audio) ->
     trim_silence audio sr th d = audio) /\
  ((end_idx audio sr th - start_idx audio sr th < min_frames sr d)%Z ->
     trim_silence audio sr th d = audio).
Proof.
  split; [apply trim_silence_quiet|apply trim_silence_short].
Qed.

Lemma smoothed_zeros_quiet :
  Forall (fun x => ~ x > SILENCE_THRESHOLD) (smoothed [0; 0; 0]).
Proof.
  unfold smoothed, SILENCE_THRESHOLD. simpl.
  rewrite Rabs_R0. repeat constructor; lra.
Qed.

Lemma single_sample_span :
  (end_idx [1%R] SAMPLE_RATE SILENCE_THRESHOLD
   - start_idx [1%R] SAMPLE_RATE SILENCE_THRESHOLD
   < min_frames SAMPLE_RATE SILENCE_DURATION)%Z.
Proof.
  unfold end_idx, start_idx, smoothed, SILENCE_THRESHOLD. simpl.
  unfold exceeds. rewrite Rabs_R1.
  destruct (Rgt_dec 1 0.01) as [_|H]; [|lra].
  vm_compute. reflexivity.
Qed.

Lemma trim_silence_guard_witness :
  trim_silence [0; 0; 0] SAMPLE_RATE SILENCE_THRESHOLD SILENCE_DURATION
    = [0; 0; 0] /\
  trim_silence [1] SAMPLE_RATE SILENCE_THRESHOLD SILENCE_DURATION = [1].
Proof.
  split.
  - apply (proj1 (trim_silence_guard [0; 0; 0] SAMPLE_RATE
                    SILENCE_THRESHOLD SILENCE_DURATION)).
    exact smoothed_zeros_quiet.
  - apply (proj2 (trim_silence_guard [1] SAMPLE_RATE
                    SILENCE_THRESHOLD SILENCE_DURATION)).
    exact single_sample_span.
Defined.

End SignalFacts.

(* ------------------------------------------------------------------ *)
(** * Facts on the ledger and its sort *)
(* ------------------------------------------------------------------ *)

Module LedgerFacts.

Import Ledger Props.

Lemma leb_refl (s : string) : String.leb s s = true.
Proof. destruct (String.leb_total s s); assumption. Qed.

Lemma insert_perm (e : entry) (l : list entry) :
  Permutation (insert e l) (e :: l).
Proof.
  induction l as [|y t IH]; simpl.
  - apply Permutation_refl.
  - destruct (String.leb (filename_of e) (filename_of y)).
    + apply Permutation_refl.
    + eapply perm_trans; [apply perm_skip, IH|apply perm_swap].
Qed.

Lemma sorted_perm (m : list entry) : Permutation (sorted_by_filename m) m.
Proof.
  induction m as [|e t IH]; simpl.
  - apply perm_nil.
  - eapply perm_trans; [apply insert_perm|apply perm_skip, IH].
Qed.

Lemma insert_hdrel (a e : entry) (l : list entry) :
  filename_le a e -> HdRel filename_le a l -> HdRel filename_le a (insert e l).
Proof.
  intros Hae Hl. destruct l as [|y t]; simpl.
  - constructor. exact Hae.
  - destruct (String.leb (filename_of e) (filename_of y)).
    + constructor. exact Hae.
    + constructor. inversion Hl; assumption.
Qed.

Lemma insert_sorted (e : entry) (l : list entry) :
  Sorted filename_le l -> Sorted filename_le (insert e l).
Proof.
  induction 1 as [|y t Ht IH Hy]; simpl.
  - repeat constructor.
  - destruct (String.leb (filename_of e) (filename_of y)) eqn:E.
    + constructor; [constructor; assumption|constructor; exact E].
    + constructor; [exact IH|].
      apply insert_hdrel; [|exact Hy].
      destruct (String.leb_total (filename_of e) (filename_of y)) as [H|H];
        [congruence|exact H].
Qed.

Lemma sorted_sorted (m : list entry) : Sorted filename_le (sorted_by_filename m).
Proof.
  induction m as [|e t IH]; simpl; [constructor|apply insert_sorted, IH].
Qed.

(** The sort is stable: the rows of one filename keep their order. *)
Lemma rows_of_insert (f : string) (e : entry) (l : list entry) :
  rows_of (insert e l) f = rows_of (e :: l) f.
Proof.
  unfold rows_of. induction l as [|y t IH]; [reflexivity|].
  simpl insert.
  destruct (String.leb (filename_of e) (filename_of y)) eqn:E; [reflexivity|].
  simpl in *. rewrite IH.
  destruct (String.eqb_spec f (filename_of e)) as [He|He];
    destruct (String.eqb_spec f (filename_of y)) as [Hy|Hy]; try reflexivity.
  rewrite <- He, <- Hy, leb_refl in E. discriminate.
Qed.

Lemma rows_of_sorted (f : string) (m : list entry) :
  rows_of (sorted_by_filename m) f = rows_of m f.
Proof.
  induction m as [|e t IH]; [reflexivity|].
  simpl sorted_by_filename. rewrite rows_of_insert.
  unfold rows_of in *. simpl. rewrite IH. reflexivity.
Qed.

Lemma rows_of_app (f : string) (m1 m2 : list entry) :
  rows_of (m1 ++ m2) f = rows_of m1 f ++ rows_of m2 f.
Proof. apply filter_app. Qed.

Lemma rows_of_single (f s : string) : rows_of [(f, s)] f = [(f, s)].
Proof. unfold rows_of. simpl. rewrite String.eqb_refl. reflexivity. Qed.

Lemma has_filename_app (m1 m2 : list entry) (f : string) :
  has_filename (m1 ++ m2) f = has_filename m1 f || has_filename m2 f.
Proof. unfold has_filename. rewrite map_app. apply existsb_app. Qed.

Lemma has_filename_rows (m : list entry) (f : string) :
  has_filename m f = true <-> rows_of m f <> [].
Proof.
  unfold has_filename, rows_of. induction m as [|e t IH]; simpl.
  - split; [discriminate|congruence].
  - destruct (String.eqb f (filename_of e)); simpl.
    + split; [discriminate|reflexivity].
    + exact IH.
Qed.

Lemma metadata_lines_length (m : list entry) :
  List.length (metadata_lines m) = List.length m.
Proof.
  unfold metadata_lines. rewrite length_map.
  apply Permutation_length, sorted_perm.
Qed.

End LedgerFacts.

(* ------------------------------------------------------------------ *)
(** * Facts on the recorder *)
(* ------------------------------------------------------------------ *)

Module RecorderFacts.

Import Ledger World Props Recorder.
Local Open Scope Z_scope.

#[local] Arguments Signal.trim_silence : simpl never.
#[local] Arguments Signal.normalize_audio : simpl never.
#[local] Arguments Signal.rms : simpl never.
#[local] Arguments Signal.np_lt : simpl never.
#[local] Arguments Signal.np_gt : simpl never.
#[local] Arguments metadata_lines : simpl never.
#[local] Arguments wav_name : simpl never.
#[local] Arguments Py.getitem : simpl never.
#[local] Arguments Py.len : simpl never.
#[local] Arguments display_status : simpl never.
#[local] Arguments stopping : simpl never.
#[local] Arguments Z.add : simpl never.
#[local] Arguments Z.sub : simpl never.
#[local] Arguments Z.ltb : simpl never.
#[local] Arguments Z.leb : simpl never.

(** ** What the field updates leave alone *)

Lemma close_stream_fields (a : RecorderApp) :
  sentences (close_stream a) = sentences a /\
  index (close_stream a) = index a /\
  recording (close_stream a) = recording a /\
  audio_data (close_stream a) = audio_data a /\
  metadata (close_stream a) = metadata a.
Proof. unfold close_stream. destruct (stream a); repeat split. Qed.

Lemma close_stream_sentences a : sentences (close_stream a) = sentences a.
Proof. apply close_stream_fields. Qed.

Lemma close_stream_index a : index (close_stream a) = index a.
Proof. apply close_stream_fields. Qed.

Lemma close_stream_recording a : recording (close_stream a) = recording a.
Proof. apply close_stream_fields. Qed.

Lemma close_stream_audio_data a : audio_data (close_stream a) = audio_data a.
Proof. apply close_stream_fields. Qed.

Lemma close_stream_metadata a : metadata (close_stream a) = metadata a.
Proof. apply close_stream_fields. Qed.

Create Rewrite HintDb recorder.

#[local] Hint Rewrite close_stream_sentences close_stream_index
  close_stream_recording close_stream_audio_data close_stream_metadata
  : recorder.

Lemma is_recorded_ext (a b : RecorderApp) (i : Z) :
  metadata a = metadata b -> is_recorded a i = is_recorded b i.
Proof. unfold is_recorded. intros ->. reflexivity. Qed.

Lemma display_status_ext (a b : RecorderApp) :
  sentences a = sentences b -> index a = index b ->
  metadata a = metadata b -> display_status a = display_status b.
Proof.
  intros Hs Hi Hm. unfold display_status.
  rewrite Hs, Hi, (is_recorded_ext a b _ Hm). reflexivity.
Qed.

(** [update_sentence_display] changes the status text and the log, and
    nothing else. *)
Lemma update_sentence_display_app (w : World) :
  sentences (app (update_sentence_display w)) = sentences (app w) /\
  index (app (update_sentence_display w)) = index (app w) /\
  recording (app (update_sentence_display w)) = recording (app w) /\
  audio_data (app (update_sentence_display w)) = audio_data (app w) /\
  metadata (app (update_sentence_display w)) = metadata (app w) /\
  wav_files (update_sentence_display w) = wav_files w /\
  metadata_file (update_sentence_display w) = metadata_file w.
Proof.
  unfold update_sentence_display.
  destruct (recording (app w)) eqn:E; repeat split; try reflexivity; exact E.
Qed.

Lemma update_sentence_display_log (w : World) :
  ui_log (update_sentence_display w) =
  ui_log w ++ (if recording (app w) then []
               else [StatusSet (display_status (app w))]).
Proof.
  unfold update_sentence_display.
  destruct (recording (app w)); [symmetry; apply app_nil_r|reflexivity].
Qed.

(** ** The loop of [skip_to_next_unrecorded] *)

Lemma skip_loop_ext (fuel : nat) (a b : RecorderApp) (i : Z) :
  sentences a = sentences b -> metadata a = metadata b ->
  skip_loop fuel a i = skip_loop fuel b i.
Proof.
  intros Hs Hm. revert i. induction fuel as [|n IH]; intros i; [reflexivity|].
  cbn [skip_loop]. rewrite Hs, (is_recorded_ext a b i Hm), IH. reflexivity.
Qed.

Lemma skip_loop_ge (fuel : nat) (a : RecorderApp) (i : Z) :
  i <= skip_loop fuel a i.
Proof.
  revert i. induction fuel as [|n IH]; intros i; cbn [skip_loop]; [lia|].
  destruct (_ && _); [|lia].
  specialize (IH (i + 1)). lia.
Qed.

Lemma skip_loop_le (fuel : nat) (a : RecorderApp) (i : Z) :
  i <= Py.len (sentences a) -> skip_loop fuel a i <= Py.len (sentences a).
Proof.
  revert i. induction fuel as [|n IH]; intros i H; cbn [skip_loop]; [lia|].
  destruct (Z.ltb_spec i (Py.len (sentences a))); cbn [andb]; [|lia].
  destruct (is_recorded a i); [|lia].
  apply IH. lia.
Qed.

Lemma skip_loop_past_end (fuel : nat) (a : RecorderApp) (i : Z) :
  Py.len (sentences a) <= i -> skip_loop fuel a i = i.
Proof.
  intros H. destruct fuel as [|n]; [reflexivity|]. cbn [skip_loop].
  destruct (Z.ltb_spec i (Py.len (sentences a))); [lia|reflexivity].
Qed.

(** With the distance to the end as fuel the loop stops because its
    condition fails, not because the fuel is spent. *)
Lemma skip_loop_stops (fuel : nat) (a : RecorderApp) (i : Z) :
  Py.len (sentences a) - i <= Z.of_nat fuel ->
  (skip_loop fuel a i <? Py.len (sentences a))
  && is_recorded a (skip_loop fuel a i) = false.
Proof.
  revert i. induction fuel as [|n IH]; intros i H; cbn [skip_loop].
  - destruct (Z.ltb_spec i (Py.len (sentences a))); [lia|reflexivity].
  - destruct ((i <? Py.len (sentences a)) && is_recorded a i) eqn:E.
    + apply IH. lia.
    + exact E.
Qed.

Lemma skip_loop_skipped (fuel : nat) (a : RecorderApp) (i k : Z) :
  i <= k < skip_loop fuel a i -> is_recorded a k = true.
Proof.
  revert i. induction fuel as [|n IH]; intros i H; cbn [skip_loop] in H; [lia|].
  destruct ((i <? Py.len (sentences a)) && is_recorded a i) eqn:E; [|lia].
  apply andb_prop in E. destruct E as [_ E].
  destruct (Z.eq_dec k i) as [->|Hk]; [exact E|].
  apply (IH (i + 1)). lia.
Qed.


(** ** Moving the cursor *)

Lemma next_sentence_index (w : World) :
  index (app (next_sentence w)) =
  skip_loop (Z.to_nat (Py.len (sentences (app w)) - (index (app w) + 1)))
            (app w) (index (app w) + 1).
Proof.
  unfold next_sentence.
  destruct (update_sentence_display_app
              (with_app skip_to_next_unrecorded
                 (with_app (fun a => set_index (index a + 1) a) w)))
    as (_ & -> & _).
  cbn. apply skip_loop_ext; reflexivity.
Qed.

Lemma next_sentence_frame (w : World) :
  sentences (app (next_sentence w)) = sentences (app w) /\
  recording (app (next_sentence w)) = recording (app w) /\
  audio_data (app (next_sentence w)) = audio_data (app w) /\
  metadata (app (next_sentence w)) = metadata (app w) /\
  wav_files (next_sentence w) = wav_files w /\
  metadata_file (next_sentence w) = metadata_file w.
Proof.
  unfold next_sentence.
  destruct (update_sentence_display_app
              (with_app skip_to_next_unrecorded
                 (with_app (fun a => set_index (index a + 1) a) w)))
    as (-> & _ & -> & -> & -> & -> & ->).
  repeat split.
Qed.

Lemma next_sentence_log (w : World) :
  exists ss, ui_log (next_sentence w) = ui_log w ++ map StatusSet ss.
Proof.
  unfold next_sentence. rewrite update_sentence_display_log.
  match goal with
  | |- context [if ?b then _ else _] => destruct b
  end.
  - exists []. reflexivity.
  - eexists [_]. reflexivity.
Qed.

Lemma previous_sentence_index (w : World) :
  index (app (previous_sentence w)) =
  if 0 <? index (app w) then index (app w) - 1 else index (app w).
Proof.
  unfold previous_sentence. destruct (0 <? index (app w)); [|reflexivity].
  destruct (update_sentence_display_app
              (with_app (fun a => set_index (index a - 1) a) w))
    as (_ & -> & _).
  reflexivity.
Qed.

Lemma previous_sentence_frame (w : World) :
  sentences (app (previous_sentence w)) = sentences (app w) /\
  recording (app (previous_sentence w)) = recording (app w) /\
  audio_data (app (previous_sentence w)) = audio_data (app w) /\
  metadata (app (previous_sentence w)) = metadata (app w) /\
  wav_files (previous_sentence w) = wav_files w /\
  metadata_file (previous_sentence w) = metadata_file w.
Proof.
  unfold previous_sentence. destruct (0 <? index (app w)); [|repeat split].
  destruct (update_sentence_display_app
              (with_app (fun a => set_index (index a - 1) a) w))
    as (-> & _ & -> & -> & -> & -> & ->).
  repeat split.
Qed.

(** C4, where the code leaves the claimed range: a skip issued with the
    cursor at (or past) the end of the sentence list moves it one step
    further, past the number of prompts. *)
Theorem skip_sentence_past_end (w : World) :
  Py.len (sentences (app w)) <= index (app w) ->
  index (app (skip_sentence w)) = index (app w) + 1 /\
  Py.len (sentences (app w)) < index (app (skip_sentence w)).
Proof.
  intros H. unfold skip_sentence. rewrite next_sentence_index.
  rewrite skip_loop_past_end by lia. lia.
Qed.

Lemma skip_sentence_past_end_witness :
  index (app (skip_sentence (two_prompts 2 [] []))) = 3.
Proof.
  destruct (skip_sentence_past_end (two_prompts 2 [] [])) as [H _].
  - vm_compute. discriminate.
  - exact H.
Defined.

(** ** Stopping a recording *)

Lemma stopping_fields (w : World) :
  sentences (app (stopping w)) = sentences (app w) /\
  index (app (stopping w)) = index (app w) /\
  recording (app (stopping w)) = false /\
  audio_data (app (stopping w)) = audio_data (app w) /\
  metadata (app (stopping w)) = metadata (app w) /\
  wav_files (stopping w) = wav_files w /\
  metadata_file (stopping w) = metadata_file w /\
  ui_log (stopping w) = ui_log w ++ [StatusSet ProcessingAudio].
Proof.
  unfold stopping. cbn. autorewrite with recorder. repeat split; reflexivity.
Qed.

Lemma stop_recording_eq (env : Env) (w : World) :
  stop_recording env w =
  match audio_data (app w) with
  | [] => update_sentence_display (set_status NoAudioRecorded (stopping w))
  | _ :: _ =>
      let audio := List.concat (audio_data (app w)) in
      let rms := Signal.rms audio in
      reset_led
        (if Signal.np_lt rms LEVEL_THRESHOLD_LOW then
           update_sentence_display
             (set_status FailedTooQuiet
                (show (WarnLevelTooLow rms) (stopping w)))
         else if Signal.np_gt rms LEVEL_THRESHOLD_HIGH then
           update_sentence_display
             (set_status FailedTooLoud
                (show (WarnLevelTooHigh rms) (stopping w)))
         else save_recording env audio rms (stopping w))
  end.
Proof.
  unfold stop_recording. cbv zeta. fold (stopping w).
  destruct (stopping_fields w) as (_ & _ & _ & -> & _).
  reflexivity.
Qed.

Lemma save_failed_fields (e : exn) (w : World) :
  sentences (app (save_failed e w)) = sentences (app w) /\
  index (app (save_failed e w)) = index (app w) /\
  recording (app (save_failed e w)) = recording (app w) /\
  metadata (app (save_failed e w)) = metadata (app w) /\
  wav_files (save_failed e w) = wav_files w /\
  metadata_file (save_failed e w) = metadata_file w /\
  exists after,
    ui_log (save_failed e w) = ui_log w ++ Dialog (ErrSaveFailed e) :: after.
Proof.
  unfold save_failed. cbv zeta.
  match goal with
  | |- context [update_sentence_display ?x] =>
      destruct (update_sentence_display_app x)
        as (-> & -> & -> & _ & -> & -> & ->);
      rewrite (update_sentence_display_log x)
  end.
  repeat split. cbn. rewrite <- !app_assoc. eexists. reflexivity.
Qed.

(** The four ways through the [try] block. *)
Lemma save_recording_write_raises env audio r (w : World) :
  sf_write_raises env = true ->
  save_recording env audio r w = save_failed OSError w.
Proof. intros H. unfold save_recording, sf_write. rewrite H. reflexivity. Qed.

Lemma save_recording_no_sentence env audio r (w : World) :
  sf_write_raises env = false ->
  Py.getitem (sentences (app w)) (index (app w)) = None ->
  save_recording env audio r w =
  save_failed IndexError
    (put_wav (wav_name (index (app w))) (processed audio) w).
Proof.
  intros H Hs. unfold save_recording, sf_write, processed. rewrite H.
  cbv beta iota zeta. cbn [app put_wav sentences index].
  rewrite Hs. reflexivity.
Qed.

Lemma save_recording_ledger_raises env audio r (w : World) s :
  sf_write_raises env = false ->
  Py.getitem (sentences (app w)) (index (app w)) = Some s ->
  meta_open_raises env = true ->
  save_recording env audio r w =
  save_failed OSError
    (with_app
       (set_metadata (metadata (app w) ++ [(wav_name (index (app w)), s)]))
       (put_wav (wav_name (index (app w))) (processed audio) w)).
Proof.
  intros H Hs Hm. unfold save_recording, sf_write, save_metadata, processed.
  rewrite H. cbv beta iota zeta. cbn [app put_wav sentences index].
  rewrite Hs. cbv beta iota. rewrite Hm. reflexivity.
Qed.

Lemma save_recording_saved env audio r (w : World) s :
  sf_write_raises env = false ->
  Py.getitem (sentences (app w)) (index (app w)) = Some s ->
  meta_open_raises env = false ->
  save_recording env audio r w =
  next_sentence
    (set_status (SavedAs (wav_name (index (app w))) r)
       (put_metadata_file
          (metadata_lines
             (metadata (app w) ++ [(wav_name (index (app w)), s)]))
          (with_app
             (set_metadata
                (metadata (app w) ++ [(wav_name (index (app w)), s)]))
             (put_wav (wav_name (index (app w))) (processed audio) w)))).
Proof.
  intros H Hs Hm. unfold save_recording, sf_write, save_metadata, processed.
  rewrite H. cbv beta iota zeta. cbn [app put_wav sentences index].
  rewrite Hs. cbv beta iota. rewrite Hm. reflexivity.
Qed.

Lemma np_lt_true (x t : R) : (x < t)%R -> Signal.np_lt (Signal.Fin x) t = true.
Proof. intros H. unfold Signal.np_lt. destruct (Rlt_dec x t); [reflexivity|contradiction]. Qed.

Lemma np_lt_false (x t : R) : (t <= x)%R -> Signal.np_lt (Signal.Fin x) t = false.
Proof. intros H. unfold Signal.np_lt. destruct (Rlt_dec x t); [lra|reflexivity]. Qed.

Lemma np_gt_true (x t : R) : (x > t)%R -> Signal.np_gt (Signal.Fin x) t = true.
Proof. intros H. unfold Signal.np_gt. destruct (Rgt_dec x t); [reflexivity|contradiction]. Qed.

Lemma np_gt_false (x t : R) : (x <= t)%R -> Signal.np_gt (Signal.Fin x) t = false.
Proof. intros H. unfold Signal.np_gt. destruct (Rgt_dec x t); [lra|reflexivity]. Qed.

(** A level inside the two thresholds, or not a number, passes both
    tests. *)
Lemma level_accepted (r : Signal.npfloat) :
  (forall x, r = Signal.Fin x ->
             (LEVEL_THRESHOLD_LOW <= x <= LEVEL_THRESHOLD_HIGH)%R) ->
  Signal.np_lt r LEVEL_THRESHOLD_LOW = false /\
  Signal.np_gt r LEVEL_THRESHOLD_HIGH = false.
Proof.
  intros H. destruct r as [|x]; [split; reflexivity|].
  destruct (H x eq_refl) as [Hl Hh].
  split; [apply np_lt_false, Hl|apply np_gt_false, Hh].
Qed.

(** A rejected capture: a warning is shown, and files, ledger and cursor
    stay as they are. *)
Lemma rejected_fields (d : dialog) (s : status) (w : World) :
  let w' := reset_led
              (update_sentence_display (set_status s (show d (stopping w)))) in
  recording (app w') = false /\
  same_files w w' /\ same_ledger w w' /\ same_cursor w w' /\
  reported (Dialog d) w w'.
Proof.
  cbv zeta.
  destruct (stopping_fields w) as (Hs & Hi & Hr & _ & Hm & Hw & Hf & Hl).
  set (w1 := set_status s (show d (stopping w))).
  destruct (update_sentence_display_app w1) as (Es & Ei & Er & _ & Em & Ew & Ef).
  pose proof (update_sentence_display_log w1) as El.
  unfold reset_led, same_files, same_ledger, same_cursor. cbn.
  rewrite Es, Ei, Er, Em, Ew, Ef. subst w1. cbn.
  rewrite Hs, Hi, Hr, Hm, Hw, Hf.
  repeat split.
  exists [StatusSet ProcessingAudio]. eexists.
  cbn. rewrite El. cbn. rewrite Hl. rewrite <- !app_assoc. reflexivity.
Qed.

(** A failed save: the error is shown, and the cursor stays; the rest
    is as in the world the exception left. *)
Lemma failed_fields (e : exn) (w w1 : World) :
  ui_log w1 = ui_log (stopping w) ->
  recording (app w1) = false ->
  let w' := reset_led (save_failed e w1) in
  recording (app w') = false /\
  sentences (app w') = sentences (app w1) /\
  index (app w') = index (app w1) /\
  metadata (app w') = metadata (app w1) /\
  wav_files w' = wav_files w1 /\
  metadata_file w' = metadata_file w1 /\
  reported (Dialog (ErrSaveFailed e)) w w'.
Proof.
  intros Hlog Hrec. cbv zeta.
  destruct (save_failed_fields e w1) as (Es & Ei & Er & Em & Ew & Ef & after & El).
  destruct (stopping_fields w) as (_ & _ & _ & _ & _ & _ & _ & Hl).
  unfold reset_led. cbn. rewrite Es, Ei, Er, Em, Ew, Ef.
  repeat split; try assumption.
  exists [StatusSet ProcessingAudio], after.
  cbn. rewrite El, Hlog, Hl, <- app_assoc. reflexivity.
Qed.

Lemma getitem_some_lt {A} (l : list A) (i : Z) (x : A) :
  Py.getitem l i = Some x -> i < Py.len l.
Proof.
  unfold Py.getitem, Py.norm_index.
  destruct (Z.ltb_spec i 0).
  - intros _. unfold Py.len. lia.
  - destruct (Z.ltb_spec i (Py.len l)); [lia|discriminate].
Qed.

(** A successful save: the file holds the processed samples, the row is
    at the end of the ledger, the ledger file holds the sorted lines and
    the cursor is on the next unrecorded prompt. *)
Lemma saved_fields (w w0 : World) (f s : string) (p : list R)
      (r : Signal.npfloat) :
  sentences (app w0) = sentences (app w) ->
  index (app w0) = index (app w) ->
  recording (app w0) = false ->
  index (app w) < Py.len (sentences (app w)) ->
  let m := metadata (app w0) ++ [(f, s)] in
  let w' := reset_led
              (next_sentence
                 (set_status (SavedAs f r)
                    (put_metadata_file (metadata_lines m)
                       (with_app (set_metadata m) (put_wav f p w0))))) in
  recording (app w') = false /\
  sentences (app w') = sentences (app w) /\
  wav_files w' f = Some p /\
  (forall g, g <> f -> wav_files w' g = wav_files w0 g) /\
  metadata (app w') = m /\
  metadata_file w' = Some (metadata_lines m) /\
  index (app w) < index (app w') <= Py.len (sentences (app w)) /\
  (forall k, index (app w) < k < index (app w') ->
             is_recorded (app w') k = true) /\
  (index (app w') <? Py.len (sentences (app w)))
    && is_recorded (app w') (index (app w')) = false.
Proof.
  intros Hs Hi Hr Hlt. cbv zeta.
  set (m := metadata (app w0) ++ [(f, s)]).
  set (w1 := set_status (SavedAs f r)
               (put_metadata_file (metadata_lines m)
                  (with_app (set_metadata m) (put_wav f p w0)))).
  destruct (next_sentence_frame w1) as (Es & Er & _ & Em & Ew & Ef).
  pose proof (next_sentence_index w1) as Ei.
  assert (Hs1 : sentences (app w1) = sentences (app w)) by exact Hs.
  assert (Hi1 : index (app w1) = index (app w)) by exact Hi.
  assert (Hm1 : metadata (app w1) = m) by reflexivity.
  unfold reset_led. cbn [app with_app wav_files metadata_file
                         sentences index recording metadata
                         set_level_status].
  rewrite Es, Er, Em, Ew, Ef, Hs1, Hm1.
  assert (Hrec : forall k, is_recorded
            (set_level_status LevelReady (app (next_sentence w1))) k
            = is_recorded (app w1) k).
  { intros k. apply is_recorded_ext. cbn. exact Em. }
  rewrite Ei, Hs1, Hi1.
  set (fuel := Z.to_nat (Py.len (sentences (app w)) - (index (app w) + 1))).
  repeat split.
  - exact Hr.
  - subst w1. cbn. rewrite String.eqb_refl. reflexivity.
  - intros g Hg. subst w1. cbn.
    destruct (String.eqb_spec g f); [contradiction|reflexivity].
  - pose proof (skip_loop_ge fuel (app w1) (index (app w) + 1)). lia.
  - rewrite <- Hs1. apply skip_loop_le. rewrite Hs1. lia.
  - intros k Hk. rewrite Hrec.
    apply skip_loop_skipped with (fuel := fuel) (i := index (app w) + 1). lia.
  - rewrite Hrec, <- Hs1. apply skip_loop_stops.
    rewrite Hs1. subst fuel. lia.
Qed.

(** C10. Stopping a capture in which no block was delivered runs no
    validation and writes no file; the ledger, in memory and on disk, and
    the cursor are unchanged; the session is idle again and only status
    texts were set, "No audio recorded!" among them. *)
Theorem stop_recording_empty_capture (env : Env) (w : World) :
  audio_data (app w) = [] ->
  let w' := stop_recording env w in
  same_files w w' /\ same_ledger w w' /\ same_cursor w w' /\
  recording (app w') = false /\
  ui_log w' = ui_log w ++ map StatusSet
                [ProcessingAudio; NoAudioRecorded; display_status (app w)].
Proof.
  intros H. cbv zeta. rewrite stop_recording_eq, H.
  destruct (stopping_fields w) as (Hs & Hi & Hr & _ & Hm & Hw & Hf & Hl).
  set (w1 := set_status NoAudioRecorded (stopping w)).
  destruct (update_sentence_display_app w1) as (Es & Ei & Er & _ & Em & Ew & Ef).
  unfold same_files, same_ledger, same_cursor.
  rewrite Es, Ei, Er, Em, Ew, Ef, update_sentence_display_log.
  subst w1. cbn. rewrite Hs, Hi, Hr, Hm, Hw, Hf, Hl.
  repeat split.
  rewrite (display_status_ext
             (set_status_var NoAudioRecorded (app (stopping w))) (app w))
    by (cbn; assumption).
  rewrite <- !app_assoc. reflexivity.
Qed.

Lemma stop_recording_empty_capture_witness :
  let w := start_recording calm (two_prompts 0 [] []) in
  metadata (app (stop_recording calm w)) = [] /\
  index (app (stop_recording calm w)) = 0 /\
  recording (app (stop_recording calm w)) = false.
Proof.
  cbv zeta.
  destruct (stop_recording_empty_capture calm
              (start_recording calm (two_prompts 0 [] [])))
    as (_ & [Hm _] & [_ Hi] & Hr & _).
  - reflexivity.
  - split; [rewrite Hm; reflexivity|].
    split; [rewrite Hi; reflexivity|exact Hr].
Defined.

(** The ways a capture with blocks can end, each with the world it
    leaves; [stopping w] is the world once the stream is closed. *)
Lemma stop_recording_too_quiet env (w : World) b bs x :
  audio_data (app w) = b :: bs ->
  Signal.rms (List.concat (b :: bs)) = Signal.Fin x ->
  (x < LEVEL_THRESHOLD_LOW)%R ->
  stop_recording env w =
  reset_led (update_sentence_display
               (set_status FailedTooQuiet
                  (show (WarnLevelTooLow (Signal.Fin x)) (stopping w)))).
Proof.
  intros H Hx Hlt. rewrite stop_recording_eq, H. cbv zeta.
  rewrite Hx, (np_lt_true _ _ Hlt). reflexivity.
Qed.

Lemma stop_recording_too_loud env (w : World) b bs x :
  audio_data (app w) = b :: bs ->
  Signal.rms (List.concat (b :: bs)) = Signal.Fin x ->
  (x > LEVEL_THRESHOLD_HIGH)%R ->
  stop_recording env w =
  reset_led (update_sentence_display
               (set_status FailedTooLoud
                  (show (WarnLevelTooHigh (Signal.Fin x)) (stopping w)))).
Proof.
  intros H Hx Hgt. rewrite stop_recording_eq, H. cbv zeta.
  rewrite Hx, np_lt_false, (np_gt_true _ _ Hgt); [reflexivity|].
  unfold LEVEL_THRESHOLD_LOW, LEVEL_THRESHOLD_HIGH in *. lra.
Qed.

Lemma stop_recording_accepted env (w : World) b bs :
  audio_data (app w) = b :: bs ->
  (forall x, Signal.rms (List.concat (b :: bs)) = Signal.Fin x ->
             (LEVEL_THRESHOLD_LOW <= x <= LEVEL_THRESHOLD_HIGH)%R) ->
  stop_recording env w =
  reset_led (save_recording env (List.concat (b :: bs))
               (Signal.rms (List.concat (b :: bs))) (stopping w)).
Proof.
  intros H Hx. rewrite stop_recording_eq, H. cbv zeta.
  destruct (level_accepted _ Hx) as [-> ->]. reflexivity.
Qed.

(** However it ends, [stop_recording] leaves the session idle. *)
Lemma stop_recording_idle (env : Env) (w : World) :
  recording (app (stop_recording env w)) = false.
Proof.
  rewrite stop_recording_eq.
  destruct (stopping_fields w) as (Hs & Hi & Hr & Ha & Hm & Hw & Hf & Hl).
  destruct (audio_data (app w)) as [|b bs].
  - match goal with
    | |- context [update_sentence_display ?x] =>
        destruct (update_sentence_display_app x) as (_ & _ & -> & _)
    end. exact Hr.
  - cbv zeta.
    set (audio := List.concat (b :: bs)). set (r := Signal.rms audio).
    destruct (Signal.np_lt r LEVEL_THRESHOLD_LOW).
    { destruct (rejected_fields (WarnLevelTooLow r) FailedTooQuiet w)
        as (Hrej & _). exact Hrej. }
    destruct (Signal.np_gt r LEVEL_THRESHOLD_HIGH).
    { destruct (rejected_fields (WarnLevelTooHigh r) FailedTooLoud w)
        as (Hrej & _). exact Hrej. }
    destruct (sf_write_raises env) eqn:Hsf.
    { rewrite (save_recording_write_raises env audio r (stopping w) Hsf).
      apply (failed_fields OSError w (stopping w)); [reflexivity|exact Hr]. }
    destruct (Py.getitem (sentences (app (stopping w)))
                         (index (app (stopping w)))) as [s|] eqn:Hg.
    2:{ rewrite (save_recording_no_sentence env audio r (stopping w) Hsf Hg).
        apply (failed_fields IndexError w); [reflexivity|exact Hr]. }
    destruct (meta_open_raises env) eqn:Hmo.
    { rewrite (save_recording_ledger_raises env audio r (stopping w) s
                 Hsf Hg Hmo).
      apply (failed_fields OSError w); [reflexivity|exact Hr]. }
    rewrite (save_recording_saved env audio r (stopping w) s Hsf Hg Hmo).
    assert (Hlt : index (app w) < Py.len (sentences (app w))).
    { rewrite <- Hs, <- Hi. apply (getitem_some_lt _ _ _ Hg). }
    destruct (saved_fields w (stopping w)
                (wav_name (index (app (stopping w)))) s
                (processed audio) r Hs Hi Hr Hlt) as (Hsaved & _).
    exact Hsaved.
Qed.

(** C6, as the code has it. Stopping a capture with blocks, of RMS [x]:
    below 0.02 it is rejected as too quiet, above 0.9 as too loud, each
    time with a warning, no file written, ledger and cursor unchanged.
    Otherwise the samples are trimmed, normalized and written as the
    file of the current index; the row is appended, the ledger file
    rewritten and the cursor moved forward to the next unrecorded
    prompt.  When writing the audio file raises, or the prompt is
    missing, the error is reported and ledger and cursor are unchanged;
    when rewriting the ledger file raises, the error is reported and the
    ledger file and the cursor are unchanged. *)
Theorem stop_recording_validates (env : Env) (w : World)
        (b : list R) (bs : list (list R)) :
  audio_data (app w) = b :: bs ->
  let audio := List.concat (b :: bs) in
  let w' := stop_recording env w in
  let filename := wav_name (index (app w)) in
  recording (app w') = false /\
  (forall x, Signal.rms audio = Signal.Fin x ->
     (x < LEVEL_THRESHOLD_LOW)%R ->
     same_files w w' /\ same_ledger w w' /\ same_cursor w w' /\
     reported (Dialog (WarnLevelTooLow (Signal.Fin x))) w w') /\
  (forall x, Signal.rms audio = Signal.Fin x ->
     (x > LEVEL_THRESHOLD_HIGH)%R ->
     same_files w w' /\ same_ledger w w' /\ same_cursor w w' /\
     reported (Dialog (WarnLevelTooHigh (Signal.Fin x))) w w') /\
  ((forall x, Signal.rms audio = Signal.Fin x ->
      (LEVEL_THRESHOLD_LOW <= x <= LEVEL_THRESHOLD_HIGH)%R) ->
   (sf_write_raises env = true ->
      same_files w w' /\ same_ledger w w' /\ same_cursor w w' /\
      reported (Dialog (ErrSaveFailed OSError)) w w') /\
   (sf_write_raises env = false ->
      wav_files w' filename = Some (processed audio) /\
      (Py.getitem (sentences (app w)) (index (app w)) = None ->
         same_ledger w w' /\ same_cursor w w' /\
         reported (Dialog (ErrSaveFailed IndexError)) w w') /\
      (forall s,
         Py.getitem (sentences (app w)) (index (app w)) = Some s ->
         (meta_open_raises env = true ->
            metadata_file w' = metadata_file w /\ same_cursor w w' /\
            reported (Dialog (ErrSaveFailed OSError)) w w') /\
         (meta_open_raises env = false ->
            metadata (app w') = metadata (app w) ++ [(filename, s)] /\
            metadata_file w' = Some (metadata_lines (metadata (app w'))) /\
            sentences (app w') = sentences (app w) /\
            index (app w) < index (app w') <= Py.len (sentences (app w)) /\
            (forall k, index (app w) < k < index (app w') ->
                       is_recorded (app w') k = true) /\
            (index (app w') <? Py.len (sentences (app w)))
              && is_recorded (app w') (index (app w')) = false)))).
Proof.
  intros H. cbv zeta.
  destruct (stopping_fields w) as (Hs & Hi & Hr & Ha & Hm & Hw & Hf & Hl).
  split; [apply stop_recording_idle|].
  split.
  { intros x Hx Hlt. rewrite (stop_recording_too_quiet env w b bs x H Hx Hlt).
    apply (rejected_fields (WarnLevelTooLow (Signal.Fin x)) FailedTooQuiet w). }
  split.
  { intros x Hx Hgt. rewrite (stop_recording_too_loud env w b bs x H Hx Hgt).
    apply (rejected_fields (WarnLevelTooHigh (Signal.Fin x)) FailedTooLoud w). }
  intros Hx. rewrite (stop_recording_accepted env w b bs H Hx).
  set (audio := List.concat (b :: bs)).
  set (r := Signal.rms audio).
  split.
  { intros Hsf. rewrite (save_recording_write_raises env audio r _ Hsf).
    destruct (failed_fields OSError w (stopping w) eq_refl Hr)
      as (_ & Es & Ei & Em & Ew & Ef & Hrep).
    unfold same_files, same_ledger, same_cursor.
    rewrite Es, Ei, Em, Ew, Ef, Hs, Hi, Hm, Hw, Hf.
    repeat split; try reflexivity. exact Hrep. }
  intros Hsf.
  split.
  { destruct (Py.getitem (sentences (app w)) (index (app w))) as [s|] eqn:Hg.
    - destruct (meta_open_raises env) eqn:Hmo.
      + rewrite (save_recording_ledger_raises env audio r (stopping w) s Hsf);
          [|rewrite Hs, Hi; exact Hg|exact Hmo].
        match goal with
        | |- context [save_failed OSError ?x] =>
            destruct (failed_fields OSError w x eq_refl Hr)
              as (_ & _ & _ & _ & -> & _)
        end.
        cbn. rewrite Hi, String.eqb_refl. reflexivity.
      + rewrite (save_recording_saved env audio r (stopping w) s Hsf);
          [|rewrite Hs, Hi; exact Hg|exact Hmo].
        rewrite Hi.
        apply (saved_fields w (stopping w) (wav_name (index (app w))) s
                            (processed audio) r Hs Hi Hr).
        apply (getitem_some_lt _ _ _ Hg).
    - rewrite (save_recording_no_sentence env audio r (stopping w) Hsf);
        [|rewrite Hs, Hi; exact Hg].
      match goal with
      | |- context [save_failed IndexError ?x] =>
          destruct (failed_fields IndexError w x eq_refl Hr)
            as (_ & _ & _ & _ & -> & _)
      end.
      cbn. rewrite Hi, String.eqb_refl. reflexivity. }
  split.
  { intros Hg.
    rewrite (save_recording_no_sentence env audio r (stopping w) Hsf);
      [|rewrite Hs, Hi; exact Hg].
    match goal with
    | |- context [save_failed IndexError ?x] =>
        destruct (failed_fields IndexError w x eq_refl Hr)
          as (_ & Es & Ei & Em & Ew & Ef & Hrep)
    end.
    unfold same_ledger, same_cursor.
    split; [|split; [|exact Hrep]].
    - rewrite Em, Ef. split; [exact Hm|exact Hf].
    - rewrite Es, Ei. split; [exact Hs|exact Hi]. }
  intros s Hg. split; intros Hmo.
  - rewrite (save_recording_ledger_raises env audio r (stopping w) s Hsf);
      [|rewrite Hs, Hi; exact Hg|exact Hmo].
    match goal with
    | |- context [save_failed OSError ?x] =>
        destruct (failed_fields OSError w x eq_refl Hr)
          as (_ & Es & Ei & Em & Ew & Ef & Hrep)
    end.
    unfold same_cursor.
    split; [|split; [|exact Hrep]].
    + rewrite Ef. exact Hf.
    + rewrite Es, Ei. split; [exact Hs|exact Hi].
  - rewrite (save_recording_saved env audio r (stopping w) s Hsf);
      [|rewrite Hs, Hi; exact Hg|exact Hmo].
    rewrite Hi, Hm.
    pose proof (saved_fields w (stopping w) (wav_name (index (app w))) s
                  (processed audio) r Hs Hi Hr
                  (getitem_some_lt _ _ _ Hg)) as HS.
    cbv zeta in HS. rewrite Hm in HS.
    destruct HS as (_ & S1 & _ & _ & S2 & S3 & S4 & S5 & S6).
    rewrite S2 at 2. repeat split; try assumption; apply S4.
Qed.

Lemma level_in_range (x : R) :
  (LEVEL_THRESHOLD_LOW <= x <= LEVEL_THRESHOLD_HIGH)%R -> (0 <= x)%R ->
  forall y, Signal.rms (List.concat [[x]]) = Signal.Fin y ->
            (LEVEL_THRESHOLD_LOW <= y <= LEVEL_THRESHOLD_HIGH)%R.
Proof.
  intros Hx H0 y. simpl List.concat.
  rewrite (SignalFacts.rms_single x H0). intros [= <-]. exact Hx.
Qed.

Lemma fifth_in_range :
  (LEVEL_THRESHOLD_LOW <= 0.2 <= LEVEL_THRESHOLD_HIGH)%R /\ (0 <= 0.2)%R.
Proof. unfold LEVEL_THRESHOLD_LOW, LEVEL_THRESHOLD_HIGH. lra. Qed.

Lemma stop_recording_validates_witness :
  let w := two_prompts 0 [[0.2%R]] [] in
  metadata (app (stop_recording calm w)) = [("001.wav", "Hello world")]%string /\
  0 < index (app (stop_recording calm w)).
Proof.
  cbv zeta.
  destruct (stop_recording_validates calm (two_prompts 0 [[0.2%R]] [])
              [0.2%R] [] eq_refl) as (_ & _ & _ & H).
  destruct H as [_ H].
  - apply level_in_range; apply fifth_in_range.
  - destruct (H eq_refl) as (_ & _ & H1).
    destruct (H1 "Hello world"%string eq_refl) as [_ H2].
    destruct (H2 eq_refl) as (Hm & _ & _ & Hi & _).
    split; [exact Hm|apply Hi].
Defined.

(** When only the rewrite of the ledger file raises, the row stays in
    the list in memory: the prompt then counts as recorded although the
    file on disk does not list it. *)
Lemma stop_recording_ledger_raises (env : Env) (w : World)
      (b : list R) (bs : list (list R)) (s : string) :
  audio_data (app w) = b :: bs ->
  (forall x, Signal.rms (List.concat (b :: bs)) = Signal.Fin x ->
             (LEVEL_THRESHOLD_LOW <= x <= LEVEL_THRESHOLD_HIGH)%R) ->
  sf_write_raises env = false ->
  Py.getitem (sentences (app w)) (index (app w)) = Some s ->
  meta_open_raises env = true ->
  let w' := stop_recording env w in
  metadata (app w') = metadata (app w) ++ [(wav_name (index (app w)), s)] /\
  metadata_file w' = metadata_file w /\
  is_recorded (app w') (index (app w)) = true /\
  reported (Dialog (ErrSaveFailed OSError)) w w'.
Proof.
  intros H Hx Hsf Hg Hmo. cbv zeta.
  destruct (stopping_fields w) as (Hs & Hi & Hr & Ha & Hm & Hw & Hf & Hl).
  rewrite (stop_recording_accepted env w b bs H Hx).
  rewrite (save_recording_ledger_raises env _ _ (stopping w) s Hsf);
    [|rewrite Hs, Hi; exact Hg|exact Hmo].
  match goal with
  | |- context [save_failed OSError ?x] =>
      destruct (failed_fields OSError w x eq_refl Hr)
        as (_ & Es & Ei & Em & Ew & Ef & Hrep)
  end.
  split; [|split; [|split; [|exact Hrep]]].
  - rewrite Em. cbn [app with_app metadata set_metadata put_wav].
    rewrite Hm, Hi. reflexivity.
  - rewrite Ef. exact Hf.
  - unfold is_recorded. rewrite Em.
    cbn [app with_app metadata set_metadata put_wav].
    rewrite Hi, LedgerFacts.has_filename_app.
    unfold has_filename at 2. simpl.
    rewrite String.eqb_refl. apply orb_true_r.
Qed.

(** C6, where the claim fails: the ledger file cannot be opened; the
    error is reported, yet the ledger in memory has a row more. *)
Lemma stop_recording_save_raises_ledger_changed :
  let w := two_prompts 0 [[0.2%R]] [] in
  let w' := stop_recording ledger_locked w in
  reported (Dialog (ErrSaveFailed OSError)) w w' /\
  metadata (app w') = [("001.wav", "Hello world")]%string /\
  metadata (app w') <> metadata (app w).
Proof.
  cbv zeta.
  destruct (stop_recording_ledger_raises ledger_locked
              (two_prompts 0 [[0.2%R]] []) [0.2%R] [] "Hello world"%string
              eq_refl (level_in_range _ (proj1 fifth_in_range)
                         (proj2 fifth_in_range))
              eq_refl eq_refl eq_refl) as (Hm & _ & _ & Hrep).
  split; [exact Hrep|]. rewrite Hm. split; [reflexivity|discriminate].
Qed.

(** The ledger file after [stop_recording] is the one before, or the
    sorted lines of the list in memory. *)
Lemma stop_recording_persists (env : Env) (w : World) :
  metadata_file (stop_recording env w) = metadata_file w \/
  metadata_file (stop_recording env w)
  = Some (metadata_lines (metadata (app (stop_recording env w)))).
Proof.
  rewrite stop_recording_eq.
  destruct (stopping_fields w) as (Hs & Hi & Hr & Ha & Hm & Hw & Hf & Hl).
  destruct (audio_data (app w)) as [|b bs].
  - left.
    match goal with
    | |- context [update_sentence_display ?x] =>
        destruct (update_sentence_display_app x)
          as (_ & _ & _ & _ & _ & _ & ->)
    end. exact Hf.
  - cbv zeta.
    set (audio := List.concat (b :: bs)). set (r := Signal.rms audio).
    destruct (Signal.np_lt r LEVEL_THRESHOLD_LOW).
    { left.
      destruct (rejected_fields (WarnLevelTooLow r) FailedTooQuiet w)
        as (_ & _ & [_ Hrej] & _). exact Hrej. }
    destruct (Signal.np_gt r LEVEL_THRESHOLD_HIGH).
    { left.
      destruct (rejected_fields (WarnLevelTooHigh r) FailedTooLoud w)
        as (_ & _ & [_ Hrej] & _). exact Hrej. }
    destruct (sf_write_raises env) eqn:Hsf.
    { left. rewrite (save_recording_write_raises env audio r (stopping w) Hsf).
      destruct (failed_fields OSError w (stopping w) eq_refl Hr)
        as (_ & _ & _ & _ & _ & -> & _). exact Hf. }
    destruct (Py.getitem (sentences (app (stopping w)))
                         (index (app (stopping w)))) as [s|] eqn:Hg.
    2:{ left.
        rewrite (save_recording_no_sentence env audio r (stopping w) Hsf Hg).
        match goal with
        | |- context [save_failed IndexError ?x] =>
            destruct (failed_fields IndexError w x eq_refl Hr)
              as (_ & _ & _ & _ & _ & -> & _)
        end. exact Hf. }
    destruct (meta_open_raises env) eqn:Hmo.
    { left.
      rewrite (save_recording_ledger_raises env audio r (stopping w) s
                 Hsf Hg Hmo).
      match goal with
      | |- context [save_failed OSError ?x] =>
          destruct (failed_fields OSError w x eq_refl Hr)
            as (_ & _ & _ & _ & _ & -> & _)
      end. exact Hf. }
    right.
    rewrite (save_recording_saved env audio r (stopping w) s Hsf Hg Hmo).
    assert (Hlt : index (app w) < Py.len (sentences (app w))).
    { rewrite <- Hs, <- Hi. apply (getitem_some_lt _ _ _ Hg). }
    destruct (saved_fields w (stopping w)
                (wav_name (index (app (stopping w)))) s
                (processed audio) r Hs Hi Hr Hlt)
      as (_ & _ & _ & _ & Sm & Sf & _).
    rewrite Sm. exact Sf.
Qed.

(** ** Saving rows *)

Lemma save_metadata_fields (env : Env) (f s : string) (w : World) :
  let w' := fst (save_metadata env f s w) in
  metadata (app w') = metadata (app w) ++ [(f, s)] /\
  metadata_file w' = (if meta_open_raises env then metadata_file w
                      else Some (metadata_lines (metadata (app w')))) /\
  wav_files w' = wav_files w /\
  sentences (app w') = sentences (app w) /\
  index (app w') = index (app w).
Proof.
  unfold save_metadata. cbv zeta.
  destruct (meta_open_raises env); repeat split.
Qed.

Lemma save_all_metadata (env : Env) (saves : list entry) (w : World) :
  metadata (app (save_all env saves w)) = metadata (app w) ++ saves.
Proof.
  revert w. induction saves as [|[f s] t IH]; intros w.
  - symmetry. apply app_nil_r.
  - unfold save_all in *. cbn [fold_left]. rewrite IH.
    change (filename_of (f, s)) with f. change (sentence_of (f, s)) with s.
    destruct (save_metadata_fields env f s w) as (-> & _).
    rewrite <- app_assoc. reflexivity.
Qed.

Lemma save_all_file (env : Env) (saves : list entry) (w : World) :
  meta_open_raises env = false -> saves <> [] ->
  metadata_file (save_all env saves w)
  = Some (metadata_lines (metadata (app (save_all env saves w)))).
Proof.
  intros He. revert w. induction saves as [|[f s] t IH]; intros w Hn.
  - contradiction.
  - destruct t as [|e t'].
    + unfold save_all. cbn [fold_left].
      change (filename_of (f, s)) with f. change (sentence_of (f, s)) with s.
      destruct (save_metadata_fields env f s w) as (_ & -> & _).
      rewrite He. reflexivity.
    + change (save_all env ((f, s) :: e :: t') w)
        with (save_all env (e :: t') (fst (save_metadata env f s w))).
      apply IH. discriminate.
Qed.

(** A capture of accepted level, with nothing raising: the row is
    appended, the files are written and the cursor moves forward. *)
Lemma stop_recording_saved (env : Env) (w : World)
      (b : list R) (bs : list (list R)) (s : string) :
  audio_data (app w) = b :: bs ->
  (forall x, Signal.rms (List.concat (b :: bs)) = Signal.Fin x ->
             (LEVEL_THRESHOLD_LOW <= x <= LEVEL_THRESHOLD_HIGH)%R) ->
  sf_write_raises env = false ->
  Py.getitem (sentences (app w)) (index (app w)) = Some s ->
  meta_open_raises env = false ->
  let w' := stop_recording env w in
  let m := metadata (app w) ++ [(wav_name (index (app w)), s)] in
  sentences (app w') = sentences (app w) /\
  wav_files w' (wav_name (index (app w)))
  = Some (processed (List.concat (b :: bs))) /\
  (forall g, g <> wav_name (index (app w)) ->
             wav_files w' g = wav_files w g) /\
  metadata (app w') = m /\
  metadata_file w' = Some (metadata_lines m) /\
  index (app w) < index (app w') <= Py.len (sentences (app w)).
Proof.
  intros H Hx Hsf Hg Hmo. cbv zeta.
  destruct (stopping_fields w) as (Hs & Hi & Hr & Ha & Hm & Hw & Hf & Hl).
  rewrite (stop_recording_accepted env w b bs H Hx).
  rewrite (save_recording_saved env _ _ (stopping w) s Hsf);
    [|rewrite Hs, Hi; exact Hg|exact Hmo].
  rewrite Hi, Hm.
  pose proof (saved_fields w (stopping w) (wav_name (index (app w))) s
                (processed (List.concat (b :: bs)))
                (Signal.rms (List.concat (b :: bs))) Hs Hi Hr
                (getitem_some_lt _ _ _ Hg)) as HS.
  cbv zeta in HS. rewrite Hm, Hw in HS.
  destruct HS as (_ & S1 & S0 & S7 & S2 & S3 & S4 & _).
  repeat split; try assumption; apply S4.
Qed.

(** C1, where the claim fails: the cursor is back on prompt 1, already
    in the ledger, and a second capture of it is saved; the ledger then
    has two rows for [001.wav], in memory and in the file. *)
Lemma rerecording_duplicates_row :
  let w := two_prompts 0 [[0.2%R]] [("001.wav", "Hello world")]%string in
  let w' := stop_recording calm w in
  rows_of (metadata (app w')) "001.wav"
  = [("001.wav", "Hello world"); ("001.wav", "Hello world")]%string /\
  metadata_file w'
  = Some ["001.wav|Hello world"; "001.wav|Hello world"]%string.
Proof.
  cbv zeta.
  destruct (stop_recording_saved calm
              (two_prompts 0 [[0.2%R]] [("001.wav", "Hello world")]%string)
              [0.2%R] [] "Hello world"%string
              eq_refl (level_in_range _ (proj1 fifth_in_range)
                         (proj2 fifth_in_range))
              eq_refl eq_refl eq_refl) as (_ & _ & _ & Hm & Hf & _).
  rewrite Hm, Hf. split; reflexivity.
Qed.

(** C1, as the code has it. Every save appends its row and keeps the
    rows the filename already has: after a sequence of saves the ledger
    in memory is the earlier ledger followed by the saved rows, and the
    ledger file, rewritten at each save, lists the same rows by filename
    with those of one filename in the order they were saved.  A filename
    thus has one row per save, the last one from its last save. *)
Theorem saves_append_rows (env : Env) (saves : list entry) (w : World) :
  let w' := save_all env saves w in
  metadata (app w') = metadata (app w) ++ saves /\
  (forall f, rows_of (metadata (app w')) f
             = rows_of (metadata (app w)) f ++ rows_of saves f) /\
  (forall f s, In (f, s) saves ->
               has_filename (metadata (app w')) f = true) /\
  (meta_open_raises env = false -> saves <> [] ->
     metadata_file w'
     = Some (map entry_line (sorted_by_filename (metadata (app w')))) /\
     forall f, rows_of (sorted_by_filename (metadata (app w'))) f
               = rows_of (metadata (app w)) f ++ rows_of saves f).
Proof.
  cbv zeta. rewrite save_all_metadata.
  split; [reflexivity|].
  split; [intros f; apply LedgerFacts.rows_of_app|].
  split.
  - intros f s Hin. rewrite LedgerFacts.has_filename_app.
    apply orb_true_iff. right. unfold has_filename.
    apply existsb_exists. exists f. split; [|apply String.eqb_refl].
    apply in_map_iff. exists (f, s). split; [reflexivity|exact Hin].
  - intros He Hn. split.
    + rewrite (save_all_file env saves w He Hn), save_all_metadata.
      reflexivity.
    + intros f. rewrite LedgerFacts.rows_of_sorted.
      apply LedgerFacts.rows_of_app.
Qed.

Lemma saves_append_rows_witness :
  metadata_file
    (save_all calm [("001.wav", "Hello world"); ("001.wav", "Hello world")]%string
       (two_prompts 0 [] []))
  = Some ["001.wav|Hello world"; "001.wav|Hello world"]%string.
Proof.
  destruct (saves_append_rows calm
              [("001.wav", "Hello world"); ("001.wav", "Hello world")]%string
              (two_prompts 0 [] [])) as (_ & _ & _ & H).
  destruct H as [H _]; [reflexivity|discriminate|].
  rewrite H. reflexivity.
Defined.

End RecorderFacts.

(* ------------------------------------------------------------------ *)
(** * Facts on the review window *)
(* ------------------------------------------------------------------ *)

Module ReviewFacts.

Import Ledger World Props Review.
Local Open Scope Z_scope.

#[local] Arguments metadata_lines : simpl never.
#[local] Arguments Py.getitem : simpl never.
#[local] Arguments Py.pop : simpl never.
#[local] Arguments Py.len : simpl never.
#[local] Arguments Recorder.display_status : simpl never.
#[local] Arguments Z.add : simpl never.
#[local] Arguments Z.sub : simpl never.
#[local] Arguments Z.ltb : simpl never.
#[local] Arguments Z.leb : simpl never.

(** ** The review display *)

Lemma update_display_fields (env : Env) (rw : ReviewWindow) (w : World) :
  rmetadata (fst (update_display env rw w)) = rmetadata rw /\
  rindex (fst (update_display env rw w)) = rindex rw.
Proof.
  unfold update_display.
  destruct (rmetadata rw) as [|e t] eqn:Hm; [split; [exact Hm|reflexivity]|].
  rewrite <- Hm.
  destruct (rindex rw <? Py.len (rmetadata rw)); [|split; reflexivity].
  destruct (Py.getitem (rmetadata rw) (rindex rw)) as [[f s]|];
    [|split; reflexivity].
  destruct (wav_files w f); [destruct (sf_read_raises env)|]; split; reflexivity.
Qed.

Lemma getitem_in_range {A} (l : list A) (i : Z) :
  0 <= i < Py.len l -> exists x, Py.getitem l i = Some x.
Proof.
  intros H. unfold Py.getitem.
  rewrite PyFacts.norm_index_in_range by exact H.
  destruct (nth_error l (Z.to_nat i)) as [x|] eqn:E; [exists x; reflexivity|].
  apply nth_error_None in E. unfold Py.len in H. lia.
Qed.

Lemma getitem_nil {A} (i : Z) : Py.getitem (@nil A) i = None.
Proof.
  unfold Py.getitem, Py.norm_index, Py.len. simpl.
  destruct (Z.ltb_spec i 0).
  - destruct (Z.leb_spec 0 (i + 0)); [lia|reflexivity].
  - destruct (Z.ltb_spec i 0); [lia|reflexivity].
Qed.

(** With an index that is not negative the display never raises. *)
Lemma update_display_returns (env : Env) (rw : ReviewWindow) (w : World) :
  0 <= rindex rw -> snd (update_display env rw w) = Returned.
Proof.
  intros H0. unfold update_display.
  destruct (rmetadata rw) as [|e t] eqn:Hm; [reflexivity|].
  rewrite <- Hm.
  destruct (Z.ltb_spec (rindex rw) (Py.len (rmetadata rw))) as [Hlt|];
    [|reflexivity].
  destruct (getitem_in_range (rmetadata rw) (rindex rw) (conj H0 Hlt))
    as [[f s] ->].
  destruct (wav_files w f); [destruct (sf_read_raises env)|]; reflexivity.
Qed.

(** The display of a row whose file is absent says so. *)
Lemma update_display_missing (env : Env) (rw : ReviewWindow) (w : World)
      (filename s : string) :
  Py.getitem (rmetadata rw) (rindex rw) = Some (filename, s) ->
  wav_files w filename = None ->
  level_label (fst (update_display env rw w)) = FileMissing.
Proof.
  intros Hg Hf. unfold update_display.
  pose proof (RecorderFacts.getitem_some_lt _ _ _ Hg) as Hlt.
  destruct (rmetadata rw) as [|e t] eqn:Hm.
  - rewrite getitem_nil in Hg. discriminate.
  - rewrite <- Hm in *.
    destruct (Z.ltb_spec (rindex rw) (Py.len (rmetadata rw))); [|lia].
    rewrite Hg. cbn. rewrite Hf. reflexivity.
Qed.

(** ** Playing *)

(** C3, where the claim fails: the file of the row is absent; the call
    returns without an error and nothing is reported. *)
Lemma play_audio_missing_file_silent :
  let w := two_prompts 1 [] [("001.wav", "Hello world")]%string in
  let rw := fst (open_review calm w) in
  wav_files w "001.wav"%string = None /\
  snd (play_audio calm rw w) = Returned /\
  ui_log (fst (play_audio calm rw w)) = ui_log w.
Proof. cbv zeta. repeat split. Qed.

(** C3, as the code has it. Playing a row whose backing file is absent
    does nothing: nothing is played, no error is reported, and world and
    window, the ledger included, are as before; the absence shows only
    as the "File missing!" text of the display of that row. *)
Theorem play_audio_missing_file (env : Env) (rw : ReviewWindow) (w : World)
        (filename s : string) :
  Py.getitem (rmetadata rw) (rindex rw) = Some (filename, s) ->
  wav_files w filename = None ->
  play_audio env rw w = (w, Returned) /\
  level_label (fst (update_display env rw w)) = FileMissing.
Proof.
  intros Hg Hf. split; [|apply (update_display_missing env rw w filename s Hg Hf)].
  unfold play_audio.
  pose proof (RecorderFacts.getitem_some_lt _ _ _ Hg) as Hlt.
  destruct (Z.ltb_spec (rindex rw) (Py.len (rmetadata rw))); [|lia].
  rewrite Hg, Hf. reflexivity.
Qed.

Lemma play_audio_missing_file_witness :
  let w := two_prompts 1 [] [("001.wav", "Hello world")]%string in
  play_audio calm (fst (open_review calm w)) w = (w, Returned).
Proof.
  cbv zeta.
  apply (play_audio_missing_file calm _ _ "001.wav"%string
           "Hello world"%string); reflexivity.
Defined.

(** ** Deleting *)

(** The window, the world and the outcome of a handler of the review
    window that returns the three. *)
Lemma delete_row_fields (env : Env) (rw : ReviewWindow) (w : World) (k : nat) :
  Py.norm_index (Py.len (rmetadata rw)) (rindex rw) = Some k ->
  let r := delete_row env rw w in
  rmetadata (fst (fst r)) = Py.remove_nth k (rmetadata rw) /\
  metadata (app (snd (fst r))) = Py.remove_nth k (rmetadata rw) /\
  sentences (app (snd (fst r))) = sentences (app w) /\
  index (app (snd (fst r))) = index (app w) /\
  wav_files (snd (fst r)) = wav_files w /\
  metadata_file (snd (fst r))
  = (if meta_open_raises env then metadata_file w
     else Some (metadata_lines (Py.remove_nth k (rmetadata rw)))) /\
  (0 <= rindex rw ->
   snd r = if meta_open_raises env then Uncaught OSError else Returned) /\
  (0 <= rindex rw -> 0 <= rindex (fst (fst r))).
Proof.
  intros Hk. cbv zeta. unfold delete_row, Py.pop. rewrite Hk.
  destruct (meta_open_raises env).
  { cbn. repeat split; intros; assumption. }
  set (m := Py.remove_nth k (rmetadata rw)).
  set (w1 := put_metadata_file (metadata_lines m)
               (with_app (set_metadata m) w)).
  cbn [rmetadata set_rmetadata rindex].
  set (rw1 := if (Py.len m <=? rindex rw) && (0 <? rindex rw)
              then set_rindex (rindex rw - 1) (set_rmetadata m rw)
              else set_rmetadata m rw).
  assert (Hm1 : rmetadata rw1 = m) by (subst rw1; destruct (_ && _); reflexivity).
  assert (Hi1 : 0 <= rindex rw -> 0 <= rindex rw1).
  { intros H0. subst rw1.
    destruct (Z.leb_spec (Py.len m) (rindex rw));
      destruct (Z.ltb_spec 0 (rindex rw)); cbn; lia. }
  destruct (update_display_fields env rw1 w1) as [Em Ei].
  pose proof (update_display_returns env rw1 w1) as Er.
  destruct (update_display env rw1 w1) as [rw2 o]. cbn [fst snd] in *.
  destruct (RecorderFacts.update_sentence_display_app w1)
    as (Us & Ui & _ & _ & Um & Uw & Uf).
  destruct o as [|e]; cbn [fst snd].
  - rewrite Us, Ui, Um, Uw, Uf, Em, Hm1, Ei.
    repeat split; auto.
  - rewrite Em, Hm1, Ei.
    repeat split; auto.
Qed.

Lemma norm_index_nth {A} (l : list A) (i : Z) (x : A) :
  Py.getitem l i = Some x ->
  exists k, Py.norm_index (Py.len l) i = Some k /\ nth_error l k = Some x.
Proof.
  unfold Py.getitem. destruct (Py.norm_index (Py.len l) i) as [k|];
    [|discriminate].
  intros H. exists k. split; [reflexivity|exact H].
Qed.

(** C5, where the claim fails: prompt 1 is recorded and [metadata.csv]
    lists it; the ledger file cannot be opened for writing.  The delete
    is confirmed and the audio file is removed, the row leaves the list
    of the window and that of the application, but the ledger file is
    not rewritten: it still lists the row, and the error leaves the
    handler uncaught. *)
Lemma delete_audio_ledger_not_rewritten :
  let w := put_metadata_file ["001.wav|Hello world"]%string one_recorded in
  let rw := fst (open_review calm w) in
  let r := delete_audio ledger_locked rw w in
  wav_files w "001.wav"%string <> None /\
  wav_files (world_of r) "001.wav"%string = None /\
  rmetadata (window_of r) = [] /\
  metadata (app (world_of r)) = [] /\
  metadata_file (world_of r) = Some ["001.wav|Hello world"]%string /\
  metadata_file (world_of r)
  <> Some (metadata_lines (rmetadata (window_of r))) /\
  outcome_of r = Uncaught OSError.
Proof.
  cbv zeta.
  split; [cbn; discriminate|].
  split; [reflexivity|]. split; [reflexivity|]. split; [reflexivity|].
  split; [reflexivity|]. split; [cbn; discriminate|reflexivity].
Qed.

(** C5. A confirmed delete of the displayed row: when the file is there
    and its removal raises, the delete is abandoned, with the error
    shown and window, ledger (in memory and on disk) and files as
    before; when the file is removed or was absent already, exactly the
    displayed row leaves the list and the application's list becomes
    that list; then, if the ledger file can be opened, it is rewritten
    with the remaining rows sorted by filename and the handler returns,
    and if it cannot, the ledger file is left as it was and the error
    leaves the handler uncaught. *)
Theorem delete_audio_consistent (env : Env) (rw : ReviewWindow) (w : World)
        (filename s : string) :
  0 <= rindex rw ->
  Py.getitem (rmetadata rw) (rindex rw) = Some (filename, s) ->
  confirm env = true ->
  let r := delete_audio env rw w in
  (wav_files w filename <> None -> os_remove_raises env = true ->
     window_of r = rw /\
     same_ledger w (world_of r) /\ same_files w (world_of r) /\
     outcome_of r = Returned /\
     reported (Dialog (ErrDeleteFailed OSError)) w (world_of r)) /\
  (wav_files w filename = None \/ os_remove_raises env = false ->
     exists k,
       Z.of_nat k = rindex rw /\
       nth_error (rmetadata rw) k = Some (filename, s) /\
       rmetadata (window_of r)
       = firstn k (rmetadata rw) ++ skipn (S k) (rmetadata rw) /\
       S (List.length (rmetadata (window_of r)))
       = List.length (rmetadata rw) /\
       metadata (app (world_of r)) = rmetadata (window_of r) /\
       wav_files (world_of r) filename = None /\
       (forall g, g <> filename ->
                  wav_files (world_of r) g = wav_files w g) /\
       (meta_open_raises env = false ->
          metadata_file (world_of r)
          = Some (map entry_line
                      (sorted_by_filename (rmetadata (window_of r)))) /\
          outcome_of r = Returned) /\
       (meta_open_raises env = true ->
          metadata_file (world_of r) = metadata_file w /\
          outcome_of r = Uncaught OSError)).
Proof.
  intros H0 Hg Hc. cbv zeta.
  pose proof (RecorderFacts.getitem_some_lt _ _ _ Hg) as Hlt.
  assert (Hk : Py.norm_index (Py.len (rmetadata rw)) (rindex rw)
               = Some (Z.to_nat (rindex rw)))
    by (apply PyFacts.norm_index_in_range; lia).
  assert (Hn : nth_error (rmetadata rw) (Z.to_nat (rindex rw))
               = Some (filename, s)).
  { unfold Py.getitem in Hg. rewrite Hk in Hg. exact Hg. }
  assert (Hlen : (Z.to_nat (rindex rw) < List.length (rmetadata rw))%nat).
  { apply nth_error_Some. rewrite Hn. discriminate. }
  unfold delete_audio, window_of, world_of, outcome_of.
  destruct (Z.ltb_spec (rindex rw) (Py.len (rmetadata rw))); [|lia].
  rewrite Hg, Hc. cbn [wav_files show log].
  split.
  - intros Hex Hrm. destruct (wav_files w filename); [|contradiction].
    rewrite Hrm. cbn.
    repeat split.
    exists [Dialog (AskConfirmDelete s)], [].
    unfold show, log. cbn [ui_log]. rewrite <- app_assoc. reflexivity.
  - intros Hcase.
    exists (Z.to_nat (rindex rw)).
    split; [lia|]. split; [exact Hn|].
    assert (Hgo : exists w1,
               (match wav_files w filename with
                | Some _ =>
                    if os_remove_raises env
                    then (rw, show (ErrDeleteFailed OSError)
                                (show (AskConfirmDelete s) w), Returned)
                    else delete_row env rw
                           (remove_wav filename (show (AskConfirmDelete s) w))
                | None => delete_row env rw (show (AskConfirmDelete s) w)
                end) = delete_row env rw w1 /\
               wav_files w1 filename = None /\
               (forall g, g <> filename -> wav_files w1 g = wav_files w g) /\
               metadata_file w1 = metadata_file w).
    { destruct (wav_files w filename) eqn:Hw.
      - destruct Hcase as [Hcase|Hcase]; [discriminate|]. rewrite Hcase.
        eexists. split; [reflexivity|]. cbn.
        rewrite String.eqb_refl. split; [reflexivity|].
        split; [|reflexivity].
        intros g Hne. destruct (String.eqb_spec g filename);
          [contradiction|reflexivity].
      - eexists. split; [reflexivity|]. cbn.
        split; [exact Hw|split; reflexivity]. }
    destruct Hgo as (w1 & -> & Hw1 & Hw2 & Hw3).
    destruct (delete_row_fields env rw w1 _ Hk)
      as (Em & Ea & _ & _ & Ew & Ef & Eo & _).
    rewrite Em, Ea, Ew, Ef, (Eo H0).
    split; [apply PyFacts.remove_nth_split|].
    split; [rewrite PyFacts.remove_nth_length by exact Hlen; lia|].
    split; [reflexivity|]. split; [exact Hw1|]. split; [exact Hw2|].
    split; intros ->; [split; reflexivity|].
    split; [exact Hw3|reflexivity].
Qed.

Lemma delete_audio_consistent_witness :
  let rw := fst (open_review calm one_recorded) in
  rmetadata (window_of (delete_audio calm rw one_recorded)) = [] /\
  metadata_file (world_of (delete_audio calm rw one_recorded)) = Some [] /\
  window_of (delete_audio file_locked rw one_recorded) = rw.
Proof.
  cbv zeta.
  destruct (delete_audio_consistent calm
              (fst (open_review calm one_recorded)) one_recorded
              "001.wav"%string "Hello world"%string)
    as [_ H]; [exact (Z.le_refl 0)|reflexivity|reflexivity|].
  destruct H as (k & Hk & _ & Hm & _ & _ & _ & _ & Hf & _);
    [right; reflexivity|].
  destruct (Hf eq_refl) as [Hf' _].
  destruct (delete_audio_consistent file_locked
              (fst (open_review calm one_recorded)) one_recorded
              "001.wav"%string "Hello world"%string)
    as [H' _]; [exact (Z.le_refl 0)|reflexivity|reflexivity|].
  destruct H' as (Hw & _); [cbn; discriminate|reflexivity|].
  assert (k = 0%nat) as -> by (change (Z.of_nat k = 0) in Hk; lia).
  rewrite Hf', Hm. split; [reflexivity|split; [reflexivity|exact Hw]].
Defined.

Lemma delete_row_frame (env : Env) (rw : ReviewWindow) (w : World) :
  let r := delete_row env rw w in
  same_cursor w (world_of r) /\
  wav_files (world_of r) = wav_files w /\
  (metadata (app (world_of r)) = metadata (app w) \/
   metadata (app (world_of r)) = rmetadata (window_of r)) /\
  (metadata_file (world_of r) = metadata_file w \/
   metadata_file (world_of r)
   = Some (metadata_lines (rmetadata (window_of r)))).
Proof.
  cbv zeta. unfold window_of, world_of, same_cursor.
  destruct (Py.norm_index (Py.len (rmetadata rw)) (rindex rw)) as [k|] eqn:Hk.
  - destruct (delete_row_fields env rw w k Hk)
      as (Em & Ea & Es & Ei & Ew & Ef & _).
    rewrite Em, Ea, Es, Ei, Ew, Ef.
    repeat split; [right; reflexivity|].
    destruct (meta_open_raises env); [left|right]; reflexivity.
  - unfold delete_row, Py.pop. rewrite Hk. cbn.
    repeat split; left; reflexivity.
Qed.

(** A delete never moves the cursor of the main window; the list of the
    main window and the ledger file are as before, or those of the
    review window. *)
Lemma delete_audio_frame (env : Env) (rw : ReviewWindow) (w : World) :
  let r := delete_audio env rw w in
  same_cursor w (world_of r) /\
  (metadata (app (world_of r)) = metadata (app w) \/
   metadata (app (world_of r)) = rmetadata (window_of r)) /\
  (metadata_file (world_of r) = metadata_file w \/
   metadata_file (world_of r)
   = Some (metadata_lines (rmetadata (window_of r)))).
Proof.
  cbv zeta. unfold delete_audio.
  assert (Hsame : forall dlg : dialog,
             same_cursor w (show dlg w) /\
             metadata (app (show dlg w)) = metadata (app w) /\
             metadata_file (show dlg w) = metadata_file w)
    by (intros dlg; repeat split).
  destruct (rindex rw <? Py.len (rmetadata rw));
    [|unfold window_of, world_of; cbn; repeat split; left; reflexivity].
  destruct (Py.getitem (rmetadata rw) (rindex rw)) as [[filename s]|];
    [|unfold window_of, world_of; cbn; repeat split; left; reflexivity].
  destruct (confirm env);
    [|unfold window_of, world_of; cbn; repeat split; left; reflexivity].
  cbn [wav_files show log].
  destruct (wav_files w filename);
    [destruct (os_remove_raises env);
     [unfold window_of, world_of; cbn; repeat split; left; reflexivity|]|].
  - destruct (delete_row_frame env rw
                (remove_wav filename (show (AskConfirmDelete s) w)))
      as (Hc & _ & Hm & Hf).
    split; [exact Hc|]. split; [exact Hm|exact Hf].
  - destruct (delete_row_frame env rw (show (AskConfirmDelete s) w))
      as (Hc & _ & Hm & Hf).
    split; [exact Hc|]. split; [exact Hm|exact Hf].
Qed.

(** ** Closing *)

(** C2, where the claim fails: the cursor is on prompt 1, which is
    recorded; the review window is opened and closed; the cursor is
    still on prompt 1, not on the next unrecorded prompt. *)
Lemma close_window_does_not_skip :
  let w := two_prompts 0 [] [("001.wav", "Hello world")]%string in
  let rw := fst (open_review calm w) in
  index (app (close_window rw w)) = 0 /\
  index (Recorder.skip_to_next_unrecorded (app w)) = 1 /\
  index (app (close_window rw w))
  <> index (Recorder.skip_to_next_unrecorded (app (close_window rw w))).
Proof. cbv zeta. repeat split. vm_compute. discriminate. Qed.

(** C2, as the code has it. Closing the review window refreshes the
    main display and nothing else: cursor, ledger and files are as
    before, and the loop of [skip_to_next_unrecorded] is not run.  The
    list of the main window is replaced by the one of the review window
    at each delete that goes through, which does not move the cursor
    either.  With two prompts, the cursor on prompt 2 and the one row of
    [001.wav] deleted in review, file and rows are gone and the cursor
    is still on prompt 2 (index 1, counted from 0). *)
Theorem close_window_keeps_cursor :
  (forall rw w,
     same_cursor w (close_window rw w) /\
     same_ledger w (close_window rw w) /\
     same_files w (close_window rw w)) /\
  (forall env rw w,
     same_cursor w (world_of (delete_audio env rw w)) /\
     (metadata (app (world_of (delete_audio env rw w))) = metadata (app w) \/
      metadata (app (world_of (delete_audio env rw w)))
      = rmetadata (window_of (delete_audio env rw w)))) /\
  (let r := delete_audio calm (fst (open_review calm one_recorded))
              one_recorded in
   let w' := close_window (window_of r) (world_of r) in
   rmetadata (window_of r) = [] /\
   metadata (app w') = [] /\
   metadata_file w' = Some [] /\
   wav_files w' "001.wav"%string = None /\
   index (app w') = 1).
Proof.
  split.
  { intros rw w. unfold close_window, same_cursor, same_ledger, same_files.
    destruct (RecorderFacts.update_sentence_display_app w)
      as (-> & -> & _ & _ & -> & -> & ->).
    repeat split. }
  split.
  { intros env rw w.
    destruct (delete_audio_frame env rw w) as (Hc & Hm & _).
    split; [exact Hc|exact Hm]. }
  cbv zeta. repeat split.
Qed.

(** ** The ledger file *)

(** C9. Whatever was saved or deleted, in whatever order, the lines a
    save or a delete leaves in the ledger file are those of the rows in
    memory in ascending order of filename: the sort yields a
    rearrangement of the rows that is in ascending filename order, and
    after [save_metadata], [stop_recording] and [delete_audio] the file
    is the one before (nothing was persisted) or holds the lines of the
    sorted rows. *)
Theorem persisted_ledger_sorted :
  (forall m, Sorted filename_le (sorted_by_filename m) /\
             Permutation (sorted_by_filename m) m) /\
  (forall env f s w,
     metadata_file (fst (Recorder.save_metadata env f s w))
     = if meta_open_raises env then metadata_file w
       else Some (map entry_line
                      (sorted_by_filename
                         (metadata
                            (app (fst (Recorder.save_metadata env f s w))))))) /\
  (forall env w,
     metadata_file (Recorder.stop_recording env w) = metadata_file w \/
     metadata_file (Recorder.stop_recording env w)
     = Some (map entry_line
                 (sorted_by_filename
                    (metadata (app (Recorder.stop_recording env w)))))) /\
  (forall env rw w,
     metadata_file (world_of (delete_audio env rw w)) = metadata_file w \/
     metadata_file (world_of (delete_audio env rw w))
     = Some (map entry_line
                 (sorted_by_filename
                    (rmetadata (window_of (delete_audio env rw w)))))).
Proof.
  split.
  { intros m. split;
      [apply LedgerFacts.sorted_sorted|apply LedgerFacts.sorted_perm]. }
  split.
  { intros env f s w.
    destruct (RecorderFacts.save_metadata_fields env f s w) as (_ & -> & _).
    reflexivity. }
  split.
  { intros env w. apply RecorderFacts.stop_recording_persists. }
  intros env rw w. apply (delete_audio_frame env rw w).
Qed.

End ReviewFacts.

(* ------------------------------------------------------------------ *)
(** * Further facts on the audio processing functions *)
(* ------------------------------------------------------------------ *)

Module SignalExtras.

Import Signal SignalFacts.
Local Open Scope R_scope.

Lemma sum_square_zero_inv (l : list R) :
  sum (square l) = 0 -> Forall (fun x => x = 0) l.
Proof.
  induction l as [|x t IH]; intros H; constructor.
  - simpl in H.
    pose proof (sum_square_nonneg t) as Ht.
    pose proof (Rle_0_sqr x) as Hx. unfold Rsqr in Hx.
    assert (Hxx : x * x = 0) by lra.
    destruct (Rmult_integral _ _ Hxx); assumption.
  - apply IH. simpl in H.
    pose proof (sum_square_nonneg t) as Ht.
    pose proof (Rle_0_sqr x) as Hx. unfold Rsqr in Hx. lra.
Qed.

Lemma peak_zero (l : list R) : Forall (fun x => x = 0) l -> peak l = 0.
Proof.
  unfold peak. induction 1 as [|x t Hx _ IH]; simpl; [reflexivity|].
  rewrite IH, Hx, Rabs_R0. apply Rmax_left. lra.
Qed.

Lemma rms_zero_all_zero (audio : list R) :
  rms audio = Fin 0 -> Forall (fun x => x = 0) audio.
Proof.
  destruct audio as [|x t]; [constructor|].
  rewrite rms_cons. intros [= H].
  apply sum_square_zero_inv.
  pose proof (sum_square_nonneg (x :: t)) as Hs.
  assert (Hn : 0 < INR (List.length (square (x :: t))))
    by (apply lt_0_INR; simpl; lia).
  apply sqrt_eq_0 in H.
  - unfold Rdiv in H. apply Rmult_integral in H. destruct H as [H|H]; [exact H|].
    exfalso. apply (Rinv_neq_0_compat _ (Rgt_not_eq _ _ Hn)). exact H.
  - apply Rmult_le_pos; [exact Hs|]. left. apply Rinv_0_lt_compat, Hn.
Qed.

(** Whatever the input and the target, no sample of the result of
    [normalize_audio] exceeds 0.95 in magnitude. *)
Theorem normalize_audio_peak_bound (audio : list R) (t : R) :
  peak (normalize_audio audio t) <= 0.95.
Proof.
  destruct (rms audio) as [|r] eqn:Hr.
  - rewrite (normalize_NaN _ _ Hr), (rms_NaN_nil _ Hr). unfold peak. simpl. lra.
  - destruct (Req_dec r 0) as [->|Hr0].
    + rewrite (normalize_zero_rms _ _ Hr), (peak_zero _ (rms_zero_all_zero _ Hr)).
      lra.
    + rewrite (normalize_scaled _ t _ Hr Hr0).
      destruct (Rgt_dec (peak (scale (t / r) audio)) 0.95) as [Hp|Hp].
      * rewrite (peak_rescaled _ Hp). lra.
      * lra.
Qed.

Lemma sum_square_scale (c : R) (l : list R) :
  sum (square (scale c l)) = c * c * sum (square l).
Proof.
  induction l as [|x t IH]; simpl; [ring|].
  change (sum (square (scale c t)) = c * c * sum (square t)) in IH.
  change (fold_right Rplus 0 (map (fun x0 : R => x0 * x0)
            (map (fun x0 : R => x0 * c) t)))
    with (sum (square (scale c t))).
  rewrite IH. change (fold_right Rplus 0 (map (fun x0 => x0 * x0) t))
    with (sum (square t)). ring.
Qed.

Lemma rms_scale (c r : R) (l : list R) :
  rms l = Fin r -> rms (scale c l) = Fin (Rabs c * r).
Proof.
  destruct l as [|x t]; [discriminate|].
  rewrite rms_cons. intros [= <-].
  change (scale c (x :: t)) with (x * c :: scale c t).
  rewrite rms_cons. f_equal.
  change (x * c :: scale c t) with (scale c (x :: t)).
  rewrite sum_square_scale.
  unfold square, scale. rewrite !length_map.
  replace (c * c * sum (map (fun x0 => x0 * x0) (x :: t))
           / INR (List.length (x :: t)))
    with (Rsqr c * (sum (map (fun x0 => x0 * x0) (x :: t))
                    / INR (List.length (x :: t))))
    by (unfold Rsqr, Rdiv; ring).
  rewrite sqrt_mult_alt by apply Rle_0_sqr.
  rewrite sqrt_Rsqr_abs. reflexivity.
Qed.

(** When the scaled samples stay within 0.95, the result of
    [normalize_audio] has exactly the target RMS. *)
Theorem normalize_audio_reaches_target (audio : list R) (t r : R) :
  rms audio = Fin r -> r <> 0 -> 0 <= t ->
  peak (scale (t / r) audio) <= 0.95 ->
  rms (normalize_audio audio t) = Fin t /\
  List.length (normalize_audio audio t) = List.length audio.
Proof.
  intros Hr Hr0 Ht Hp.
  pose proof (rms_nonneg _ _ Hr) as Hpos.
  rewrite (normalize_scaled _ t _ Hr Hr0).
  destruct (Rgt_dec (peak (scale (t / r) audio)) 0.95) as [Hq|_]; [lra|].
  split; [|apply scale_length].
  rewrite (rms_scale _ _ _ Hr). f_equal.
  rewrite Rabs_right.
  - field. exact Hr0.
  - apply Rle_ge. apply Rmult_le_pos; [exact Ht|].
    left. apply Rinv_0_lt_compat. lra.
Qed.

Lemma normalize_audio_reaches_target_witness :
  rms (normalize_audio [1; 1] 0.15) = Fin 0.15.
Proof.
  apply (normalize_audio_reaches_target [1; 1] 0.15 1 rms_ones); [lra|lra|].
  unfold peak. simpl.
  rewrite !Rabs_right by lra.
  rewrite Rmax_left by (apply Rmax_case; lra).
  lra.
Defined.

(** ** Silence trimming keeps a stretch of the capture *)

Lemma slice_is_stretch {A} (l : list A) (lo hi : Z) :
  exists pre post, l = pre ++ Py.slice l lo hi ++ post.
Proof.
  unfold Py.slice.
  set (a := Py.slice_bound (Py.len l) lo).
  set (b := Py.slice_bound (Py.len l) hi).
  exists (firstn a l), (skipn (b - a) (skipn a l)).
  rewrite (firstn_skipn (b - a) (skipn a l)), (firstn_skipn a l).
  reflexivity.
Qed.

(** The result of [trim_silence] is a stretch of consecutive samples of
    its input: nothing is added, changed or reordered. *)
Theorem trim_silence_is_stretch (audio : list R) (sr : Z) (th : R) (d : Q) :
  exists pre post, audio = pre ++ trim_silence audio sr th d ++ post.
Proof.
  unfold trim_silence.
  destruct (_ <? _)%Z.
  - exists [], []. rewrite app_nil_r. reflexivity.
  - apply slice_is_stretch.
Qed.

Lemma first_above_range (th : R) (l : list R) (b i : Z) :
  first_above th l b = Some i -> (b <= i < b + Py.len l)%Z.
Proof.
  revert b. induction l as [|x t IH]; intros b; simpl; [discriminate|].
  unfold Py.len in *. simpl List.length.
  destruct (exceeds th x).
  - intros [= <-]. lia.
  - intros H. apply IH in H. lia.
Qed.

Lemma last_above_range (th : R) (l : list R) (b i : Z) :
  last_above th l b = Some i -> (b <= i < b + Py.len l)%Z.
Proof.
  revert b. induction l as [|x t IH]; intros b; simpl; [discriminate|].
  unfold Py.len in *. simpl List.length.
  destruct (last_above th t (b + 1)) as [j|] eqn:E.
  - intros [= <-]. apply IH in E. lia.
  - destruct (exceeds th x); [|discriminate]. intros [= <-]. lia.
Qed.

Lemma int_nonneg (q : Q) : (0 <= q)%Q -> (0 <= Py.int q)%Z.
Proof.
  intros H. unfold Py.int. apply Z.quot_pos; [|lia].
  unfold Qle in H. simpl in H. lia.
Qed.

Lemma pad_frames_nonneg (sr : Z) : (0 <= sr)%Z -> (0 <= pad_frames sr)%Z.
Proof.
  intros H. unfold pad_frames. apply int_nonneg.
  apply Qmult_le_0_compat; [discriminate|].
  unfold Qle. simpl. lia.
Qed.

Lemma idx_bounds (audio : list R) (sr : Z) (th : R) :
  (0 <= sr)%Z ->
  (0 <= start_idx audio sr th)%Z /\
  (0 <= end_idx audio sr th <= Py.len audio)%Z.
Proof.
  intros Hsr. pose proof (pad_frames_nonneg sr Hsr) as Hp.
  assert (Hlen : Py.len (smoothed audio) = Py.len audio)
    by (unfold Py.len; rewrite smoothed_length; reflexivity).
  unfold start_idx, end_idx. rewrite Hlen.
  split.
  - destruct (first_above th (smoothed audio) 0); lia.
  - destruct (last_above th (smoothed audio) 0) as [i|] eqn:E.
    + apply last_above_range in E. rewrite Hlen in E. lia.
    + unfold Py.len. lia.
Qed.

Lemma slice_length {A} (l : list A) (lo hi : Z) :
  (0 <= lo)%Z -> (0 <= hi <= Py.len l)%Z ->
  Z.of_nat (List.length (Py.slice l lo hi)) = Z.max 0 (hi - Z.min lo (Py.len l)).
Proof.
  intros Hlo Hhi. unfold Py.slice, Py.slice_bound.
  destruct (Z.ltb_spec lo 0); [lia|].
  destruct (Z.ltb_spec hi 0); [lia|].
  rewrite length_firstn, length_skipn.
  unfold Py.len in *. lia.
Qed.

(** With a sample rate that is not negative, [trim_silence] never
    returns fewer samples than the minimum [int(duration * sample_rate)],
    unless the capture itself is shorter, which it then returns whole. *)
Theorem trim_silence_min_length (audio : list R) (sr : Z) (th : R) (d : Q) :
  (0 <= sr)%Z ->
  (Z.min (Py.len audio) (min_frames sr d)
   <= Py.len (trim_silence audio sr th d))%Z.
Proof.
  intros Hsr. destruct (idx_bounds audio sr th Hsr) as [Hs He].
  unfold trim_silence.
  destruct (Z.ltb_spec (end_idx audio sr th - start_idx audio sr th)
                       (min_frames sr d)) as [Hlt|Hge]; [lia|].
  unfold Py.len at 2. rewrite (slice_length _ _ _ Hs He). lia.
Qed.

Lemma trim_silence_min_length_witness :
  (Z.min (Py.len [1%R]) (min_frames SAMPLE_RATE SILENCE_DURATION)
   <= Py.len (trim_silence [1%R] SAMPLE_RATE SILENCE_THRESHOLD
                SILENCE_DURATION))%Z.
Proof.
  apply (trim_silence_min_length [1%R] SAMPLE_RATE SILENCE_THRESHOLD
           SILENCE_DURATION).
  vm_compute. discriminate.
Defined.

(** ** A capture below the threshold is never trimmed *)

Lemma peak_abs_bound (l : list R) (x : R) : In x (map Rabs l) -> x <= peak l.
Proof.
  intros H. apply in_map_iff in H. destruct H as (y & <- & Hy).
  pose proof (peak_bounds l) as Hb. rewrite Forall_forall in Hb.
  apply Hb, Hy.
Qed.

Lemma sample_at_abs_bound (l : list R) (j : Z) :
  0 <= sample_at (map Rabs l) j <= peak l.
Proof.
  unfold sample_at. destruct (j <? 0)%Z.
  - split; [lra|apply peak_nonneg].
  - destruct (nth_in_or_default (Z.to_nat j) (map Rabs l) 0) as [Hin | ->].
    + split; [|apply peak_abs_bound, Hin].
      apply in_map_iff in Hin. destruct Hin as (y & <- & _). apply Rabs_pos.
    + split; [lra|apply peak_nonneg].
Qed.

Lemma sum_bound (f : nat -> R) (c : R) (ks : list nat) :
  (forall k, 0 <= f k <= c) ->
  0 <= sum (map f ks) <= INR (List.length ks) * c.
Proof.
  intros H. induction ks as [|k t IH].
  - simpl. lra.
  - change (sum (map f (k :: t))) with (f k + sum (map f t)).
    change (List.length (k :: t)) with (S (List.length t)).
    rewrite S_INR. specialize (H k). lra.
Qed.

Lemma moving_average_bound (l : list R) (w : nat) :
  (0 < w)%nat ->
  Forall (fun x => 0 <= x <= peak l) (moving_average (map Rabs l) w).
Proof.
  intros Hw. unfold moving_average. apply Forall_forall.
  intros x Hx. apply in_map_iff in Hx. destruct Hx as (i & <- & _).
  assert (Hn : 0 < INR w) by (apply lt_0_INR; exact Hw).
  pose proof (sum_bound
                (fun k : nat =>
                   sample_at (map Rabs l)
                     (Z.of_nat i + Z.of_nat k - Z.of_nat (w / 2))
                   * (1 / INR w))
                (peak l * (1 / INR w)) (seq 0 w)) as Hs.
  rewrite length_seq in Hs.
  replace (INR w * (peak l * (1 / INR w))) with (peak l) in Hs
    by (field; apply Rgt_not_eq, Hn).
  apply Hs. intros k.
  pose proof (sample_at_abs_bound l
                (Z.of_nat i + Z.of_nat k - Z.of_nat (w / 2))) as [H0 H1].
  assert (Hinv : 0 < 1 / INR w)
    by (unfold Rdiv; rewrite Rmult_1_l; apply Rinv_0_lt_compat, Hn).
  split.
  - apply Rmult_le_pos; lra.
  - apply Rmult_le_compat_r; lra.
Qed.

(** Every smoothed amplitude lies between 0 and the peak of the
    capture. *)
Lemma smoothed_bound (audio : list R) :
  Forall (fun x => 0 <= x <= peak audio) (smoothed audio).
Proof.
  unfold smoothed. rewrite length_map.
  destruct (Nat.ltb_spec 1 (Nat.min 512 (List.length audio / 10))) as [H|H].
  - apply moving_average_bound. lia.
  - apply Forall_forall. intros x Hx. split.
    + apply in_map_iff in Hx. destruct Hx as (y & <- & _). apply Rabs_pos.
    + apply peak_abs_bound, Hx.
Qed.

(** A capture none of whose samples exceeds the silence threshold in
    magnitude comes back from [trim_silence] as it went in, whatever the
    sample rate and the minimum duration. *)
Theorem trim_silence_below_threshold (audio : list R) (sr : Z) (th : R) (d : Q) :
  peak audio <= th -> trim_silence audio sr th d = audio.
Proof.
  intros H. apply trim_silence_quiet.
  eapply Forall_impl; [|apply smoothed_bound].
  intros x [_ Hx]. simpl. lra.
Qed.

Lemma trim_silence_below_threshold_witness :
  trim_silence [0.005; -0.005] SAMPLE_RATE SILENCE_THRESHOLD SILENCE_DURATION
  = [0.005; -0.005].
Proof.
  apply trim_silence_below_threshold.
  unfold peak, SILENCE_THRESHOLD. simpl.
  rewrite Rabs_right by lra. rewrite Rabs_left by lra.
  repeat apply Rmax_case; lra.
Defined.

End SignalExtras.

(* ------------------------------------------------------------------ *)
(** * Further facts on the ledger, its file and the file names *)
(* ------------------------------------------------------------------ *)

Module LedgerExtras.

Import Ledger World Props Loader.

(** ** Sorting *)

Lemma insert_head (e : entry) (l : list entry) :
  HdRel filename_le e l -> insert e l = e :: l.
Proof.
  intros H. destruct l as [|y t]; [reflexivity|].
  simpl. inversion H as [|? ? Hle]; subst.
  unfold filename_le in Hle. rewrite Hle. reflexivity.
Qed.

Lemma sorted_fixed (l : list entry) :
  Sorted filename_le l -> sorted_by_filename l = l.
Proof.
  induction 1 as [|e t Ht IH He]; [reflexivity|].
  simpl. rewrite IH. apply insert_head, He.
Qed.

(** Sorting is idempotent, so rewriting the ledger file from a ledger
    that was read back from it gives the same lines. *)
Theorem metadata_lines_idempotent (m : list entry) :
  sorted_by_filename (sorted_by_filename m) = sorted_by_filename m /\
  metadata_lines (sorted_by_filename m) = metadata_lines m.
Proof.
  assert (H : sorted_by_filename (sorted_by_filename m) = sorted_by_filename m)
    by apply sorted_fixed, LedgerFacts.sorted_sorted.
  split; [exact H|]. unfold metadata_lines. rewrite H. reflexivity.
Qed.

(** ** File names *)

Lemma first_names_check :
  forallb (fun a =>
             forallb (fun b => Bool.eqb (fst a <=? fst b)%Z
                                        (String.leb (snd a) (snd b)))
                     first_names)
          first_names = true.
Proof. vm_compute. reflexivity. Qed.

Lemma first_names_pair (a b : Z * string) :
  In a first_names -> In b first_names ->
  Bool.eqb (fst a <=? fst b)%Z (String.leb (snd a) (snd b)) = true.
Proof.
  intros Ha Hb.
  pose proof (proj1 (forallb_forall _ _) first_names_check a Ha) as H.
  exact (proj1 (forallb_forall _ _) H b Hb).
Qed.

Lemma in_first_names (i : Z) :
  (0 <= i < 999)%Z -> In (i, Recorder.wav_name i) first_names.
Proof.
  intros H. unfold first_names. apply in_map_iff.
  exists (Z.to_nat i). rewrite Z2Nat.id by lia.
  split; [reflexivity|]. apply in_seq. lia.
Qed.

(** For the first 999 prompts the order of the file names is the order
    of the prompts, so the sorted ledger file lists them in prompt order
    and two prompts never share a file; the file name of prompt 1000 has
    four digits and sorts before that of prompt 101. *)
Theorem wav_name_order (i j : Z) :
  (0 <= i < 999)%Z -> (0 <= j < 999)%Z ->
  (String.leb (Recorder.wav_name i) (Recorder.wav_name j) = true <-> (i <= j)%Z) /\
  (Recorder.wav_name i = Recorder.wav_name j -> i = j) /\
  String.leb (Recorder.wav_name 999) (Recorder.wav_name 100) = true.
Proof.
  intros Hi Hj.
  assert (Hord : forall a b, (0 <= a < 999)%Z -> (0 <= b < 999)%Z ->
                   (String.leb (Recorder.wav_name a) (Recorder.wav_name b) = true
                    <-> (a <= b)%Z)).
  { intros a b Ha Hb.
    pose proof (first_names_pair _ _ (in_first_names a Ha)
                  (in_first_names b Hb)) as Hab.
    cbn [fst snd] in Hab.
    apply Bool.eqb_prop in Hab. rewrite <- Hab. apply Z.leb_le. }
  split; [apply Hord; assumption|].
  split; [|vm_compute; reflexivity].
  intros E.
  assert (Hij : (i <= j)%Z)
    by (apply (Hord i j Hi Hj); rewrite E; apply LedgerFacts.leb_refl).
  assert (Hji : (j <= i)%Z)
    by (apply (Hord j i Hj Hi); rewrite E; apply LedgerFacts.leb_refl).
  lia.
Qed.

Lemma wav_name_order_witness :
  String.leb (Recorder.wav_name 9) (Recorder.wav_name 10) = true.
Proof.
  apply (proj1 (wav_name_order 9 10 ltac:(lia) ltac:(lia))). lia.
Defined.

(** ** Reading the ledger back *)

Lemma split_once_line (f s : string) :
  PyStr.contains "|"%char f = false ->
  PyStr.split_once "|"%char (f ++ "|" ++ s)%string = Some (f, s).
Proof.
  induction f as [|c t IH]; intros H.
  - reflexivity.
  - simpl in H. apply orb_false_iff in H. destruct H as [Hc Ht].
    simpl. rewrite Hc. change (t ++ String "|" s)%string
      with (t ++ "|" ++ s)%string. rewrite (IH Ht). reflexivity.
Qed.

Lemma nonempty_line (e : entry) : nonempty (entry_line e) = true.
Proof.
  unfold entry_line. destruct (filename_of e); reflexivity.
Qed.

Lemma parse_line_row (e : entry) :
  well_formed_row e -> parse_line (entry_line e) = [e].
Proof.
  intros (Hf & _ & _ & Hs). unfold parse_line. rewrite Hs, nonempty_line.
  unfold entry_line. rewrite (split_once_line _ _ Hf).
  destruct e; reflexivity.
Qed.

Lemma load_lines (rows : list entry) :
  Forall well_formed_row rows ->
  load_metadata (Some (map entry_line rows)) = rows.
Proof.
  unfold load_metadata. induction 1 as [|e t He _ IH]; [reflexivity|].
  simpl. rewrite (parse_line_row e He), IH. reflexivity.
Qed.

(** Round trip of the ledger: the file written from a ledger of
    well-formed rows is read back by [load_metadata] as these rows in the
    order of the file, that is sorted by filename; a new session started
    on that file has this ledger. *)
Theorem load_metadata_round_trip (m : list entry) :
  Forall well_formed_row m ->
  load_metadata (Some (metadata_lines m)) = sorted_by_filename m /\
  (forall sentences wav,
     metadata (app (init sentences wav (Some (metadata_lines m))))
     = sorted_by_filename m) /\
  metadata_lines (load_metadata (Some (metadata_lines m))) = metadata_lines m.
Proof.
  intros H.
  assert (Hl : load_metadata (Some (metadata_lines m)) = sorted_by_filename m).
  { unfold metadata_lines. apply load_lines.
    rewrite Forall_forall in *. intros e He. apply H.
    apply (Permutation_in _ (LedgerFacts.sorted_perm m) He). }
  split; [exact Hl|]. split.
  - intros sentences wav. unfold init.
    match goal with
    | |- context [Recorder.update_sentence_display ?x] =>
        destruct (RecorderFacts.update_sentence_display_app x)
          as (_ & _ & _ & _ & -> & _)
    end.
    cbn. exact Hl.
  - rewrite Hl. apply metadata_lines_idempotent.
Qed.

Lemma hello_row_well_formed :
  Forall well_formed_row
    [("002.wav", "Test two"); ("001.wav", "Hello world")]%string.
Proof. repeat constructor. Qed.

Lemma load_metadata_round_trip_witness :
  load_metadata
    (Some (metadata_lines
             [("002.wav", "Test two"); ("001.wav", "Hello world")]%string))
  = [("001.wav", "Hello world"); ("002.wav", "Test two")]%string.
Proof.
  rewrite (proj1 (load_metadata_round_trip _ hello_row_well_formed)).
  reflexivity.
Defined.
End LedgerExtras.

(* ------------------------------------------------------------------ *)
(** * Further facts on the recorder *)
(* ------------------------------------------------------------------ *)

Module RecorderExtras.

Import Ledger World Props Recorder RecorderFacts.
Local Open Scope Z_scope.

#[local] Arguments Signal.trim_silence : simpl never.
#[local] Arguments Signal.normalize_audio : simpl never.
#[local] Arguments Signal.rms : simpl never.
#[local] Arguments Signal.np_lt : simpl never.
#[local] Arguments Signal.np_gt : simpl never.
#[local] Arguments metadata_lines : simpl never.
#[local] Arguments wav_name : simpl never.
#[local] Arguments Py.getitem : simpl never.
#[local] Arguments Py.len : simpl never.
#[local] Arguments display_status : simpl never.
#[local] Arguments stopping : simpl never.
#[local] Arguments processed : simpl never.

(** ** The skip loop *)

Lemma skip_to_next_unrecorded_cases (a : RecorderApp) :
  let a' := skip_to_next_unrecorded a in
  sentences a' = sentences a /\ metadata a' = metadata a /\
  recording a' = recording a /\ audio_data a' = audio_data a /\
  index a <= index a' /\
  (forall k, index a <= k < index a' -> is_recorded a k = true) /\
  (index a' < Py.len (sentences a) -> is_recorded a (index a') = false) /\
  (index a <= Py.len (sentences a) -> index a' <= Py.len (sentences a)).
Proof.
  cbv zeta. unfold skip_to_next_unrecorded. cbn.
  set (fuel := Z.to_nat (Py.len (sentences a) - index a)).
  repeat split.
  - apply skip_loop_ge.
  - intros k Hk. apply (skip_loop_skipped fuel a (index a) k Hk).
  - intros Hlt.
    pose proof (skip_loop_stops fuel a (index a)) as Hs.
    destruct (Z.ltb_spec (skip_loop fuel a (index a)) (Py.len (sentences a)));
      [|lia].
    apply Hs. subst fuel. lia.
  - apply skip_loop_le.
Qed.

(** [skip_to_next_unrecorded] moves the cursor forward over recorded
    prompts only and leaves it on the first prompt from the cursor on
    that is not recorded, or at the end of the list; it changes nothing
    but the cursor.  (The loop is run with the distance to the end as
    fuel; it stops because its condition fails.) *)
Theorem skip_to_next_unrecorded_first (a : RecorderApp) :
  let a' := skip_to_next_unrecorded a in
  sentences a' = sentences a /\ metadata a' = metadata a /\
  recording a' = recording a /\ audio_data a' = audio_data a /\
  index a <= index a' /\
  (forall k, index a <= k < index a' -> is_recorded a k = true) /\
  (index a' < Py.len (sentences a) -> is_recorded a (index a') = false) /\
  (index a <= Py.len (sentences a) -> index a' <= Py.len (sentences a)).
Proof. apply skip_to_next_unrecorded_cases. Qed.


(** ** What stopping a recording can change *)

Lemma stop_recording_frame (env : Env) (w : World) :
  let w' := stop_recording env w in
  sentences (app w') = sentences (app w) /\
  index (app w) <= index (app w') /\
  (metadata (app w') = metadata (app w) \/
   exists s, metadata (app w')
             = metadata (app w) ++ [(wav_name (index (app w)), s)]) /\
  (forall g, g <> wav_name (index (app w)) ->
             wav_files w' g = wav_files w g) /\
  (wav_files w' (wav_name (index (app w)))
   = wav_files w (wav_name (index (app w))) \/
   wav_files w' (wav_name (index (app w)))
   = Some (processed (List.concat (audio_data (app w))))).
Proof.
  cbv zeta. rewrite stop_recording_eq.
  destruct (stopping_fields w) as (Hs & Hi & Hr & Ha & Hm & Hw & Hf & Hl).
  assert (Hrej : forall d s,
             let w' := reset_led
                         (update_sentence_display
                            (set_status s (show d (stopping w)))) in
             sentences (app w') = sentences (app w) /\
             index (app w) <= index (app w') /\
             (metadata (app w') = metadata (app w) \/
              exists s, metadata (app w')
                        = metadata (app w) ++ [(wav_name (index (app w)), s)]) /\
             (forall g, g <> wav_name (index (app w)) ->
                        wav_files w' g = wav_files w g) /\
             (wav_files w' (wav_name (index (app w)))
              = wav_files w (wav_name (index (app w))) \/
              wav_files w' (wav_name (index (app w)))
              = Some (processed (List.concat (audio_data (app w)))))).
  { intros d s.
    destruct (rejected_fields d s w) as (_ & Hfi & [Hme _] & [Hse Hin] & _).
    cbv zeta. rewrite Hse, Hin, Hme.
    repeat split; [lia|left; reflexivity|intros g _; apply Hfi|left; apply Hfi]. }
  assert (Hfail : forall e w1,
             ui_log w1 = ui_log (stopping w) -> recording (app w1) = false ->
             sentences (app w1) = sentences (app w) ->
             index (app w1) = index (app w) ->
             (metadata (app w1) = metadata (app w) \/
              exists s, metadata (app w1)
                        = metadata (app w) ++ [(wav_name (index (app w)), s)]) ->
             (forall g, g <> wav_name (index (app w)) ->
                        wav_files w1 g = wav_files w g) ->
             (wav_files w1 (wav_name (index (app w)))
              = wav_files w (wav_name (index (app w))) \/
              wav_files w1 (wav_name (index (app w)))
              = Some (processed (List.concat (audio_data (app w))))) ->
             let w' := reset_led (save_failed e w1) in
             sentences (app w') = sentences (app w) /\
             index (app w) <= index (app w') /\
             (metadata (app w') = metadata (app w) \/
              exists s, metadata (app w')
                        = metadata (app w) ++ [(wav_name (index (app w)), s)]) /\
             (forall g, g <> wav_name (index (app w)) ->
                        wav_files w' g = wav_files w g) /\
             (wav_files w' (wav_name (index (app w)))
              = wav_files w (wav_name (index (app w))) \/
              wav_files w' (wav_name (index (app w)))
              = Some (processed (List.concat (audio_data (app w)))))).
  { intros e w1 Hlog Hrec H1 H2 H3 H4 H5.
    destruct (failed_fields e w w1 Hlog Hrec) as (_ & Es & Ei & Em & Ew & _).
    cbv zeta. rewrite Es, Ei, Em, Ew, H1, H2.
    repeat split; [lia|exact H3|exact H4|exact H5]. }
  destruct (audio_data (app w)) as [|b bs] eqn:Hd.
  - match goal with
    | |- context [update_sentence_display ?x] =>
        destruct (update_sentence_display_app x)
          as (-> & -> & _ & _ & -> & -> & _)
    end.
    cbn. rewrite Hs, Hi, Hm, Hw.
    repeat split; [lia|left; reflexivity|left; reflexivity].
  - cbv zeta. destruct (Signal.np_lt _ _); [apply Hrej|].
    destruct (Signal.np_gt _ _); [apply Hrej|].
    set (audio := List.concat (b :: bs)).
    set (r := Signal.rms audio).
    assert (Hput_other : forall g, g <> wav_name (index (app w)) ->
              wav_files (put_wav (wav_name (index (app (stopping w))))
                           (processed audio) (stopping w)) g
              = wav_files w g).
    { intros g Hg. cbn [wav_files put_wav]. rewrite Hi.
      destruct (String.eqb_spec g (wav_name (index (app w))));
        [contradiction|rewrite Hw; reflexivity]. }
    assert (Hput_same :
              wav_files (put_wav (wav_name (index (app (stopping w))))
                           (processed audio) (stopping w))
                (wav_name (index (app w)))
              = Some (processed audio)).
    { cbn [wav_files put_wav]. rewrite Hi, String.eqb_refl. reflexivity. }
    destruct (sf_write_raises env) eqn:Hsf.
    { rewrite (save_recording_write_raises env audio r (stopping w) Hsf).
      apply Hfail;
        [reflexivity|exact Hr|exact Hs|exact Hi|left; exact Hm
        |intros g _; rewrite Hw; reflexivity
        |left; rewrite Hw; reflexivity]. }
    destruct (Py.getitem (sentences (app (stopping w)))
                         (index (app (stopping w)))) as [s|] eqn:Hg.
    2:{ rewrite (save_recording_no_sentence env audio r (stopping w) Hsf Hg).
        apply Hfail;
          [reflexivity|exact Hr|exact Hs|exact Hi|left; exact Hm
          |exact Hput_other|right; exact Hput_same]. }
    destruct (meta_open_raises env) eqn:Hmo.
    { rewrite (save_recording_ledger_raises env audio r (stopping w) s
                 Hsf Hg Hmo).
      apply Hfail;
        [reflexivity|exact Hr|exact Hs|exact Hi
        |right; exists s;
         cbn [app with_app metadata set_metadata put_wav];
         rewrite Hm, Hi; reflexivity
        |exact Hput_other|right; exact Hput_same]. }
    rewrite (save_recording_saved env audio r (stopping w) s Hsf Hg Hmo).
    pose proof (saved_fields w (stopping w)
                  (wav_name (index (app (stopping w)))) s
                  (processed audio) r Hs Hi Hr) as HS.
    assert (Hlt : index (app w) < Py.len (sentences (app w))).
    { rewrite <- Hs, <- Hi. apply (getitem_some_lt _ _ _ Hg). }
    specialize (HS Hlt). cbv zeta in HS.
    destruct HS as (_ & S1 & S0 & S7 & S2 & _ & S4 & _).
    split; [exact S1|]. split; [lia|].
    split; [right; exists s; rewrite S2, Hm, Hi; reflexivity|].
    split.
    { intros g Hg'. rewrite S7 by (rewrite Hi; exact Hg').
      rewrite Hw. reflexivity. }
    right. rewrite <- Hi. exact S0.
Qed.

(** ** Starting a recording *)

Lemma start_recording_cases (env : Env) (w : World) :
  let w' := start_recording env w in
  same_cursor w w' /\ same_ledger w w' /\ same_files w w' /\
  (Py.len (sentences (app w)) <= index (app w) ->
     app w' = app w /\ ui_log w' = ui_log w ++ [Dialog InfoComplete]) /\
  (index (app w) < Py.len (sentences (app w)) ->
     audio_data (app w') = [] /\
     (stream_open_raises env = false ->
        recording (app w') = true /\ stream (app w') = StreamActive) /\
     (stream_open_raises env = true ->
        recording (app w') = false /\
        reported (Dialog (ErrStartFailed PortAudioError)) w w')).
Proof.
  cbv zeta. unfold start_recording, same_cursor, same_ledger, same_files.
  destruct (Z.leb_spec (Py.len (sentences (app w))) (index (app w))) as [H|H].
  - cbn. repeat split; intros; try reflexivity; lia.
  - destruct (stream_open_raises env); cbn;
      repeat split; intros; try reflexivity; try discriminate; try lia.
    exists [StatusSet NowRecording], [StatusSet ErrorStarting].
    cbn. rewrite <- !app_assoc. reflexivity.
Qed.

(** [start_recording] at the end of the list only shows the "Complete"
    box.  Otherwise the captured blocks are cleared; when the stream
    opens, the session is recording with an empty buffer; when it cannot
    be opened, the error is shown and the session is idle again.  In no
    case are the cursor, the ledger or the files touched. *)
Theorem start_recording_outcome (env : Env) (w : World) :
  let w' := start_recording env w in
  same_cursor w w' /\ same_ledger w w' /\ same_files w w' /\
  (Py.len (sentences (app w)) <= index (app w) ->
     app w' = app w /\ ui_log w' = ui_log w ++ [Dialog InfoComplete]) /\
  (index (app w) < Py.len (sentences (app w)) ->
     audio_data (app w') = [] /\
     (stream_open_raises env = false ->
        recording (app w') = true /\ stream (app w') = StreamActive) /\
     (stream_open_raises env = true ->
        recording (app w') = false /\
        reported (Dialog (ErrStartFailed PortAudioError)) w w')).
Proof. apply start_recording_cases. Qed.


Lemma start_recording_outcome_witness :
  recording (app (start_recording calm (two_prompts 0 [] []))) = true.
Proof.
  destruct (start_recording_outcome calm (two_prompts 0 [] []))
    as (_ & _ & _ & _ & H).
  destruct H as (_ & H & _); [vm_compute; reflexivity|].
  apply H. reflexivity.
Defined.

(** ** Delivering blocks *)

Lemma audio_callback_fields (b : list R) (w : World) :
  sentences (app (audio_callback b w)) = sentences (app w) /\
  index (app (audio_callback b w)) = index (app w) /\
  recording (app (audio_callback b w)) = recording (app w) /\
  metadata (app (audio_callback b w)) = metadata (app w) /\
  wav_files (audio_callback b w) = wav_files w /\
  metadata_file (audio_callback b w) = metadata_file w /\
  ui_log (audio_callback b w) = ui_log w /\
  audio_data (app (audio_callback b w))
  = if recording (app w) then audio_data (app w) ++ [b]
    else audio_data (app w).
Proof.
  unfold audio_callback. destruct (recording (app w)) eqn:E;
    repeat split; try reflexivity; exact E.
Qed.

(** The blocks the device delivers while the session is recording are
    kept, all of them and in the order of delivery; blocks delivered
    while it is not recording are dropped.  Nothing else changes. *)
Theorem audio_callback_accumulates (bs : list (list R)) (w : World) :
  let w' := fold_left (fun w b => audio_callback b w) bs w in
  audio_data (app w')
  = (if recording (app w) then audio_data (app w) ++ bs
     else audio_data (app w)) /\
  recording (app w') = recording (app w) /\
  same_cursor w w' /\ same_ledger w w' /\ same_files w w' /\
  ui_log w' = ui_log w.
Proof.
  cbv zeta. revert w. induction bs as [|b t IH]; intros w.
  - cbn. unfold same_cursor, same_ledger, same_files.
    destruct (recording (app w)); rewrite ?app_nil_r; repeat split.
  - cbn [fold_left].
    destruct (IH (audio_callback b w)) as (Ha & Hr & [Hs Hi] & [Hm Hf] & Hw & Hl).
    destruct (audio_callback_fields b w)
      as (Es & Ei & Er & Em & Ew & Ef & El & Ea).
    unfold same_cursor, same_ledger, same_files in *.
    rewrite Ha, Hr, Hs, Hi, Hm, Hf, Hl, Er, Es, Ei, Em, Ef, El, Ea.
    split.
    { destruct (recording (app w)); [|reflexivity].
      rewrite <- app_assoc. reflexivity. }
    repeat split. intros g. rewrite Hw, Ew. reflexivity.
Qed.

(** ** Sequences of commands *)

Lemma start_recording_fields (env : Env) (w : World) :
  sentences (app (start_recording env w)) = sentences (app w) /\
  index (app (start_recording env w)) = index (app w) /\
  metadata (app (start_recording env w)) = metadata (app w) /\
  wav_files (start_recording env w) = wav_files w /\
  metadata_file (start_recording env w) = metadata_file w.
Proof.
  unfold start_recording.
  destruct (Py.len (sentences (app w)) <=? index (app w));
    [repeat split|].
  destruct (stream_open_raises env); repeat split.
Qed.

Lemma step_frame (c : command) (w : World) :
  sentences (app (step c w)) = sentences (app w) /\
  (0 <= index (app w) -> 0 <= index (app (step c w))) /\
  (exists extra, metadata (app (step c w)) = metadata (app w) ++ extra) /\
  (forall g, wav_files w g <> None -> wav_files (step c w) g <> None).
Proof.
  destruct c as [env| | |b]; cbn [step].
  - unfold toggle_recording. destruct (recording (app w)).
    + destruct (stop_recording_frame env w) as (Hs & Hi & Hm & Hw & Hw').
      split; [exact Hs|]. split; [lia|]. split.
      * destruct Hm as [->|[s ->]];
          [exists []; symmetry; apply app_nil_r|eexists; reflexivity].
      * intros g Hg.
        destruct (String.eqb_spec g (wav_name (index (app w)))) as [->|Hne].
        -- destruct Hw' as [->| ->]; [exact Hg|discriminate].
        -- rewrite (Hw g Hne). exact Hg.
    + destruct (start_recording_fields env w) as (-> & -> & -> & -> & _).
      repeat split; [tauto|exists []; symmetry; apply app_nil_r|tauto].
  - unfold skip_sentence.
    destruct (next_sentence_frame w) as (-> & _ & _ & -> & -> & _).
    rewrite next_sentence_index.
    split; [reflexivity|]. split.
    + intros H.
      match goal with
      | |- _ <= skip_loop ?f ?a ?i => pose proof (skip_loop_ge f a i)
      end. lia.
    + split; [exists []; symmetry; apply app_nil_r|tauto].
  - destruct (previous_sentence_frame w) as (-> & _ & _ & -> & -> & _).
    rewrite previous_sentence_index.
    split; [reflexivity|]. split.
    + intros H. destruct (Z.ltb_spec 0 (index (app w))); lia.
    + split; [exists []; symmetry; apply app_nil_r|tauto].
  - destruct (audio_callback_fields b w) as (-> & -> & _ & -> & -> & _).
    repeat split; [tauto|exists []; symmetry; apply app_nil_r|tauto].
Qed.

Lemma run_frame (cs : list command) (w : World) :
  sentences (app (run cs w)) = sentences (app w) /\
  (0 <= index (app w) -> 0 <= index (app (run cs w))) /\
  (exists extra, metadata (app (run cs w)) = metadata (app w) ++ extra) /\
  (forall g, wav_files w g <> None -> wav_files (run cs w) g <> None).
Proof.
  revert w. induction cs as [|c t IH]; intros w.
  - cbn. repeat split; [tauto|exists []; symmetry; apply app_nil_r|tauto].
  - unfold run in *. cbn [fold_left].
    destruct (IH (step c w)) as (Hs & Hi & [e2 Hm] & Hw).
    destruct (step_frame c w) as (Es & Ei & [e1 Em] & Ew).
    split; [rewrite Hs; exact Es|]. split; [tauto|]. split.
    + exists (e1 ++ e2). rewrite Hm, Em, app_assoc. reflexivity.
    + intros g Hg. apply Hw, Ew, Hg.
Qed.

(** Whatever the user does in the main window (start and stop, skip,
    previous, with blocks arriving in between), a cursor that is not
    negative stays so: "previous" stops at the first prompt. *)
Theorem cursor_never_negative (cs : list command) (w : World) :
  0 <= index (app w) -> 0 <= index (app (run cs w)).
Proof. apply run_frame. Qed.

Lemma cursor_never_negative_witness :
  0 <= index (app (run [Previous; Previous; Skip; Previous; Previous]
                       (two_prompts 0 [] []))).
Proof.
  apply cursor_never_negative. vm_compute. discriminate.
Defined.

(** The main window never forgets: whatever the commands, the prompt
    list is the same, the ledger is the earlier ledger with rows added at
    its end, a prompt that was recorded stays recorded and no audio file
    is removed. *)
Theorem recorder_only_adds (cs : list command) (w : World) :
  sentences (app (run cs w)) = sentences (app w) /\
  (exists extra, metadata (app (run cs w)) = metadata (app w) ++ extra) /\
  (forall k, is_recorded (app w) k = true ->
             is_recorded (app (run cs w)) k = true) /\
  (forall g, wav_files w g <> None -> wav_files (run cs w) g <> None).
Proof.
  destruct (run_frame cs w) as (Hs & _ & [extra Hm] & Hw).
  split; [exact Hs|]. split; [exists extra; exact Hm|]. split; [|exact Hw].
  intros k Hk. unfold is_recorded in *.
  rewrite Hm, LedgerFacts.has_filename_app, Hk. reflexivity.
Qed.

(** Stopping a recording writes no audio file but the one of the prompt
    under the cursor, adds at most the row of that prompt to the ledger
    and never moves the cursor backward. *)
Theorem stop_recording_touches_one_prompt (env : Env) (w : World) :
  let w' := stop_recording env w in
  (forall g, g <> wav_name (index (app w)) ->
             wav_files w' g = wav_files w g) /\
  (metadata (app w') = metadata (app w) \/
   exists s, metadata (app w')
             = metadata (app w) ++ [(wav_name (index (app w)), s)]) /\
  index (app w) <= index (app w') /\
  sentences (app w') = sentences (app w).
Proof.
  cbv zeta. destruct (stop_recording_frame env w) as (Hs & Hi & Hm & Hw & _).
  repeat split; assumption.
Qed.

(** ** A whole recording *)

Lemma run_app (cs1 cs2 : list command) (w : World) :
  run (cs1 ++ cs2) w = run cs2 (run cs1 w).
Proof. unfold run. apply fold_left_app. Qed.

Lemma run_blocks (bs : list (list R)) (w : World) :
  run (map Block bs) w = fold_left (fun w b => audio_callback b w) bs w.
Proof.
  revert w. induction bs as [|b t IH]; intros w; [reflexivity|].
  unfold run in *. cbn [map fold_left step]. apply IH.
Qed.

Lemma blocks_fields (bs : list (list R)) (w : World) :
  let w' := fold_left (fun w b => audio_callback b w) bs w in
  audio_data (app w')
  = (if recording (app w) then audio_data (app w) ++ bs
     else audio_data (app w)) /\
  recording (app w') = recording (app w) /\
  sentences (app w') = sentences (app w) /\
  index (app w') = index (app w) /\
  metadata (app w') = metadata (app w) /\
  wav_files w' = wav_files w /\
  metadata_file w' = metadata_file w.
Proof.
  cbv zeta. revert w. induction bs as [|b t IH]; intros w.
  - cbn. destruct (recording (app w)); rewrite ?app_nil_r; repeat split.
  - cbn [fold_left].
    destruct (IH (audio_callback b w)) as (-> & -> & -> & -> & -> & -> & ->).
    destruct (audio_callback_fields b w)
      as (-> & -> & -> & -> & -> & -> & _ & ->).
    split; [|repeat split].
    destruct (recording (app w)); [|reflexivity].
    rewrite <- app_assoc. reflexivity.
Qed.

(** One recording from start to end: from an idle session with a prompt
    under the cursor, the command to start, the blocks of the capture and
    the command to stop, with a level inside the thresholds and nothing
    raising, leave the processed capture in the file of the prompt, its
    row at the end of the ledger and in the rewritten ledger file, the
    prompt recorded, the session idle and the cursor further on. *)
Theorem record_cycle (env : Env) (w : World)
        (b : list R) (bs : list (list R)) (s : string) :
  recording (app w) = false ->
  Py.getitem (sentences (app w)) (index (app w)) = Some s ->
  (forall x, Signal.rms (List.concat (b :: bs)) = Signal.Fin x ->
             (LEVEL_THRESHOLD_LOW <= x <= LEVEL_THRESHOLD_HIGH)%R) ->
  stream_open_raises env = false ->
  sf_write_raises env = false ->
  meta_open_raises env = false ->
  let w' := run (StartStop env :: map Block (b :: bs) ++ [StartStop env]) w in
  let row := (wav_name (index (app w)), s) in
  recording (app w') = false /\
  wav_files w' (wav_name (index (app w)))
  = Some (processed (List.concat (b :: bs))) /\
  metadata (app w') = metadata (app w) ++ [row] /\
  metadata_file w' = Some (metadata_lines (metadata (app w) ++ [row])) /\
  is_recorded (app w') (index (app w)) = true /\
  index (app w) < index (app w') <= Py.len (sentences (app w)).
Proof.
  intros Hrec Hg Hx Hso Hsf Hmo. cbv zeta.
  pose proof (getitem_some_lt _ _ _ Hg) as Hlt.
  change (StartStop env :: map Block (b :: bs) ++ [StartStop env])
    with ([StartStop env] ++ map Block (b :: bs) ++ [StartStop env]).
  rewrite !run_app, run_blocks.
  set (w1 := run [StartStop env] w).
  assert (E1 : w1 = start_recording env w).
  { subst w1. unfold run. cbn [fold_left step]. unfold toggle_recording.
    rewrite Hrec. reflexivity. }
  destruct (start_recording_cases env w)
    as ([Hs1 Hi1] & [Hm1 Hf1] & Hw1 & _ & Hst).
  destruct (Hst Hlt) as (Ha1 & Hok & _). destruct (Hok Hso) as [Hr1 _].
  rewrite <- E1 in Hs1, Hi1, Hm1, Hf1, Hw1, Ha1, Hr1.
  set (w2 := fold_left (fun w b => audio_callback b w) (b :: bs) w1).
  destruct (blocks_fields (b :: bs) w1) as (Ha2 & Hr2 & Hs2 & Hi2 & Hm2 & Hw2 & Hf2).
  fold w2 in Ha2, Hr2, Hs2, Hi2, Hm2, Hw2, Hf2.
  rewrite Hr1, Ha1 in Ha2. cbn [List.app] in Ha2. rewrite Hr1 in Hr2.
  assert (E3 : run [StartStop env] w2 = stop_recording env w2).
  { unfold run. cbn [fold_left step]. unfold toggle_recording.
    rewrite Hr2. reflexivity. }
  rewrite E3.
  assert (Hg2 : Py.getitem (sentences (app w2)) (index (app w2)) = Some s)
    by (rewrite Hs2, Hi2, Hs1, Hi1; exact Hg).
  destruct (stop_recording_saved env w2 b bs s Ha2 Hx Hsf Hg2 Hmo)
    as (Ss & Sw & _ & Sm & Sf & Si).
  rewrite Hs2, Hi2, Hm2, Hs1, Hi1, Hm1 in *.
  split; [apply stop_recording_idle|].
  split; [exact Sw|]. split; [exact Sm|]. split; [exact Sf|].
  split; [|exact Si].
  unfold is_recorded. rewrite Sm, LedgerFacts.has_filename_app.
  unfold has_filename at 2. simpl. rewrite String.eqb_refl. apply orb_true_r.
Qed.

Lemma record_cycle_witness :
  metadata (app (run [StartStop calm; Block [0.2%R]; StartStop calm]
                     (two_prompts 0 [] [])))
  = [("001.wav", "Hello world")]%string.
Proof.
  destruct (record_cycle calm (two_prompts 0 [] []) [0.2%R] []
              "Hello world"%string eq_refl eq_refl
              (level_in_range _ (proj1 fifth_in_range) (proj2 fifth_in_range))
              eq_refl eq_refl eq_refl) as (_ & _ & H & _).
  exact H.
Defined.

(** ** Failures that leave memory and disk apart *)

(** When the capture is accepted and its audio file written but the
    ledger file cannot be opened, the error is reported and the cursor
    stays, yet the new row is in the ledger in memory: the prompt counts
    as recorded for the rest of the session although [metadata.csv] does
    not list it. *)
Theorem stop_recording_ledger_write_fails (env : Env) (w : World)
        (b : list R) (bs : list (list R)) (s : string) :
  audio_data (app w) = b :: bs ->
  (forall x, Signal.rms (List.concat (b :: bs)) = Signal.Fin x ->
             (LEVEL_THRESHOLD_LOW <= x <= LEVEL_THRESHOLD_HIGH)%R) ->
  sf_write_raises env = false ->
  Py.getitem (sentences (app w)) (index (app w)) = Some s ->
  meta_open_raises env = true ->
  let w' := stop_recording env w in
  metadata (app w') = metadata (app w) ++ [(wav_name (index (app w)), s)] /\
  metadata_file w' = metadata_file w /\
  is_recorded (app w') (index (app w)) = true /\
  reported (Dialog (ErrSaveFailed OSError)) w w'.
Proof. apply stop_recording_ledger_raises. Qed.

Lemma stop_recording_ledger_write_fails_witness :
  metadata_file (stop_recording ledger_locked (two_prompts 0 [[0.2%R]] []))
  = None /\
  is_recorded (app (stop_recording ledger_locked
                      (two_prompts 0 [[0.2%R]] []))) 0 = true.
Proof.
  destruct (stop_recording_ledger_write_fails ledger_locked
              (two_prompts 0 [[0.2%R]] []) [0.2%R] [] "Hello world"%string
              eq_refl
              (level_in_range _ (proj1 fifth_in_range) (proj2 fifth_in_range))
              eq_refl eq_refl eq_refl) as (_ & Hf & Hr & _).
  split; [exact Hf|exact Hr].
Defined.

(** ** The level of a capture *)

Lemma sum_square_le_peak (l : list R) :
  (Signal.sum (Signal.square l)
   <= INR (List.length l) * (Signal.peak l * Signal.peak l))%R.
Proof.
  pose proof (SignalFacts.peak_bounds l) as Hb.
  pose proof (SignalFacts.peak_nonneg l) as Hp.
  set (p := Signal.peak l) in *. clearbody p.
  induction Hb as [|x t Hx _ IH].
  - simpl. lra.
  - change (Signal.sum (Signal.square (x :: t)))
      with (x * x + Signal.sum (Signal.square t))%R.
    change (List.length (x :: t)) with (S (List.length t)).
    rewrite S_INR.
    assert (Hxx : (x * x <= p * p)%R).
    { replace (x * x)%R with (Rabs x * Rabs x)%R.
      - apply Rmult_le_compat; try apply Rabs_pos; exact Hx.
      - unfold Rabs. destruct (Rcase_abs x); ring. }
    lra.
Qed.

(** The RMS of a capture never exceeds its peak.  So a capture whose
    peak is below 0.02 is too quiet for [stop_recording], and a capture
    whose peak is at most 0.9 (the meter never showed clipping) is never
    refused as too loud. *)
Theorem rms_le_peak (audio : list R) (r : R) :
  Signal.rms audio = Signal.Fin r ->
  (r <= Signal.peak audio)%R /\
  ((Signal.peak audio < LEVEL_THRESHOLD_LOW)%R ->
     Signal.np_lt (Signal.rms audio) LEVEL_THRESHOLD_LOW = true) /\
  ((Signal.peak audio <= LEVEL_THRESHOLD_HIGH)%R ->
     Signal.np_gt (Signal.rms audio) LEVEL_THRESHOLD_HIGH = false).
Proof.
  intros Hr.
  assert (Hle : (r <= Signal.peak audio)%R).
  { destruct audio as [|x t]; [discriminate|].
    rewrite SignalFacts.rms_cons in Hr.
    pose proof (SignalFacts.peak_nonneg (x :: t)) as Hp.
    pose proof (sum_square_le_peak (x :: t)) as Hs.
    assert (Hn : (0 < INR (List.length (x :: t)))%R)
      by (apply lt_0_INR; simpl; lia).
    unfold Signal.square at 2 in Hr. rewrite length_map in Hr.
    set (S := Signal.sum (Signal.square (x :: t))) in *.
    set (n := INR (List.length (x :: t))) in *.
    set (p := Signal.peak (x :: t)) in *.
    assert (Er : r = sqrt (S / n)) by congruence.
    rewrite Er, <- (sqrt_Rsqr p Hp).
    apply sqrt_le_1_alt. unfold Rsqr.
    apply (Rmult_le_reg_l n); [exact Hn|].
    replace (n * (S / n))%R with S by (field; apply Rgt_not_eq, Hn).
    exact Hs. }
  split; [exact Hle|]. rewrite Hr. split; intros H.
  - apply np_lt_true. lra.
  - apply np_gt_false. lra.
Qed.

Lemma rms_le_peak_witness :
  Signal.np_gt (Signal.rms [0.2%R]) LEVEL_THRESHOLD_HIGH = false.
Proof.
  destruct (rms_le_peak [0.2%R] 0.2%R) as (_ & _ & H).
  - apply SignalFacts.rms_single. lra.
  - apply H. unfold Signal.peak, LEVEL_THRESHOLD_HIGH. simpl.
    rewrite Rabs_right by lra. apply Rmax_case; lra.
Defined.

(** ** A new session *)

(** A new session starts with the ledger read from [metadata.csv] and
    the cursor on the first prompt that is not in it, or at the end of
    the list when all are. *)
Theorem init_on_first_unrecorded (sentences_ : list string)
        (wav : string -> option (list R)) (file : option (list string)) :
  let w := Loader.init sentences_ wav file in
  sentences (app w) = sentences_ /\
  metadata (app w) = Loader.load_metadata file /\
  recording (app w) = false /\
  0 <= index (app w) <= Py.len sentences_ /\
  (forall k, 0 <= k < index (app w) -> is_recorded (app w) k = true) /\
  (index (app w) < Py.len sentences_ ->
   is_recorded (app w) (index (app w)) = false).
Proof.
  cbv zeta. unfold Loader.init.
  set (a := mkApp sentences_ 0 false [] NoStream (Loader.load_metadata file)
              ReadyToRecord LevelReady).
  match goal with
  | |- context [update_sentence_display ?x] =>
      destruct (update_sentence_display_app x)
        as (Es & Ei & Er & _ & Em & _)
  end.
  cbn [app with_app] in Es, Ei, Er, Em.
  destruct (skip_to_next_unrecorded_cases a)
    as (Hs & Hm & Hr & _ & Hge & Hsk & Hst & Hle).
  assert (Hrec : forall k,
             is_recorded
               (app (update_sentence_display
                       (with_app skip_to_next_unrecorded
                          (mkWorld a wav file [])))) k
             = is_recorded a k).
  { intros k. apply is_recorded_ext. rewrite Em. exact Hm. }
  rewrite Es, Ei, Er, Em, Hs, Hm, Hr.
  change (sentences a) with sentences_ in *. change (index a) with 0 in *.
  split; [reflexivity|]. split; [reflexivity|]. split; [reflexivity|].
  split; [split; [exact Hge|apply Hle; unfold Py.len; lia]|].
  split.
  - intros k Hk. rewrite Hrec. apply Hsk. exact Hk.
  - intros Hlt. rewrite Hrec. apply Hst. exact Hlt.
Qed.

End RecorderExtras.

(* ------------------------------------------------------------------ *)
(** * Further facts on the review window *)
(* ------------------------------------------------------------------ *)

Module ReviewExtras.

Import Ledger World Props Review ReviewFacts.
Local Open Scope Z_scope.

#[local] Arguments metadata_lines : simpl never.
#[local] Arguments Py.getitem : simpl never.
#[local] Arguments Py.pop : simpl never.
#[local] Arguments Py.len : simpl never.
#[local] Arguments Recorder.display_status : simpl never.

(** ** The index of the review window *)

Lemma len_remove_nth {A} (k : nat) (l : list A) :
  (k < List.length l)%nat -> Py.len (Py.remove_nth k l) = Py.len l - 1.
Proof.
  intros H. unfold Py.len. rewrite PyFacts.remove_nth_length by exact H. lia.
Qed.

Lemma delete_row_index (env : Env) (rw : ReviewWindow) (w : World) (k : nat) :
  Py.norm_index (Py.len (rmetadata rw)) (rindex rw) = Some k ->
  rindex (window_of (delete_row env rw w))
  = if meta_open_raises env then rindex rw
    else if (Py.len (Py.remove_nth k (rmetadata rw)) <=? rindex rw)
            && (0 <? rindex rw)
         then rindex rw - 1 else rindex rw.
Proof.
  intros Hk. unfold delete_row, window_of, Py.pop. rewrite Hk.
  destruct (meta_open_raises env); [reflexivity|].
  cbn [rmetadata set_rmetadata rindex].
  match goal with
  | |- context [update_display env ?r ?x] =>
      destruct (update_display_fields env r x) as [_ Ei];
      destruct (update_display env r x) as [rw2 o]
  end.
  cbn [fst snd] in *.
  destruct o; cbn [fst snd]; rewrite Ei;
    destruct (_ && _); reflexivity.
Qed.

Lemma navigation_cases (env : Env) (rw : ReviewWindow) (w : World) :
  in_view rw ->
  (in_view (fst (next_sentence env rw w)) /\
   rmetadata (fst (next_sentence env rw w)) = rmetadata rw /\
   snd (next_sentence env rw w) = Returned) /\
  (in_view (fst (previous_sentence env rw w)) /\
   rmetadata (fst (previous_sentence env rw w)) = rmetadata rw /\
   snd (previous_sentence env rw w) = Returned) /\
  snd (play_audio env rw w) = Returned /\
  snd (update_display env rw w) = Returned.
Proof.
  intros [H0 H1]. unfold in_view.
  split; [|split; [|split]].
  - unfold next_sentence.
    destruct (Z.ltb_spec (rindex rw) (Py.len (rmetadata rw) - 1)).
    + destruct (update_display_fields env (set_rindex (rindex rw + 1) rw) w)
        as [-> ->].
      rewrite update_display_returns by (cbn; lia).
      cbn. repeat split; lia.
    + cbn. repeat split; assumption.
  - unfold previous_sentence.
    destruct (Z.ltb_spec 0 (rindex rw)).
    + destruct (update_display_fields env (set_rindex (rindex rw - 1) rw) w)
        as [-> ->].
      rewrite update_display_returns by (cbn; lia).
      cbn. repeat split; lia.
    + cbn. repeat split; assumption.
  - unfold play_audio.
    destruct (Z.ltb_spec (rindex rw) (Py.len (rmetadata rw))) as [Hlt|];
      [|reflexivity].
    destruct (getitem_in_range (rmetadata rw) (rindex rw) (conj H0 Hlt))
      as [[f s] ->].
    destruct (wav_files w f); [destruct (sf_read_raises env)|]; reflexivity.
  - apply update_display_returns, H0.
Qed.

Lemma delete_cases (env : Env) (rw : ReviewWindow) (w : World) :
  in_view rw ->
  let r := delete_audio env rw w in
  0 <= rindex (window_of r) <= Py.len (rmetadata (window_of r)) /\
  outcome_of r <> Uncaught IndexError /\
  (meta_open_raises env = false ->
   in_view (window_of r) /\ outcome_of r = Returned).
Proof.
  intros [H0 H1]. cbv zeta. unfold delete_audio, in_view.
  assert (Hsame : 0 <= rindex rw <= Py.len (rmetadata rw) /\
                  Returned <> Uncaught IndexError /\
                  (meta_open_raises env = false ->
                   (0 <= rindex rw /\
                    rindex rw <= Z.max 0 (Py.len (rmetadata rw) - 1)) /\
                   Returned = Returned)).
  { split; [unfold Py.len in *; lia|]. split; [discriminate|].
    intros _. repeat split; assumption. }
  destruct (Z.ltb_spec (rindex rw) (Py.len (rmetadata rw))) as [Hlt|];
    [|exact Hsame].
  destruct (getitem_in_range (rmetadata rw) (rindex rw) (conj H0 Hlt))
    as [[f s] ->].
  destruct (confirm env); [|exact Hsame].
  cbn [wav_files show log].
  assert (Hk : Py.norm_index (Py.len (rmetadata rw)) (rindex rw)
               = Some (Z.to_nat (rindex rw)))
    by (apply PyFacts.norm_index_in_range; lia).
  assert (Hlen : (Z.to_nat (rindex rw) < List.length (rmetadata rw))%nat)
    by (unfold Py.len in Hlt; lia).
  assert (Hrow : forall w1,
             0 <= rindex (window_of (delete_row env rw w1))
               <= Py.len (rmetadata (window_of (delete_row env rw w1))) /\
             outcome_of (delete_row env rw w1) <> Uncaught IndexError /\
             (meta_open_raises env = false ->
              (0 <= rindex (window_of (delete_row env rw w1)) /\
               rindex (window_of (delete_row env rw w1))
               <= Z.max 0 (Py.len (rmetadata (window_of (delete_row env rw w1)))
                           - 1)) /\
              outcome_of (delete_row env rw w1) = Returned)).
  { intros w1.
    destruct (delete_row_fields env rw w1 _ Hk)
      as (Em & _ & _ & _ & _ & _ & Eo & _).
    unfold window_of, outcome_of in *.
    rewrite Em, (Eo H0).
    pose proof (delete_row_index env rw w1 _ Hk) as Ei.
    unfold window_of in Ei. rewrite Ei.
    rewrite (len_remove_nth _ _ Hlen).
    destruct (meta_open_raises env).
    - split; [lia|]. split; [discriminate|]. intros; discriminate.
    - destruct (Z.leb_spec (Py.len (rmetadata rw) - 1) (rindex rw));
        destruct (Z.ltb_spec 0 (rindex rw)); cbn [andb];
        (split; [lia|]; split; [discriminate|]; intros _;
         split; [lia|reflexivity]). }
  destruct (wav_files w f); [destruct (os_remove_raises env)|];
    [exact Hsame|apply Hrow|apply Hrow].
Qed.

(** Opened on its first row, the review window keeps its index on a row
    of its list (0 when the list is empty) through "next", "previous"
    and every delete whose ledger rewrite goes through, so no handler
    ever raises an index error and "next" and "previous" always return;
    after a delete whose ledger rewrite raises the index may be one past
    the last row, and no further. *)
Theorem review_index_in_view (env : Env) (rw : ReviewWindow) (w : World) :
  in_view rw ->
  (forall env0 w0, in_view (fst (open_review env0 w0)) /\
                   snd (open_review env0 w0) = Returned) /\
  (in_view (fst (next_sentence env rw w)) /\
   snd (next_sentence env rw w) = Returned) /\
  (in_view (fst (previous_sentence env rw w)) /\
   snd (previous_sentence env rw w) = Returned) /\
  snd (play_audio env rw w) = Returned /\
  (0 <= rindex (window_of (delete_audio env rw w))
     <= Py.len (rmetadata (window_of (delete_audio env rw w))) /\
   outcome_of (delete_audio env rw w) <> Uncaught IndexError /\
   (meta_open_raises env = false ->
    in_view (window_of (delete_audio env rw w)) /\
    outcome_of (delete_audio env rw w) = Returned)).
Proof.
  intros Hv.
  destruct (navigation_cases env rw w Hv)
    as ((Hn & _ & Hnr) & (Hp & _ & Hpr) & Hplay & _).
  split.
  { intros env0 w0. unfold open_review.
    set (rw0 := mkReview (metadata (app w0)) 0 NoRecordings LevelBlank).
    destruct (update_display_fields env0 rw0 w0) as [Em Ei].
    unfold in_view. rewrite Em, Ei. cbn [rindex rw0].
    split; [unfold Py.len; cbn; lia|].
    apply update_display_returns. cbn. lia. }
  split; [split; assumption|]. split; [split; assumption|].
  split; [exact Hplay|]. apply (delete_cases env rw w Hv).
Qed.

Lemma review_index_in_view_witness :
  in_view (window_of (delete_audio calm (fst (open_review calm one_recorded))
                        one_recorded)).
Proof.
  destruct (review_index_in_view calm (fst (open_review calm one_recorded))
              one_recorded) as (_ & _ & _ & _ & _ & _ & H).
  - split; vm_compute; discriminate.
  - apply H. reflexivity.
Defined.

(** ** Playing *)

(** Playing changes nothing but the log: application, ledger and files
    are as before.  When the file of the displayed row is there and can
    be read, exactly its samples are played; when reading it raises, the
    error is shown and nothing is played. *)
Theorem play_audio_frame (env : Env) (rw : ReviewWindow) (w : World) :
  let w' := fst (play_audio env rw w) in
  app w' = app w /\ wav_files w' = wav_files w /\
  metadata_file w' = metadata_file w /\
  (forall f s data,
     Py.getitem (rmetadata rw) (rindex rw) = Some (f, s) ->
     wav_files w f = Some data ->
     ui_log w' = ui_log w ++ [if sf_read_raises env
                              then Dialog (ErrPlayFailed OSError)
                              else Played data]).
Proof.
  cbv zeta. unfold play_audio.
  destruct (Z.ltb_spec (rindex rw) (Py.len (rmetadata rw))) as [Hlt|Hge].
  - destruct (Py.getitem (rmetadata rw) (rindex rw)) as [[f s]|] eqn:Hg.
    + destruct (wav_files w f) as [data|] eqn:Hw.
      * destruct (sf_read_raises env); cbn; repeat split;
          intros f' s' d' [= <- <-] Hw'; rewrite Hw in Hw';
          injection Hw' as <-; reflexivity.
      * cbn. repeat split. intros f' s' d' [= <- <-] Hw'. congruence.
    + cbn. repeat split. intros; discriminate.
  - cbn. repeat split. intros f s data Hg _.
    pose proof (RecorderFacts.getitem_some_lt _ _ _ Hg). lia.
Qed.

(** ** Deleting and the rows of a filename *)

Lemma rows_of_remove_nth (l : list entry) (k : nat) (f s : string) :
  nth_error l k = Some (f, s) ->
  (forall g, g <> f -> rows_of (Py.remove_nth k l) g = rows_of l g) /\
  S (List.length (rows_of (Py.remove_nth k l) f))
  = List.length (rows_of l f).
Proof.
  revert k. induction l as [|e t IH]; intros k Hn.
  - destruct k; discriminate.
  - destruct k as [|k].
    + injection Hn as ->. cbn [Py.remove_nth]. unfold rows_of. cbn.
      rewrite String.eqb_refl. split; [|reflexivity].
      intros g Hg. destruct (String.eqb_spec g f); [contradiction|reflexivity].
    + cbn [nth_error] in Hn. destruct (IH k Hn) as [H1 H2].
      cbn [Py.remove_nth]. unfold rows_of in *. cbn [filter].
      split.
      * intros g Hg. rewrite (H1 g Hg). reflexivity.
      * destruct (String.eqb f (filename_of e)); cbn [List.length];
          rewrite <- H2; reflexivity.
Qed.

(** A delete that goes through takes one row of the filename away and
    removes its file.  The prompt is unrecorded afterwards exactly when
    that was the only row of the filename: with the duplicate rows that
    re-recording leaves, the prompt still counts as recorded although its
    audio file is gone. *)
Theorem delete_audio_and_duplicates (env : Env) (rw : ReviewWindow)
        (w : World) (f s : string) :
  0 <= rindex rw ->
  Py.getitem (rmetadata rw) (rindex rw) = Some (f, s) ->
  confirm env = true ->
  wav_files w f = None \/ os_remove_raises env = false ->
  let r := delete_audio env rw w in
  wav_files (world_of r) f = None /\
  S (List.length (rows_of (metadata (app (world_of r))) f))
  = List.length (rows_of (rmetadata rw) f) /\
  (forall g, g <> f -> rows_of (metadata (app (world_of r))) g
                       = rows_of (rmetadata rw) g) /\
  (has_filename (metadata (app (world_of r))) f = true <->
   (2 <= List.length (rows_of (rmetadata rw) f))%nat).
Proof.
  intros H0 Hg Hc Hcase. cbv zeta.
  pose proof (RecorderFacts.getitem_some_lt _ _ _ Hg) as Hlt.
  assert (Hk : Py.norm_index (Py.len (rmetadata rw)) (rindex rw)
               = Some (Z.to_nat (rindex rw)))
    by (apply PyFacts.norm_index_in_range; lia).
  assert (Hn : nth_error (rmetadata rw) (Z.to_nat (rindex rw)) = Some (f, s)).
  { unfold Py.getitem in Hg. rewrite Hk in Hg. exact Hg. }
  destruct (rows_of_remove_nth _ _ _ _ Hn) as [Hother Hsame].
  assert (Hgo : exists w1,
             delete_audio env rw w = delete_row env rw w1 /\
             wav_files w1 f = None).
  { unfold delete_audio.
    destruct (Z.ltb_spec (rindex rw) (Py.len (rmetadata rw))); [|lia].
    rewrite Hg, Hc. cbn [wav_files show log].
    destruct (wav_files w f) eqn:Hw.
    - destruct Hcase as [Hcase|Hcase]; [discriminate|]. rewrite Hcase.
      eexists. split; [reflexivity|]. cbn. rewrite String.eqb_refl.
      reflexivity.
    - eexists. split; [reflexivity|]. exact Hw. }
  destruct Hgo as (w1 & -> & Hw1).
  destruct (delete_row_fields env rw w1 _ Hk) as (_ & Ea & _ & _ & Ew & _).
  unfold world_of. rewrite Ea, Ew.
  split; [exact Hw1|]. split; [exact Hsame|]. split; [exact Hother|].
  rewrite LedgerFacts.has_filename_rows.
  destruct (rows_of (Py.remove_nth (Z.to_nat (rindex rw)) (rmetadata rw)) f);
    cbn [List.length] in Hsame; split; intros H; try lia; try congruence.
Qed.

Lemma delete_audio_and_duplicates_witness :
  has_filename
    (metadata (app (world_of (delete_audio calm
                                (fst (open_review calm one_recorded))
                                one_recorded)))) "001.wav" = false.
Proof.
  destruct (delete_audio_and_duplicates calm
              (fst (open_review calm one_recorded)) one_recorded
              "001.wav"%string "Hello world"%string)
    as (_ & _ & _ & H);
    [exact (Z.le_refl 0)|reflexivity|reflexivity|right; reflexivity|].
  apply not_true_is_false. intros Ht. apply H in Ht.
  change (2 <= 1)%nat in Ht. lia.
Defined.

(** ** A delete whose ledger rewrite raises *)

(** When the file is gone (or was absent) but [metadata.csv] cannot be
    opened, the exception leaves the handler: the row is out of both
    lists in memory and the audio file is removed, while the ledger file
    still lists the row, and the index of the window is not adjusted. *)
Theorem delete_audio_ledger_write_fails (env : Env) (rw : ReviewWindow)
        (w : World) (f s : string) :
  0 <= rindex rw ->
  Py.getitem (rmetadata rw) (rindex rw) = Some (f, s) ->
  confirm env = true ->
  wav_files w f = None \/ os_remove_raises env = false ->
  meta_open_raises env = true ->
  let r := delete_audio env rw w in
  outcome_of r = Uncaught OSError /\
  wav_files (world_of r) f = None /\
  rmetadata (window_of r) = Py.remove_nth (Z.to_nat (rindex rw)) (rmetadata rw) /\
  metadata (app (world_of r)) = rmetadata (window_of r) /\
  metadata_file (world_of r) = metadata_file w /\
  rindex (window_of r) = rindex rw.
Proof.
  intros H0 Hg Hc Hcase Hmo. cbv zeta.
  pose proof (RecorderFacts.getitem_some_lt _ _ _ Hg) as Hlt.
  assert (Hk : Py.norm_index (Py.len (rmetadata rw)) (rindex rw)
               = Some (Z.to_nat (rindex rw)))
    by (apply PyFacts.norm_index_in_range; lia).
  assert (Hgo : exists w1,
             delete_audio env rw w = delete_row env rw w1 /\
             wav_files w1 f = None /\ metadata_file w1 = metadata_file w).
  { unfold delete_audio.
    destruct (Z.ltb_spec (rindex rw) (Py.len (rmetadata rw))); [|lia].
    rewrite Hg, Hc. cbn [wav_files show log].
    destruct (wav_files w f) eqn:Hw.
    - destruct Hcase as [Hcase|Hcase]; [discriminate|]. rewrite Hcase.
      eexists. split; [reflexivity|]. cbn. rewrite String.eqb_refl.
      split; reflexivity.
    - eexists. split; [reflexivity|]. split; [exact Hw|reflexivity]. }
  destruct Hgo as (w1 & -> & Hw1 & Hf1).
  destruct (delete_row_fields env rw w1 _ Hk)
    as (Em & Ea & _ & _ & Ew & Ef & Eo & _).
  pose proof (delete_row_index env rw w1 _ Hk) as Ei.
  unfold window_of, world_of, outcome_of in *.
  rewrite Em, Ea, Ew, Ef, Ei, (Eo H0), Hmo.
  repeat split; assumption.
Qed.

Lemma delete_audio_ledger_write_fails_witness :
  outcome_of (delete_audio ledger_locked
                (fst (open_review calm one_recorded)) one_recorded)
  = Uncaught OSError /\
  metadata_file (world_of (delete_audio ledger_locked
                             (fst (open_review calm one_recorded))
                             one_recorded))
  = metadata_file one_recorded.
Proof.
  destruct (delete_audio_ledger_write_fails ledger_locked
              (fst (open_review calm one_recorded)) one_recorded
              "001.wav"%string "Hello world"%string)
    as (H1 & _ & _ & _ & H2 & _);
    [exact (Z.le_refl 0)|reflexivity|reflexivity|right; reflexivity
    |reflexivity|].
  split; [exact H1|exact H2].
Defined.

(** ** A delete that does not happen *)

(** When the user answers no, or when there is no row under the index,
    [delete_audio] leaves the window, the ledger (in memory and on disk),
    the files and the cursor as they are. *)
Theorem delete_audio_refused (env : Env) (rw : ReviewWindow) (w : World) :
  confirm env = false \/ Py.len (rmetadata rw) <= rindex rw ->
  let r := delete_audio env rw w in
  window_of r = rw /\ app (world_of r) = app w /\
  same_files w (world_of r) /\ same_ledger w (world_of r) /\
  outcome_of r <> Uncaught OSError.
Proof.
  intros H. cbv zeta.
  unfold delete_audio, window_of, world_of, outcome_of, same_files, same_ledger.
  destruct (Z.ltb_spec (rindex rw) (Py.len (rmetadata rw))) as [Hlt|Hge].
  - destruct H as [H|H]; [|lia].
    destruct (Py.getitem (rmetadata rw) (rindex rw)) as [[f s]|];
      [rewrite H|]; cbn; repeat split; discriminate.
  - cbn. repeat split; discriminate.
Qed.

Lemma delete_audio_refused_witness :
  window_of (delete_audio (mkEnv false false false false false false)
               (fst (open_review calm one_recorded)) one_recorded)
  = fst (open_review calm one_recorded).
Proof.
  apply (delete_audio_refused (mkEnv false false false false false false)).
  left. reflexivity.
Defined.

End ReviewExtras.

(* ------------------------------------------------------------------ *)
(** * Facts on the sentence list *)
(* ------------------------------------------------------------------ *)

Module LoaderExtras.

Import Ledger Loader.

Lemma defaults_nonempty : forallb nonempty DEFAULT_SENTENCES = true.
Proof. vm_compute. reflexivity. Qed.

Lemma defaults_reload : stripped_lines DEFAULT_SENTENCES = DEFAULT_SENTENCES.
Proof. vm_compute. reflexivity. Qed.

Lemma stripped_lines_nonempty (lines : list string) :
  Forall (fun s => nonempty s = true) (stripped_lines lines).
Proof.
  unfold stripped_lines. apply Forall_forall. intros s Hs.
  apply in_map_iff in Hs. destruct Hs as (line & <- & Hin).
  apply filter_In in Hin. apply Hin.
Qed.

Lemma filter_none {A} (f : A -> bool) (l : list A) :
  Forall (fun x => f x = false) l -> filter f l = [].
Proof.
  induction 1 as [|x t Hx _ IH]; [reflexivity|].
  cbn [filter]. rewrite Hx. exact IH.
Qed.

Lemma load_sentences_lines (lines : list string) :
  Exists (fun line => nonempty (PyStr.strip line) = true) lines ->
  load_sentences (Lines lines) = stripped_lines lines.
Proof.
  intros H. apply Exists_exists in H. destruct H as (line & Hin & Hn).
  assert (Hs : In (PyStr.strip line) (stripped_lines lines)).
  { unfold stripped_lines. apply in_map, filter_In. split; assumption. }
  unfold load_sentences.
  destruct (stripped_lines lines); [destruct Hs|reflexivity].
Qed.

Lemma load_sentences_blank (lines : list string) :
  Forall (fun line => nonempty (PyStr.strip line) = false) lines ->
  load_sentences (Lines lines) = DEFAULT_SENTENCES.
Proof.
  intros H. unfold load_sentences, stripped_lines.
  rewrite (filter_none _ _ H). reflexivity.
Qed.

(** Whatever the sentences file holds, or if it is missing or cannot be
    read, [load_sentences] gives a prompt list that is not empty and has
    no empty prompt.  When the file has a line that is not blank, the
    prompts are exactly the lines of the file that are not blank, each
    stripped, in the order of the file; when every line is blank, or the
    file is missing or cannot be read, they are the 35 default
    sentences.  The file that [create_default_sentences_file] writes
    when none exists loads as the default sentences. *)
Theorem load_sentences_never_empty (file : read_result) :
  load_sentences file <> [] /\
  Forall (fun s => nonempty s = true) (load_sentences file) /\
  (load_sentences file = DEFAULT_SENTENCES \/
   exists lines, file = Lines lines /\
                 load_sentences file = stripped_lines lines) /\
  (forall lines,
     file = Lines lines ->
     Exists (fun line => nonempty (PyStr.strip line) = true) lines ->
     load_sentences file
     = map PyStr.strip
           (filter (fun line => nonempty (PyStr.strip line)) lines)) /\
  (forall lines,
     file = Lines lines ->
     Forall (fun line => nonempty (PyStr.strip line) = false) lines ->
     load_sentences file = DEFAULT_SENTENCES) /\
  (file = FileNotFound \/ file = ReadFailed ->
   load_sentences file = DEFAULT_SENTENCES) /\
  (forall raises,
     load_sentences
       (read_sentences_file (create_default_sentences_file None raises))
     = DEFAULT_SENTENCES) /\
  List.length DEFAULT_SENTENCES = 35%nat.
Proof.
  assert (Hd : Forall (fun s => nonempty s = true) DEFAULT_SENTENCES)
    by (apply Forall_forall, forallb_forall, defaults_nonempty).
  assert (Hcases : load_sentences file = DEFAULT_SENTENCES \/
                   exists lines, file = Lines lines /\
                                 load_sentences file = stripped_lines lines /\
                                 stripped_lines lines <> []).
  { destruct file as [| |lines]; [left; reflexivity|left; reflexivity|].
    unfold load_sentences.
    destruct (stripped_lines lines) as [|s t] eqn:E; [left; reflexivity|].
    right. exists lines. repeat split; [symmetry; exact E|rewrite E; discriminate]. }
  split; [|split; [|split; [|split; [|split; [|split; [|split]]]]]].
  - destruct Hcases as [->|(lines & _ & -> & Hn)]; [discriminate|exact Hn].
  - destruct Hcases as [->|(lines & _ & -> & _)];
      [exact Hd|apply stripped_lines_nonempty].
  - destruct Hcases as [H|(lines & H1 & H2 & _)];
      [left; exact H|right; exists lines; split; assumption].
  - intros lines -> Hex. apply (load_sentences_lines lines Hex).
  - intros lines -> Hall. apply (load_sentences_blank lines Hall).
  - intros [-> | ->]; reflexivity.
  - intros [|]; cbn [create_default_sentences_file read_sentences_file];
      [reflexivity|].
    unfold load_sentences. rewrite defaults_reload. reflexivity.
  - reflexivity.
Qed.

Lemma load_sentences_never_empty_witness :
  load_sentences
    (Lines ["  Hello world "; ""; "Test two"; "   "]%string)
  = ["Hello world"; "Test two"]%string /\
  load_sentences (Lines [""; "   "]%string) = DEFAULT_SENTENCES.
Proof.
  split.
  - destruct (load_sentences_never_empty
                (Lines ["  Hello world "; ""; "Test two"; "   "]%string))
      as (_ & _ & _ & H & _).
    rewrite (H _ eq_refl); [reflexivity|].
    apply Exists_cons_hd. reflexivity.
  - destruct (load_sentences_never_empty (Lines [""; "   "]%string))
      as (_ & _ & _ & _ & H & _).
    apply (H _ eq_refl). repeat constructor.
Defined.

End LoaderExtras.

(* ------------------------------------------------------------------ *)
(** * Facts about the strings: [strip] and the file names *)
(* ------------------------------------------------------------------ *)

Module PyStrFacts.

Import PyStr Ledger Props.

(** ** Concatenation and reversal *)

Lemma contains_app (c : ascii) (a b : string) :
  contains c (a ++ b) = contains c a || contains c b.
Proof.
  induction a as [|d t IH]; [reflexivity|].
  simpl. rewrite IH. apply orb_assoc.
Qed.

Lemma append_nil_r (s : string) : (s ++ "")%string = s.
Proof. induction s as [|c t IH]; [reflexivity|]. simpl. now rewrite IH. Qed.

Lemma append_assoc (a b c : string) :
  ((a ++ b) ++ c)%string = (a ++ b ++ c)%string.
Proof. induction a as [|d t IH]; [reflexivity|]. simpl. now rewrite IH. Qed.

Lemma length_app (a b : string) :
  String.length (a ++ b) = (String.length a + String.length b)%nat.
Proof. induction a as [|c t IH]; [reflexivity|]. simpl. now rewrite IH. Qed.

Lemma rev_app (a b : string) : rev (a ++ b) = (rev b ++ rev a)%string.
Proof.
  induction a as [|c t IH]; simpl.
  - now rewrite append_nil_r.
  - rewrite IH. apply append_assoc.
Qed.

Lemma rev_involutive (s : string) : rev (rev s) = s.
Proof.
  induction s as [|c t IH]; [reflexivity|].
  simpl. rewrite rev_app, IH. reflexivity.
Qed.

Lemma length_rev (s : string) : String.length (rev s) = String.length s.
Proof.
  induction s as [|c t IH]; [reflexivity|].
  simpl. rewrite length_app, IH. simpl. lia.
Qed.

(** ** What [after_prefix] and [drop_space] return *)

Lemma after_prefix_app (p s r : string) :
  after_prefix p s = Some r -> s = (p ++ r)%string.
Proof.
  revert s. induction p as [|a p IH]; intros s H.
  - simpl in H. destruct s; inversion H; reflexivity.
  - destruct s as [|b s]; [discriminate|]. simpl in H.
    destruct (Ascii.eqb a b) eqn:E; [|discriminate].
    apply Ascii.eqb_eq in E. subst b. simpl. f_equal. apply IH, H.
Qed.

Lemma drop_space_app (spaces : list string) (s r : string) :
  drop_space spaces s = Some r ->
  exists p, In p spaces /\ s = (p ++ r)%string.
Proof.
  induction spaces as [|p t IH]; [discriminate|].
  simpl. destruct (after_prefix p s) as [r'|] eqn:E.
  - intros [= <-]. exists p. split; [now left|]. apply after_prefix_app, E.
  - intros H. destruct (IH H) as (q & Hq & Hs).
    exists q. split; [now right|exact Hs].
Qed.

Lemma drop_space_none (spaces : list string) (s : string) :
  drop_space spaces s = None <->
  Forall (fun p => after_prefix p s = None) spaces.
Proof.
  induction spaces as [|p t IH]; simpl.
  - split; [constructor|reflexivity].
  - destruct (after_prefix p s) as [r|] eqn:E.
    + split; [discriminate|]. intros H. inversion H; congruence.
    + rewrite IH. split; [now constructor|]. intros H. now inversion H.
Qed.

(** ** The loop of [lstrip] *)

Lemma lstrip_loop_fixed (fuel : nat) (spaces : list string) (s : string) :
  drop_space spaces s = None -> lstrip_loop fuel spaces s = s.
Proof. intros H. destruct fuel; simpl; [reflexivity|]. now rewrite H. Qed.

Lemma lstrip_loop_stable (spaces : list string) :
  Forall (fun p => p <> EmptyString) spaces ->
  forall (fuel : nat) (s : string),
    (String.length s <= fuel)%nat ->
    drop_space spaces (lstrip_loop fuel spaces s) = None.
Proof.
  intros Hne. induction fuel as [|fuel IH]; intros s Hlen.
  - destruct s; [|simpl in Hlen; lia]. simpl.
    apply drop_space_none. apply Forall_forall. intros p Hp.
    rewrite Forall_forall in Hne. specialize (Hne p Hp).
    destruct p; [congruence|reflexivity].
  - simpl. destruct (drop_space spaces s) as [r|] eqn:E; [|exact E].
    apply IH. destruct (drop_space_app _ _ _ E) as (p & Hp & ->).
    rewrite Forall_forall in Hne. specialize (Hne p Hp).
    rewrite length_app in Hlen.
    destruct p; [congruence|]. simpl in Hlen. lia.
Qed.

Lemma lstrip_loop_suffix (fuel : nat) (spaces : list string) (s : string) :
  exists a, s = (a ++ lstrip_loop fuel spaces s)%string.
Proof.
  revert s. induction fuel as [|fuel IH]; intros s.
  - exists EmptyString. reflexivity.
  - simpl. destruct (drop_space spaces s) as [r|] eqn:E.
    + destruct (drop_space_app _ _ _ E) as (p & _ & ->).
      destruct (IH r) as (a & Ha). exists (p ++ a)%string.
      rewrite append_assoc. f_equal. exact Ha.
    + exists EmptyString. reflexivity.
Qed.

Lemma whitespace_nonempty :
  Forall (fun p => p <> EmptyString) whitespace.
Proof. repeat constructor; discriminate. Qed.

Lemma rev_whitespace_nonempty :
  Forall (fun p => p <> EmptyString) (map rev whitespace).
Proof. repeat constructor; discriminate. Qed.

(** ** [lstrip], [rstrip] and [strip] *)

Lemma lstrip_suffix (s : string) : exists a, s = (a ++ lstrip s)%string.
Proof. apply lstrip_loop_suffix. Qed.

Lemma rstrip_prefix (s : string) : exists b, s = (rstrip s ++ b)%string.
Proof.
  unfold rstrip.
  destruct (lstrip_loop_suffix (String.length s) (map rev whitespace) (rev s))
    as (a & Ha).
  exists (rev a). rewrite <- rev_app, <- Ha. symmetry. apply rev_involutive.
Qed.

Lemma strip_middle (s : string) :
  exists a b, s = (a ++ strip s ++ b)%string.
Proof.
  unfold strip. destruct (lstrip_suffix s) as (a & Ha).
  destruct (rstrip_prefix (lstrip s)) as (b & Hb).
  exists a, b. rewrite <- Hb. exact Ha.
Qed.

Lemma strip_contains (c : ascii) (s : string) :
  contains c s = false -> contains c (strip s) = false.
Proof.
  destruct (strip_middle s) as (a & b & H). intros Hc.
  rewrite H in Hc. rewrite !contains_app in Hc.
  apply orb_false_iff in Hc. destruct Hc as [_ Hc].
  apply orb_false_iff in Hc. apply Hc.
Qed.

Lemma lstrip_stable (s : string) : drop_space whitespace (lstrip s) = None.
Proof.
  apply (lstrip_loop_stable _ whitespace_nonempty). apply Nat.le_refl.
Qed.

Lemma rstrip_stable (s : string) :
  drop_space (map rev whitespace) (rev (rstrip s)) = None.
Proof.
  unfold rstrip. rewrite rev_involutive.
  apply (lstrip_loop_stable _ rev_whitespace_nonempty).
  rewrite length_rev. apply Nat.le_refl.
Qed.

(** A string that neither starts nor ends with white space is left
    unchanged by [strip]. *)
Lemma strip_fixed (s : string) :
  drop_space whitespace s = None ->
  drop_space (map rev whitespace) (rev s) = None ->
  strip s = s.
Proof.
  intros Hl Hr. unfold strip, lstrip. rewrite (lstrip_loop_fixed _ _ _ Hl).
  unfold rstrip. rewrite (lstrip_loop_fixed _ _ _ Hr). apply rev_involutive.
Qed.

Lemma after_prefix_extend (p s r b : string) :
  after_prefix p s = Some r -> after_prefix p (s ++ b) = Some (r ++ b)%string.
Proof.
  revert s. induction p as [|a p IH]; intros s H.
  - simpl in H. injection H as <-. destruct s; reflexivity.
  - destruct s as [|c s]; [discriminate|]. simpl in *.
    destruct (Ascii.eqb a c); [apply IH, H|discriminate].
Qed.

Lemma drop_space_prefix (spaces : list string) (a b : string) :
  drop_space spaces (a ++ b) = None -> drop_space spaces a = None.
Proof.
  rewrite !drop_space_none. apply Forall_impl. intros p H.
  destruct (after_prefix p a) as [r|] eqn:E; [|reflexivity].
  rewrite (after_prefix_extend _ _ _ b E) in H. discriminate.
Qed.

Lemma after_prefix_sep (c : ascii) (p y x : string) :
  contains c p = false -> after_prefix p y = None ->
  after_prefix p (y ++ String c x) = None.
Proof.
  revert y. induction p as [|a p IH]; intros y Hc H.
  - destruct y; discriminate.
  - simpl in Hc. apply orb_false_iff in Hc. destruct Hc as [Ha Hp].
    destruct y as [|b y]; simpl.
    + rewrite Ha. reflexivity.
    + simpl in H. destruct (Ascii.eqb a b); [apply IH; assumption|reflexivity].
Qed.

Lemma drop_space_sep (c : ascii) (spaces : list string) (y x : string) :
  Forall (fun p => contains c p = false) spaces ->
  drop_space spaces y = None ->
  drop_space spaces (y ++ String c x) = None.
Proof.
  rewrite !drop_space_none. intros Hc H.
  rewrite Forall_forall in *. intros p Hp.
  apply after_prefix_sep; [apply Hc, Hp|apply H, Hp].
Qed.

(** The result of [strip] neither starts nor ends with white space. *)
Lemma strip_stable (s : string) :
  drop_space whitespace (strip s) = None /\
  drop_space (map rev whitespace) (rev (strip s)) = None.
Proof.
  split; [|apply rstrip_stable].
  unfold strip. destruct (rstrip_prefix (lstrip s)) as (b & Hb).
  apply (drop_space_prefix _ _ b). rewrite <- Hb. apply lstrip_stable.
Qed.

Lemma strip_idempotent (s : string) : strip (strip s) = strip s.
Proof. apply strip_fixed; apply strip_stable. Qed.

Lemma strip_fixed_ends (s : string) :
  strip s = s ->
  drop_space whitespace s = None /\
  drop_space (map rev whitespace) (rev s) = None.
Proof. intros H. rewrite <- H. apply strip_stable. Qed.

(** ** The characters of a file name *)

Lemma contains_true_app (c : ascii) (a b : string) :
  contains c (a ++ b) = true -> contains c a = true \/ contains c b = true.
Proof. rewrite contains_app. apply orb_true_iff. Qed.

Lemma digits_chars_nil_empty (c : ascii) (d : Decimal.uint) :
  contains c (NilEmpty.string_of_uint d) = true ->
  contains c "0123456789" = true.
Proof.
  induction d as [|d IH|d IH|d IH|d IH|d IH|d IH|d IH|d IH|d IH|d IH];
    cbn [NilEmpty.string_of_uint contains]; intros H;
    [discriminate|..];
    (apply orb_true_iff in H; destruct H as [H|H];
     [apply Ascii.eqb_eq in H; subst c; reflexivity|exact (IH H)]).
Qed.

Lemma digits_chars (c : ascii) (d : Decimal.uint) :
  contains c (NilZero.string_of_uint d) = true ->
  contains c "0123456789" = true.
Proof.
  destruct d; try apply digits_chars_nil_empty.
  cbn [NilZero.string_of_uint contains]. intros H.
  apply orb_true_iff in H. destruct H as [H|H]; [|discriminate].
  apply Ascii.eqb_eq in H. subst c. reflexivity.
Qed.

Lemma zeros_chars (c : ascii) (n : nat) :
  contains c (Py.zeros n) = true -> contains c "0123456789" = true.
Proof.
  induction n as [|n IH]; cbn [Py.zeros contains]; intros H; [discriminate|].
  apply orb_true_iff in H. destruct H as [H|H]; [|exact (IH H)].
  apply Ascii.eqb_eq in H. subst c. reflexivity.
Qed.

Lemma digits_allowed (c : ascii) :
  contains c "0123456789" = true -> contains c "-0123456789.wav" = true.
Proof.
  intros H. cbn [contains] in H.
  repeat (apply orb_true_iff in H; destruct H as [H|H]);
    try discriminate; apply Ascii.eqb_eq in H; subst c; reflexivity.
Qed.

(** The characters of a file name are a sign, digits and those of the
    suffix. *)
Lemma wav_name_chars (c : ascii) (i : Z) :
  contains c (Recorder.wav_name i) = true ->
  contains c "-0123456789.wav" = true.
Proof.
  unfold Recorder.wav_name, Py.format_0d. intros H.
  apply contains_true_app in H. destruct H as [H|H].
  - destruct (_ <? _)%Z.
    + cbn [contains] in H. apply orb_true_iff in H. destruct H as [H|H].
      * apply Ascii.eqb_eq in H. subst c. reflexivity.
      * apply contains_true_app in H. apply digits_allowed.
        destruct H as [H|H]; [exact (zeros_chars _ _ H)|exact (digits_chars _ _ H)].
    + apply contains_true_app in H. apply digits_allowed.
      destruct H as [H|H]; [exact (zeros_chars _ _ H)|exact (digits_chars _ _ H)].
  - cbn [contains] in *.
    repeat (apply orb_true_iff in H; destruct H as [H|H]);
      try discriminate; apply Ascii.eqb_eq in H; subst c; reflexivity.
Qed.

Lemma wav_name_lacks (c : ascii) (i : Z) :
  contains c "-0123456789.wav" = false ->
  contains c (Recorder.wav_name i) = false.
Proof.
  intros H. destruct (contains c (Recorder.wav_name i)) eqn:E; [|reflexivity].
  rewrite (wav_name_chars _ _ E) in H. discriminate.
Qed.

Lemma plain_start (c : ascii) (t : string) :
  contains c "-0123456789.wav" = true ->
  drop_space whitespace (String c t) = None.
Proof.
  intros H. cbn [contains] in H.
  repeat (apply orb_true_iff in H; destruct H as [H|H]);
    try discriminate; apply Ascii.eqb_eq in H; subst c; reflexivity.
Qed.

Lemma wav_name_start (i : Z) (x : string) :
  drop_space whitespace (Recorder.wav_name i ++ x) = None.
Proof.
  pose proof (wav_name_chars) as Hc.
  destruct (Recorder.wav_name i) as [|c t] eqn:E.
  - exfalso. unfold Recorder.wav_name in E.
    assert (H : contains "." (Py.format_0d 3 (i + 1) ++ ".wav") = true)
      by (rewrite contains_app; apply orb_true_iff; right; reflexivity).
    rewrite E in H. discriminate.
  - cbn [append]. apply plain_start. apply (Hc c i).
    rewrite E. cbn [contains]. rewrite Ascii.eqb_refl. reflexivity.
Qed.

Lemma rev_whitespace_no_bar :
  Forall (fun p => contains "|" p = false) (map rev whitespace).
Proof. repeat constructor. Qed.

(** The row of a prompt whose text is one stripped line is well formed. *)
Lemma row_well_formed (i : Z) (s : string) :
  strip s = s -> one_line s -> well_formed_row (Recorder.wav_name i, s).
Proof.
  intros Hs [Hlf Hcr]. unfold well_formed_row, entry_line.
  cbn [filename_of sentence_of fst snd].
  split; [apply wav_name_lacks; reflexivity|].
  split.
  { rewrite contains_app, (wav_name_lacks _ i) by reflexivity.
    cbn [append contains orb]. rewrite Hlf. reflexivity. }
  split.
  { rewrite contains_app, (wav_name_lacks _ i) by reflexivity.
    cbn [append contains orb]. rewrite Hcr. reflexivity. }
  apply strip_fixed; [apply wav_name_start|].
  rewrite rev_app. change ("|" ++ s)%string with (String "|" s).
  cbn [rev]. rewrite append_assoc. cbn [append].
  apply drop_space_sep; [apply rev_whitespace_no_bar|].
  apply strip_fixed_ends, Hs.
Qed.

End PyStrFacts.

(* ------------------------------------------------------------------ *)
(** * Extras: the ledger from one session to the next *)
(* ------------------------------------------------------------------ *)

Module SessionExtras.
Import Ledger World Props Recorder RecorderFacts Loader PyStrFacts.
Local Open Scope Z_scope.

#[local] Arguments Signal.trim_silence : simpl never.
#[local] Arguments Signal.normalize_audio : simpl never.
#[local] Arguments Signal.rms : simpl never.
#[local] Arguments Signal.np_lt : simpl never.
#[local] Arguments Signal.np_gt : simpl never.
#[local] Arguments metadata_lines : simpl never.
#[local] Arguments wav_name : simpl never.
#[local] Arguments Py.getitem : simpl never.
#[local] Arguments Py.len : simpl never.
#[local] Arguments display_status : simpl never.
#[local] Arguments stopping : simpl never.
#[local] Arguments processed : simpl never.

(** ** Loaded prompts *)

Lemma defaults_clean :
  forallb (fun d => String.eqb (PyStr.strip d) d
                    && negb (PyStr.contains (ascii_of_nat 10) d)
                    && negb (PyStr.contains (ascii_of_nat 13) d))
          DEFAULT_SENTENCES = true.
Proof. vm_compute. reflexivity. Qed.

Lemma default_sentence_clean (s : string) :
  In s DEFAULT_SENTENCES -> PyStr.strip s = s /\ one_line s.
Proof.
  intros H. pose proof (proj1 (forallb_forall _ _) defaults_clean s H) as Hc.
  apply andb_true_iff in Hc. destruct Hc as [Hc Hcr].
  apply andb_true_iff in Hc. destruct Hc as [Hs Hlf].
  apply String.eqb_eq in Hs. apply negb_true_iff in Hlf, Hcr.
  repeat split; assumption.
Qed.

Lemma load_sentences_cases (file : read_result) :
  load_sentences file = DEFAULT_SENTENCES \/
  exists lines, file = Lines lines /\
                load_sentences file = stripped_lines lines.
Proof.
  destruct file as [| |lines]; [left; reflexivity|left; reflexivity|].
  unfold load_sentences.
  destruct (stripped_lines lines) as [|s t] eqn:E; [left; reflexivity|].
  right. exists lines. split; [reflexivity|symmetry; exact E].
Qed.

Lemma load_sentences_not_nil (file : read_result) : load_sentences file <> [].
Proof.
  destruct file as [| |lines]; [discriminate|discriminate|].
  unfold load_sentences.
  destruct (stripped_lines lines) as [|s t] eqn:E; discriminate.
Qed.

Lemma loaded_sentence_stripped (file : read_result) (s : string) :
  In s (load_sentences file) -> PyStr.strip s = s /\ nonempty s = true.
Proof.
  destruct (load_sentences_cases file) as [->|(lines & _ & ->)]; intros H.
  - split; [apply default_sentence_clean, H|].
    apply (proj1 (forallb_forall _ _) LoaderExtras.defaults_nonempty s H).
  - unfold stripped_lines in H. apply in_map_iff in H.
    destruct H as (line & <- & Hin). apply filter_In in Hin.
    split; [apply strip_idempotent|apply Hin].
Qed.

Lemma loaded_sentence_one_line (file : read_result) (s : string) :
  text_file file -> In s (load_sentences file) -> one_line s.
Proof.
  intros Hf.
  destruct (load_sentences_cases file) as [->|(lines & -> & ->)]; intros H.
  - apply default_sentence_clean, H.
  - unfold stripped_lines in H. apply in_map_iff in H.
    destruct H as (line & <- & Hin). apply filter_In in Hin.
    cbn [text_file] in Hf. rewrite Forall_forall in Hf.
    destruct (Hf line (proj1 Hin)) as [Hlf Hcr].
    split; apply strip_contains; assumption.
Qed.

Lemma stripped_lines_fixed (l : list string) :
  Forall (fun s => PyStr.strip s = s /\ nonempty s = true) l ->
  stripped_lines l = l.
Proof.
  unfold stripped_lines. induction 1 as [|s t [Hs Hn] _ IH]; [reflexivity|].
  cbn [filter]. rewrite Hs, Hn. cbn [map]. rewrite Hs, IH. reflexivity.
Qed.

(** The prompts of a session have no white space around them, and a
    sentences file written from them, one per line, loads as the same
    prompts: loading is idempotent. *)
Theorem load_sentences_reload (file : read_result) :
  Forall (fun s => PyStr.strip s = s) (load_sentences file) /\
  load_sentences (Lines (load_sentences file)) = load_sentences file.
Proof.
  assert (H : Forall (fun s => PyStr.strip s = s /\ nonempty s = true)
                (load_sentences file))
    by (apply Forall_forall; intros s; apply loaded_sentence_stripped).
  split.
  - apply (Forall_impl _ (fun s Hs => proj1 Hs) H).
  - pose proof (load_sentences_not_nil file) as Hn.
    change (load_sentences (Lines (load_sentences file)))
      with (match stripped_lines (load_sentences file) with
            | [] => DEFAULT_SENTENCES
            | sentences => sentences
            end).
    rewrite (stripped_lines_fixed _ H).
    destruct (load_sentences file); [contradiction|reflexivity].
Qed.

(** ** The rows of the ledger *)

Lemma getitem_in {A} (l : list A) (i : Z) (x : A) :
  Py.getitem l i = Some x -> In x l.
Proof.
  intros H. destruct (ReviewFacts.norm_index_nth l i x H) as (k & _ & Hk).
  apply (nth_error_In _ _ Hk).
Qed.

(** The row that [stop_recording] may add carries the prompt under the
    cursor. *)
Lemma stop_recording_row (env : Env) (w : World) :
  metadata (app (stop_recording env w)) = metadata (app w) \/
  exists s, Py.getitem (sentences (app w)) (index (app w)) = Some s /\
            metadata (app (stop_recording env w))
            = metadata (app w) ++ [(wav_name (index (app w)), s)].
Proof.
  rewrite stop_recording_eq.
  destruct (stopping_fields w) as (Hs & Hi & Hr & Ha & Hm & Hw & Hf & Hl).
  destruct (audio_data (app w)) as [|b bs] eqn:Hd.
  - left.
    match goal with
    | |- context [update_sentence_display ?x] =>
        destruct (update_sentence_display_app x) as (_ & _ & _ & _ & -> & _)
    end.
    cbn. exact Hm.
  - cbv zeta.
    destruct (Signal.np_lt _ _);
      [left; apply (rejected_fields _ _ w)|].
    destruct (Signal.np_gt _ _);
      [left; apply (rejected_fields _ _ w)|].
    set (audio := List.concat (b :: bs)).
    set (r := Signal.rms audio).
    destruct (sf_write_raises env) eqn:Hsf.
    { rewrite (save_recording_write_raises env audio r (stopping w) Hsf).
      destruct (failed_fields OSError w (stopping w) eq_refl Hr)
        as (_ & _ & _ & -> & _).
      left. exact Hm. }
    destruct (Py.getitem (sentences (app (stopping w)))
                         (index (app (stopping w)))) as [s|] eqn:Hg.
    2:{ rewrite (save_recording_no_sentence env audio r (stopping w) Hsf Hg).
        match goal with
        | |- context [save_failed ?e ?x] =>
            destruct (failed_fields e w x eq_refl Hr) as (_ & _ & _ & -> & _)
        end.
        left. exact Hm. }
    right. exists s. split; [rewrite <- Hs, <- Hi; exact Hg|].
    destruct (meta_open_raises env) eqn:Hmo.
    { rewrite (save_recording_ledger_raises env audio r (stopping w) s
                 Hsf Hg Hmo).
      match goal with
      | |- context [save_failed ?e ?x] =>
          destruct (failed_fields e w x eq_refl Hr) as (_ & _ & _ & -> & _)
      end.
      cbn [app with_app metadata set_metadata put_wav].
      rewrite Hm, Hi. reflexivity. }
    rewrite (save_recording_saved env audio r (stopping w) s Hsf Hg Hmo).
    pose proof (saved_fields w (stopping w)
                  (wav_name (index (app (stopping w)))) s
                  (processed audio) r Hs Hi Hr) as HS.
    assert (Hlt : index (app w) < Py.len (sentences (app w))).
    { rewrite <- Hs, <- Hi. apply (getitem_some_lt _ _ _ Hg). }
    specialize (HS Hlt). cbv zeta in HS.
    destruct HS as (_ & _ & _ & _ & S2 & _).
    rewrite S2, Hm, Hi. reflexivity.
Qed.

Lemma prompt_rows_app (ss : list string) (m1 m2 : list entry) :
  prompt_rows ss m1 -> prompt_rows ss m2 -> prompt_rows ss (m1 ++ m2).
Proof. intros H1 H2. apply Forall_app. split; assumption. Qed.

Lemma step_rows (c : command) (w : World) :
  prompt_rows (sentences (app w)) (metadata (app w)) ->
  prompt_rows (sentences (app (step c w))) (metadata (app (step c w))).
Proof.
  intros H. destruct c as [env| | |b]; cbn [step].
  - unfold toggle_recording. destruct (recording (app w)).
    + destruct (RecorderExtras.stop_recording_frame env w) as (-> & _).
      destruct (stop_recording_row env w) as [->|(s & Hg & ->)]; [exact H|].
      apply prompt_rows_app; [exact H|].
      constructor; [|constructor].
      exists (index (app w)). split; [reflexivity|exact Hg].
    + destruct (RecorderExtras.start_recording_fields env w)
        as (-> & _ & -> & _).
      exact H.
  - unfold skip_sentence.
    destruct (next_sentence_frame w) as (-> & _ & _ & -> & _). exact H.
  - destruct (previous_sentence_frame w) as (-> & _ & _ & -> & _). exact H.
  - destruct (RecorderExtras.audio_callback_fields b w)
      as (-> & _ & _ & -> & _).
    exact H.
Qed.

(** Whatever the user does in the main window, every row of the ledger
    pairs the file of a prompt with the text of that prompt, if this was
    so before: a take is filed under the number of the prompt that was
    read. *)
Theorem ledger_rows_are_prompts (cs : list command) (w : World) :
  prompt_rows (sentences (app w)) (metadata (app w)) ->
  prompt_rows (sentences (app (run cs w))) (metadata (app (run cs w))).
Proof.
  revert w. induction cs as [|c t IH]; intros w H; [exact H|].
  unfold run in *. cbn [fold_left]. apply IH, step_rows, H.
Qed.

Lemma ledger_rows_are_prompts_witness :
  prompt_rows
    (sentences (app (run [StartStop calm; Block [0.2%R]; StartStop calm]
                         one_recorded)))
    (metadata (app (run [StartStop calm; Block [0.2%R]; StartStop calm]
                        one_recorded))).
Proof.
  apply ledger_rows_are_prompts.
  constructor; [|constructor].
  exists 0. split; reflexivity.
Defined.

(** ** From one session to the next *)

Lemma prompt_row_well_formed (file : read_result) (e : entry) :
  text_file file ->
  (exists i : Z, filename_of e = wav_name i /\
                 Py.getitem (load_sentences file) i = Some (sentence_of e)) ->
  well_formed_row e.
Proof.
  intros Hf (i & Hn & Hg). destruct e as [f s].
  cbn [filename_of sentence_of fst snd] in Hn, Hg. subst f.
  pose proof (getitem_in _ _ _ Hg) as Hin.
  apply row_well_formed.
  - apply (loaded_sentence_stripped file s Hin).
  - apply (loaded_sentence_one_line file s Hf Hin).
Qed.

(** The ledger of a session survives a restart.  When the prompts are
    those [load_sentences] gave for a text file and every row of the
    ledger pairs the file of a prompt with the text of that prompt, the
    ledger file written from it is read back by a new session on the
    same prompts as the same rows, sorted by filename, and these again
    pair files with prompts: no row is lost, split or altered by the
    format of [metadata.csv]. *)
Theorem session_ledger_reloads (file : read_result) (m : list entry)
        (wav : string -> option (list R)) :
  text_file file ->
  prompt_rows (load_sentences file) m ->
  let w := init (load_sentences file) wav (Some (metadata_lines m)) in
  load_metadata (Some (metadata_lines m)) = sorted_by_filename m /\
  sentences (app w) = load_sentences file /\
  metadata (app w) = sorted_by_filename m /\
  prompt_rows (sentences (app w)) (metadata (app w)).
Proof.
  intros Hf Hm. cbv zeta.
  assert (Hl : load_metadata (Some (metadata_lines m)) = sorted_by_filename m).
  { unfold metadata_lines. apply LedgerExtras.load_lines.
    apply Forall_forall. intros e He.
    apply (prompt_row_well_formed file e Hf).
    unfold prompt_rows in Hm. rewrite Forall_forall in Hm. apply Hm.
    apply (Permutation_in _ (LedgerFacts.sorted_perm m) He). }
  unfold init.
  match goal with
  | |- context [update_sentence_display ?x] =>
      destruct (update_sentence_display_app x)
        as (Es & _ & _ & _ & Em & _)
  end.
  cbn [app with_app] in Es, Em.
  destruct (RecorderExtras.skip_to_next_unrecorded_cases
              (mkApp (load_sentences file) 0 false [] NoStream
                     (load_metadata (Some (metadata_lines m)))
                     ReadyToRecord LevelReady))
    as (Hs & Hmm & _).
  rewrite Es, Em, Hs, Hmm. cbn [sentences metadata]. rewrite Hl.
  repeat split.
  unfold prompt_rows.
  apply (Permutation_Forall (Permutation_sym (LedgerFacts.sorted_perm m)) Hm).
Qed.

Lemma hello_file_text :
  text_file (Lines ["  Hello world "; "Test two"; "   "]%string).
Proof. repeat constructor. Qed.

Lemma hello_rows_prompts :
  prompt_rows
    (load_sentences (Lines ["  Hello world "; "Test two"; "   "]%string))
    [("002.wav", "Test two"); ("001.wav", "Hello world")]%string.
Proof.
  constructor; [exists 1; split; reflexivity|].
  constructor; [exists 0; split; reflexivity|constructor].
Qed.

Lemma session_ledger_reloads_witness :
  load_metadata
    (Some (metadata_lines
             [("002.wav", "Test two"); ("001.wav", "Hello world")]%string))
  = sorted_by_filename
      [("002.wav", "Test two"); ("001.wav", "Hello world")]%string.
Proof.
  exact (proj1 (session_ledger_reloads _ _ (fun _ => None)
                  hello_file_text hello_rows_prompts)).
Defined.

End SessionExtras.
